(** * Excel-to-ICS converter: the schedule loader and the pattern expander

    A shallow embedding of [src/script.py] ([convert_xlsx_to_ics],
    [create_events_from_pattern], [refresh_file_list] and
    [import_files]) together with the properties of the repository's
    specification that concern them and further properties of the code.

    Conventions of the embedding.
    - A Python [str] is the list of its code points, each a [Z]; every
      code point of Unicode can stand in it.  The tables of white
      space, decimal digits and letter case are those of Unicode 14.0,
      which Python 3.11 carries.
    - A [datetime.date] is its proleptic Gregorian ordinal
      ([date.toordinal()]), a [Z] between 1 and [MAXORDINAL].
    - A raised exception is the [Raise] branch of [result]; statements
      of the source are sequenced with the bind of that monad.
    - pandas is the library of version 2: a sheet without columns is
      read as [DataFrame()], and [NaT] refuses to be compared with a
      [datetime.date]. *)

From Stdlib Require Import String Ascii List ZArith Lia Bool.
From Stdlib Require Import DecimalString Sorted Permutation.
Import ListNotations.

Local Open Scope Z_scope.
Local Open Scope list_scope.

(** The type of the elements of a list literal may come from the context. *)
Arguments cons {A} & a l.

(** ** Strings *)

Module Str.

Definition str := list Z.

(** [ord(c)] for a character written as a literal. *)
Definition ord (c : ascii) : Z := Z.of_N (N_of_ascii c).
Arguments ord c%_char.
Coercion ord : ascii >-> Z.

(** String literals of the source are written [s "..."]. *)
Definition s (x : string) : str := map ord (list_ascii_of_string x).

Definition eqb (a b : str) : bool :=
  if list_eq_dec Z.eq_dec a b then true else false.

(** [c.isspace()]: TAB..CR, FS..US, space, NEL, NBSP, the Ogham space
    mark, EN QUAD..HAIR SPACE, the line and paragraph separators, the
    narrow no-break space, the medium mathematical space and the
    ideographic space.  The class [\s] of [re] is the same set. *)
Definition isspace (c : Z) : bool :=
  ((9 <=? c) && (c <=? 13)) || ((28 <=? c) && (c <=? 32))
  || (c =? 133) || (c =? 160) || (c =? 5760)
  || ((8192 <=? c) && (c <=? 8202)) || (c =? 8232) || (c =? 8233)
  || (c =? 8239) || (c =? 8287) || (c =? 12288).

(** Line boundaries of [str.splitlines]: LF, VT, FF, CR, FS, GS, RS,
    NEL, and the line and paragraph separators. *)
Definition islinebreak (c : Z) : bool :=
  ((10 <=? c) && (c <=? 13)) || ((28 <=? c) && (c <=? 30)) || (c =? 133)
  || (c =? 8232) || (c =? 8233).

Fixpoint lstrip (x : str) : str :=
  match x with
  | c :: r => if isspace c then lstrip r else x
  | [] => []
  end.

Definition rstrip (x : str) : str := rev (lstrip (rev x)).

(** [x.strip()] *)
Definition strip (x : str) : str := rstrip (lstrip x).

(** [x.split(sep)] for a one-character separator: the pieces between the
    separators, always at least one piece. *)
Fixpoint split (sep : Z) (x : str) : list str :=
  match x with
  | [] => [[]]
  | c :: r =>
      if c =? sep then [] :: split sep r
      else match split sep r with
           | p :: ps => (c :: p) :: ps
           | [] => [[c]]
           end
  end.
Arguments split sep%_char x.

(** [x.splitlines()]: CR LF counts as one boundary and a final boundary
    opens no further line.  [cur] is the line being read, reversed. *)
Fixpoint splitlines_from (cur : str) (x : str) : list str :=
  match x with
  | [] => match cur with [] => [] | _ => [rev cur] end
  | c :: r =>
      if islinebreak c then
        match r with
        | c' :: r' =>
            if (c =? 13) && (c' =? 10)
            then rev cur :: splitlines_from [] r'
            else rev cur :: splitlines_from [] r
        | [] => [rev cur]
        end
      else splitlines_from (c :: cur) r
  end.

Definition splitlines (x : str) : list str := splitlines_from [] x.

(** [x.replace("TH", "H")]: every occurrence, scanning left to right. *)
Fixpoint replace_TH_H (x : str) : str :=
  match x with
  | [] => []
  | c :: r =>
      match r with
      | c' :: r' =>
          if (c =? ord "T") && (c' =? ord "H")
          then c' :: replace_TH_H r'
          else c :: replace_TH_H r
      | [] => [c]
      end
  end.

(** *** Letter case

    [x.upper()] and [x.lower()] are used to look a string up among
    ASCII keys (line 91) and to search ASCII keywords in it (lines 26
    to 32).  The embedding gives the two forms as far as ASCII goes:
    the ASCII characters of the form stand as they are, and [other]
    stands for a character beyond ASCII, or for several in a row.  A
    key or a keyword written in ASCII is found in this view exactly
    when it is found in the form itself. *)

Definition other : Z := -1.

Definition isascii (c : Z) : bool := (0 <=? c) && (c <? 128).

Fixpoint assoc (c : Z) (table : list (Z * str)) : option str :=
  match table with
  | [] => None
  | (k, v) :: r => if c =? k then Some v else assoc c r
  end.

(** The characters beyond ASCII whose upper-case form holds an ASCII
    character: the sharp s (SS), the dotless i (I), the n with
    apostrophe, the long s (S), the j with caron, h, t, w, y and a with
    their marks, and the ligatures ff, fi, fl, ffi, ffl, long-s-t and
    st. *)
Definition upper_special : list (Z * str) :=
  [(223, s "SS"); (305, s "I"); (329, other :: s "N"); (383, s "S");
   (496, s "J" ++ [other]); (7830, s "H" ++ [other]);
   (7831, s "T" ++ [other]); (7832, s "W" ++ [other]);
   (7833, s "Y" ++ [other]); (7834, s "A" ++ [other]);
   (64256, s "FF"); (64257, s "FI"); (64258, s "FL"); (64259, s "FFI");
   (64260, s "FFL"); (64261, s "ST"); (64262, s "ST")].

(** The characters beyond ASCII whose lower-case form holds an ASCII
    character: the capital I with dot (an i and a combining dot) and the
    Kelvin sign (k). *)
Definition lower_special : list (Z * str) :=
  [(304, s "i" ++ [other]); (8490, s "k")].

(** [c.upper()] of one character, as far as ASCII goes. *)
Definition upper_char (c : Z) : str :=
  if (97 <=? c) && (c <=? 122) then [c - 32]
  else if isascii c then [c]
  else match assoc c upper_special with
       | Some u => u
       | None => [other]
       end.

(** [c.lower()] of one character, as far as ASCII goes. *)
Definition lower_char (c : Z) : str :=
  if (65 <=? c) && (c <=? 90) then [c + 32]
  else if isascii c then [c]
  else match assoc c lower_special with
       | Some l => l
       | None => [other]
       end.

(** The forms of a string are made character by character (the capital
    sigma, whose lower-case form depends on its place, has no ASCII in
    either). *)
Definition upper (x : str) : str := flat_map upper_char x.
Definition lower (x : str) : str := flat_map lower_char x.

Fixpoint startswith (p x : str) : bool :=
  match p, x with
  | [], _ => true
  | a :: p', b :: x' => (a =? b) && startswith p' x'
  | _ :: _, [] => false
  end.

(** [p in x] for strings: [p] occurs in [x] as a substring. *)
Fixpoint contains (p x : str) : bool :=
  startswith p x ||
  match x with
  | [] => false
  | _ :: r => contains p r
  end.

End Str.
Import Str.


(** ** Exceptions *)

Inductive exn : Type :=
| ValueError (msg : str)      (* [raise ValueError(msg)] of line 40 *)
| UnpackError (got : nat)     (* ValueError: two targets, [got] values *)
| TimeDataError (data : str)  (* ValueError of [datetime.strptime] *)
| TruthValueError             (* ValueError: the truth value of a Series *)
| TypeError                   (* [NaT] compared with a [datetime.date] *)
| AttributeError              (* [.str] or [.lower] where no string is *)
| OverflowError.              (* [date + timedelta] outside the calendar *)

(** [isinstance(e, ValueError)] *)
Definition is_ValueError (e : exn) : bool :=
  match e with
  | ValueError _ | UnpackError _ | TimeDataError _ | TruthValueError => true
  | TypeError | AttributeError | OverflowError => false
  end.

Inductive result (A : Type) : Type :=
| Ok (a : A)
| Raise (e : exn).
Arguments Ok {A} a.
Arguments Raise {A} e.

Definition bind {A B : Type} (m : result A) (k : A -> result B) : result B :=
  match m with
  | Ok a => k a
  | Raise e => Raise e
  end.

Notation "x <- m ;; k" := (bind m (fun x => k))
  (at level 61, m at next level, right associativity).

(** ** Dates and times of [datetime] *)

Module Datetime.

Definition MAXORDINAL : Z := 3652059.

Definition is_leap (y : Z) : bool :=
  (y mod 4 =? 0) && (negb (y mod 100 =? 0) || (y mod 400 =? 0)).

Definition days_before_year (y : Z) : Z :=
  let y1 := y - 1 in y1 * 365 + y1 / 4 - y1 / 100 + y1 / 400.

Definition DAYS_BEFORE_MONTH : list Z :=
  [0; 0; 31; 59; 90; 120; 151; 181; 212; 243; 273; 304; 334].

Definition days_before_month (y m : Z) : Z :=
  nth (Z.to_nat m) DAYS_BEFORE_MONTH 0
  + (if (2 <? m) && is_leap y then 1 else 0).

(** [date(y, m, d).toordinal()] *)
Definition ymd2ord (y m d : Z) : Z :=
  days_before_year y + days_before_month y m + d.

(** [d.weekday()]: Monday is 0. *)
Definition weekday (d : Z) : Z := (d + 6) mod 7.

(** [d + timedelta(days=n)] *)
Definition date_add (d n : Z) : result Z :=
  let o := d + n in
  if (0 <? o) && (o <=? MAXORDINAL) then Ok o else Raise OverflowError.

Record time : Type := mk_time { hour : Z; minute : Z }.

Record datetime : Type := mk_datetime { dt_date : Z; dt_time : time }.

(** [datetime.combine(d, t)] *)
Definition combine (d : Z) (t : time) : datetime := mk_datetime d t.

(** Minutes since the midnight that begins ordinal 0: the order and the
    differences of [datetime] values. *)
Definition minutes (x : datetime) : Z :=
  dt_date x * 1440 + hour (dt_time x) * 60 + minute (dt_time x).

(** The decimal digits of Unicode come in runs of ten, zero to nine;
    these are the zeros. *)
Definition decimal_zeros : list Z :=
  [48; 1632; 1776; 1984; 2406; 2534; 2662; 2790; 2918; 3046; 3174; 3302;
   3430; 3558; 3664; 3792; 3872; 4160; 4240; 6112; 6160; 6470; 6608; 6784;
   6800; 6992; 7088; 7232; 7248; 42528; 43216; 43264; 43472; 43504; 43600;
   44016; 65296; 66720; 68912; 69734; 69872; 69942; 70096; 70384; 70736;
   70864; 71248; 71360; 71472; 71904; 72016; 72784; 73040; 73120; 92768;
   92864; 93008; 120782; 120792; 120802; 120812; 120822; 123200; 123632;
   125264; 130032].

Fixpoint digit_among (zeros : list Z) (c : Z) : option Z :=
  match zeros with
  | [] => None
  | z :: r => if (z <=? c) && (c <=? z + 9) then Some (c - z)
              else digit_among r c
  end.

(** The class [\d] of [re] on a string pattern: a decimal digit of any
    script, with the value [int] gives it. *)
Definition decimal_digit (c : Z) : option Z := digit_among decimal_zeros c.

(** The classes [[0-5]], [[1-9]] and the like: ASCII digits only. *)
Definition digit (c : Z) : Z := c - 48.
Definition between (lo hi : Z) (c : Z) : bool :=
  (lo <=? digit c) && (digit c <=? hi).

(** The directive [%I] followed by the colon of the format: the
    alternatives [1[0-2]], [0[1-9]], [[1-9]] in this order. *)
Definition parse_I (x : str) : option (Z * str) :=
  match x with
  | a :: b :: c :: r =>
      if (c =? ord ":") &&
         (((a =? ord "1") && between 0 2 b) || ((a =? ord "0") && between 1 9 b))
      then Some (10 * digit a + digit b, r)
      else if between 1 9 a && (b =? ord ":") then Some (digit a, c :: r)
      else None
  | [a; b] => if between 1 9 a && (b =? ord ":") then Some (digit a, []) else None
  | _ => None
  end.

(** The directive [%M]: the alternatives [[0-5]\d], [\d] in this order;
    what follows in the format is white space, so one alternative at
    most lets the match go on. *)
Definition parse_M (x : str) : option (Z * str) :=
  match x with
  | a :: r1 =>
      match r1 with
      | b :: r =>
          match (if between 0 5 a then decimal_digit b else None) with
          | Some units => Some (10 * digit a + units, r)
          | None => match decimal_digit a with
                    | Some units => Some (units, r1)
                    | None => None
                    end
          end
      | [] => match decimal_digit a with
              | Some units => Some (units, [])
              | None => None
              end
      end
  | [] => None
  end.

(** The blank of the format, [\s+], then [%p] in the C locale: [am] or
    [pm] in any case (no character beyond ASCII matches one of these
    letters when case is ignored), and nothing after it. *)
Definition parse_p (x : str) : option bool :=
  match x with
  | w :: r =>
      if isspace w then
        match lstrip r with
        | [a; m] =>
            if (m =? ord "m") || (m =? ord "M") then
              if (a =? ord "a") || (a =? ord "A") then Some false
              else if (a =? ord "p") || (a =? ord "P") then Some true
              else None
            else None
        | _ => None
        end
      else None
  | [] => None
  end.

(** [datetime.strptime(x, "%I:%M %p").time()] *)
Definition strptime_time (x : str) : result time :=
  match parse_I x with
  | Some (h, r1) =>
      match parse_M r1 with
      | Some (m, r2) =>
          match parse_p r2 with
          | Some pm =>
              let h' := if pm then (if h =? 12 then 12 else h + 12)
                        else (if h =? 12 then 0 else h) in
              Ok (mk_time h' m)
          | None => Raise (TimeDataError x)
          end
      | None => Raise (TimeDataError x)
      end
  | None => Raise (TimeDataError x)
  end.

End Datetime.
Import Datetime.

(** ** Dictionaries with string keys *)

(** [d.get(k)] on a dictionary given by its items. *)
Fixpoint dict_get {V : Type} (k : str) (d : list (str * V)) : option V :=
  match d with
  | [] => None
  | (k', v) :: r => if Str.eqb k k' then Some v else dict_get k r
  end.

(** ** The pattern expander *)

Definition DAY_MAP : list (str * Z) :=
  [(s "M", 0); (s "T", 1); (s "W", 2); (s "TH", 3); (s "F", 4); (s "S", 5);
   (s "SU", 6)].

(** The [Event] component built at the end of the inner loop. *)
Record Event : Type := mk_Event {
  summary : str;
  dtstart : datetime;
  dtend : datetime;
  description : str
}.

(** [a, b = xs]: exactly two values, or a ValueError. *)
Definition unpack2 (xs : list str) : result (str * str) :=
  match xs with
  | [a; b] => Ok (a, b)
  | _ => Raise (UnpackError (List.length xs))
  end.

Section Expander.

Variables (course : str) (week_start_date semester_end_date : Z).

Section Line.

Variables (line location start_time_str end_time_str : str).

(** [for day_char in temp_days: ...], lines 89 to 108; [events] is the
    list the loop appends to. *)
Fixpoint days_loop (temp_days : str) (events : list Event)
  : result (list Event) :=
  match temp_days with
  | [] => Ok events
  | c :: rest =>
      let day_char := if c =? ord "H" then s "TH" else [c] in
      match dict_get (upper day_char) DAY_MAP with
      | None => days_loop rest events
      | Some weekday_ =>
          event_date <-
            date_add week_start_date
                     ((weekday_ - weekday week_start_date) mod 7) ;;
          if semester_end_date <? event_date then days_loop rest events
          else
            start_t <- strptime_time start_time_str ;;
            end_t <- strptime_time end_time_str ;;
            let event :=
              mk_Event course
                       (combine event_date start_t)
                       (combine event_date end_t)
                       (s "Meeting Pattern: " ++ line ++ s " | " ++ location) in
            days_loop rest (events ++ [event])
      end
  end.

End Line.

(** The body of [for line in pattern_text.splitlines()], lines 80 to 108. *)
Definition line_body (line : str) (events : list Event)
  : result (list Event) :=
  let parts := map strip (split "|" line) in
  if (List.length parts <? 2)%nat then Ok events
  else
    let days := nth 0 parts [] in
    let times := nth 1 parts [] in
    let location := if (2 <? List.length parts)%nat then nth 2 parts [] else [] in
    p <- unpack2 (map strip (split "-" times)) ;;
    let (start_time_str, end_time_str) := p in
    let temp_days := replace_TH_H days in
    days_loop line location start_time_str end_time_str temp_days events.

Fixpoint lines_loop (lines : list str) (events : list Event)
  : result (list Event) :=
  match lines with
  | [] => Ok events
  | line :: rest =>
      events' <- line_body line events ;;
      lines_loop rest events'
  end.

End Expander.

Definition create_events_from_pattern (course pattern_text : str)
  (week_start_date semester_end_date : Z) : result (list Event) :=
  lines_loop course week_start_date semester_end_date
             (splitlines pattern_text) [].

(** The weekdays the inner loop looks at, lines 88 to 93 taken alone:
    one lookup in [DAY_MAP] for every character of [temp_days]. *)
Definition day_lookup (c : Z) : option Z :=
  let day_char := if c =? ord "H" then s "TH" else [c] in
  dict_get (upper day_char) DAY_MAP.
Arguments day_lookup c%_char.

Definition day_codes (temp_days : str) : list Z :=
  flat_map (fun c => match day_lookup c with Some w => [w] | None => [] end)
           temp_days.

Definition decode_days (days : str) : list Z := day_codes (replace_TH_H days).

(** Line 95: the first date on or after [week_start_date] that falls on
    weekday [w]. *)
Definition event_date_of (week_start_date w : Z) : Z :=
  week_start_date + (w - weekday week_start_date) mod 7.

(** Following the specification's words ("enumerating matched weekdays
    back to canonical letters"): the key of [DAY_MAP] that carries a
    weekday, and the token spelled by a list of weekdays. *)
Fixpoint key_of (w : Z) (d : list (str * Z)) : str :=
  match d with
  | [] => []
  | (k, v) :: r => if v =? w then k else key_of w r
  end.

Definition encode_days (ws : list Z) : str :=
  concat (map (fun w => key_of w DAY_MAP) ws).

(** ** The schedule table loader *)

(** [d[k] = v] on a dictionary given by its items. *)
Fixpoint dict_set {V : Type} (k : str) (v : V) (d : list (str * V))
  : list (str * V) :=
  match d with
  | [] => [(k, v)]
  | (k', v') :: r =>
      if Str.eqb k k' then (k, v) :: r else (k', v') :: dict_set k v r
  end.

(** A column label as [pd.read_excel] returns it: the text of the header
    cell, or a label that is no string (the number or the date of a
    header cell that holds one). *)
Inductive header : Type :=
| Label (name : str)
| NoLabel.
Coercion Label : str >-> header.

(** The labels of the columns when they all are strings. *)
Fixpoint labels (columns : list header) : option (list str) :=
  match columns with
  | [] => Some []
  | Label name :: rest =>
      match labels rest with
      | Some names => Some (name :: names)
      | None => None
      end
  | NoLabel :: _ => None
  end.

(** Lines 24 to 33. *)
Fixpoint header_map_loop (columns : list str) (header_map : list (str * str))
  : list (str * str) :=
  match columns with
  | [] => header_map
  | col :: rest =>
      let col_lower := lower col in
      if contains (s "course") col_lower then
        header_map_loop rest (dict_set col (s "Course Listing") header_map)
      else if contains (s "pattern") col_lower
              || contains (s "meeting") col_lower then
        header_map_loop rest (dict_set col (s "Meeting Patterns") header_map)
      else if contains (s "start") col_lower then
        header_map_loop rest (dict_set col (s "Start Date") header_map)
      else if contains (s "end") col_lower then
        header_map_loop rest (dict_set col (s "End Date") header_map)
      else header_map_loop rest header_map
  end.

(** [df.rename(columns=header_map)] on the column names. *)
Definition rename (header_map : list (str * str)) (columns : list str)
  : list str :=
  map (fun col => match dict_get col header_map with
                  | Some name => name
                  | None => col
                  end) columns.

Definition required_cols : list str :=
  [s "Course Listing"; s "Meeting Patterns"; s "Start Date"; s "End Date"].

(** [col in columns] *)
Definition col_in (col : str) (columns : list str) : bool :=
  existsb (Str.eqb col) columns.

(** [repr] of a string without quotes, backslashes or control
    characters, and of a list of such strings. *)
Definition repr_str (x : str) : str := s "'" ++ x ++ s "'".

Fixpoint join (sep : str) (xs : list str) : str :=
  match xs with
  | [] => []
  | [x] => x
  | x :: r => x ++ sep ++ join sep r
  end.

Definition repr_list (xs : list str) : str :=
  s "[" ++ join (s ", ") (map repr_str xs) ++ s "]".

(** A cell of a date column, as lines 51 to 62 see it:
    - [NaT], a missing value ([pd.isna] holds: an empty cell);
    - [NotADate], a value [pd.to_datetime] rejects with ValueError or
      TypeError;
    - [Timestamp d], a value it turns into a time of the date [d];
    - [ReadAsNaT], a value that is not missing and that it turns into
      [pd.NaT] all the same, as it does with the text NaT; the [date()]
      of [pd.NaT] is [pd.NaT]. *)
Inductive date_cell : Type :=
| NaT
| NotADate
| Timestamp (d : Z)
| ReadAsNaT.

(** A data row read through the four canonical names.  A text cell is
    given by what [str] shows of it, [None] being the missing value
    (NaN); where several columns carry the name of a text cell, that is
    the text [str] shows of the Series of their cells, after the fill.
    A date cell is the cell of the column that carries the name. *)
Record Row : Type := mk_Row {
  course_cell : option str;
  pattern_cell : option str;
  start_cell : date_cell;
  end_cell : date_cell
}.

(** [str(x)] of a text cell. *)
Definition py_str (x : option str) : str :=
  match x with
  | Some v => v
  | None => s "nan"
  end.

(** [Series.ffill()]: a missing value takes the last value seen. *)
Fixpoint ffill_from (last : option str) (col : list (option str))
  : list (option str) :=
  match col with
  | [] => []
  | Some v :: r => Some v :: ffill_from (Some v) r
  | None :: r => last :: ffill_from last r
  end.

Definition ffill (col : list (option str)) : list (option str) :=
  ffill_from None col.

(** Line 42: the course column of the table replaced by its fill. *)
Definition ffill_course (rows : list Row) : list Row :=
  map (fun p => mk_Row (snd p) (pattern_cell (fst p))
                       (start_cell (fst p)) (end_cell (fst p)))
      (List.combine rows (ffill (map course_cell rows))).

(** Lines 61 to 66: [while week_start <= end_dt].  The recursion is on
    [fuel], an upper bound of the number of rounds; [None] is a bound
    that was too small. *)
Fixpoint week_loop (fuel : nat) (course pattern_text : str)
  (week_start end_dt : Z) (cal : list Event) : option (result (list Event)) :=
  if week_start <=? end_dt then
    match fuel with
    | O => None
    | S fuel' =>
        match create_events_from_pattern course pattern_text
                                         week_start end_dt with
        | Raise e => Some (Raise e)
        | Ok events =>
            match date_add week_start 7 with
            | Raise e => Some (Raise e)
            | Ok week_start' =>
                week_loop fuel' course pattern_text week_start' end_dt
                          (cal ++ events)
            end
        end
    end
  else Some (Ok cal).

(** The rounds the loop of a row makes. *)
Definition weeks (start_dt end_dt : Z) : nat :=
  if start_dt <=? end_dt then S (Z.to_nat ((end_dt - start_dt) / 7)) else O.

(** What [pd.to_datetime(x).date()] gives for a cell that is not
    missing: a date, [pd.NaT], or [None] for the ValueError or TypeError
    that lines 57 and 58 turn into [continue]. *)
Inductive date_or_NaT : Type :=
| Date (d : Z)
| NaT_date.

Definition to_date (x : date_cell) : option date_or_NaT :=
  match x with
  | Timestamp d => Some (Date d)
  | ReadAsNaT => Some NaT_date
  | NaT => Some NaT_date
  | NotADate => None
  end.

Section Rows.

(** [df.columns] after the renaming of line 34. *)
Variable columns : list str.

(** [row[name]] is a Series, and no cell, when several columns carry
    [name]. *)
Definition is_series (name : str) : bool :=
  (1 <? List.length (filter (Str.eqb name) columns))%nat.

(** Lines 45 to 66: [for _, row in df.iterrows()].  At line 51
    [pd.isna] of a Series is a Series, and [or] asks for its truth
    value, which is refused with a ValueError; the operands are looked
    at from left to right, and [pattern_text] is a string, on which
    [pd.isna] is false.  At line 62 two [pd.NaT] compare false, and
    [pd.NaT] with a [datetime.date] on either side is a TypeError. *)
Fixpoint rows_loop (rows : list Row) (cal : list Event)
  : option (result (list Event)) :=
  match rows with
  | [] => Some (Ok cal)
  | row :: rest =>
      let course := py_str (course_cell row) in
      let pattern_text := py_str (pattern_cell row) in
      if is_series (s "Start Date") then Some (Raise TruthValueError)
      else
        match start_cell row with
        | NaT => rows_loop rest cal
        | start_date =>
            if is_series (s "End Date") then Some (Raise TruthValueError)
            else
              match end_cell row with
              | NaT => rows_loop rest cal
              | end_date =>
                  match to_date start_date, to_date end_date with
                  | None, _ | _, None => rows_loop rest cal
                  | Some (Date start_dt), Some (Date end_dt) =>
                      match week_loop (weeks start_dt end_dt) course
                                      pattern_text start_dt end_dt cal with
                      | Some (Ok cal') => rows_loop rest cal'
                      | other => other
                      end
                  | Some NaT_date, Some NaT_date => rows_loop rest cal
                  | Some _, Some _ => Some (Raise TypeError)
                  end
              end
        end
  end.

End Rows.

(** [convert_xlsx_to_ics], lines 19 to 66, on the column labels and the
    data rows [pd.read_excel] returns.  The result is the list of the
    components added to the calendar; writing it to the file is left
    out.

    Lines 19 and 25 need labels that are strings.  The accessor [.str]
    of line 19 is refused, with an AttributeError, by an index that
    holds no string, that of a sheet without columns among them; where
    strings stand beside other labels, the others become NaN at line
    19 and have no [lower] at line 25, an AttributeError again. *)
Definition convert_xlsx_to_ics (columns : list header) (rows : list Row)
  : option (result (list Event)) :=
  match columns, labels columns with
  | [], _ | _, None => Some (Raise AttributeError)
  | _ :: _, Some columns =>
      let columns := map strip columns in
      let header_map := header_map_loop columns [] in
      let columns := rename header_map columns in
      let missing :=
        filter (fun col => negb (col_in col columns)) required_cols in
      match missing with
      | _ :: _ =>
          Some (Raise (ValueError (s "Missing required column(s): "
                                     ++ repr_list missing)))
      | [] => rows_loop columns (ffill_course rows) []
      end
  end.

(** ** Specification-level notions used by the statements *)

Definition first_is (c : Z) (x : str) : bool :=
  match x with
  | a :: _ => a =? c
  | [] => false
  end.
Arguments first_is c%_char x.

Fixpoint last_is (c : Z) (x : str) : bool :=
  match x with
  | [] => false
  | [a] => a =? c
  | _ :: r => last_is c r
  end.
Arguments last_is c%_char x.

(** The characters the decoder turns into a weekday: the letters M, T,
    W, F, S in either case, the upper-case H, and the long s (U+017F),
    whose upper-case form is S. *)
Definition day_letters : str := s "MmTtWwFfSsH" ++ [383].

(** Line 107: the description of an instance. *)
Definition description_of (line location : str) : str :=
  s "Meeting Pattern: " ++ line ++ s " | " ++ location.

(** Lines 100 to 108: the instance of one line dated [d]. *)
Definition instance (course line location : str) (st en : time) (d : Z)
  : Event :=
  mk_Event course (combine d st) (combine d en) (description_of line location).

(** The fields of a line, line 80. *)
Definition fields (line : str) : list str := map strip (split "|" line).

(** The two sides of a time range, line 86. *)
Definition time_strings (times : str) : list str := map strip (split "-" times).

(** A line the expander can read: two fields or more, a time range of
    two sides, both of them clock times.  The result is the day token,
    the location and the two times. *)
Definition read_line (line : str) : option (str * str * time * time) :=
  match fields line with
  | days :: times :: rest =>
      match time_strings times with
      | [a; b] =>
          match strptime_time a, strptime_time b with
          | Ok st, Ok en => Some (days, hd [] rest, st, en)
          | _, _ => None
          end
      | _ => None
      end
  | _ => None
  end.

(** A line of fewer than two fields, line 81. *)
Definition short_line (line : str) : bool :=
  (List.length (fields line) <? 2)%nat.

(** The dates of a week that are kept, line 97. *)
Definition kept (week_start_date semester_end_date w : Z) : bool :=
  event_date_of week_start_date w <=? semester_end_date.

(** What a readable line is expected to give for the week that starts
    at [week_start_date]: one instance for every decoded weekday whose
    date is kept, in the order of the token. *)
Definition instances_of (course : str) (week_start_date semester_end_date : Z)
  (line : str) : list Event :=
  match read_line line with
  | Some (days, location, st, en) =>
      map (fun w => instance course line location st en
                             (event_date_of week_start_date w))
          (filter (kept week_start_date semester_end_date) (decode_days days))
  | None => []
  end.

(** The first exception the two time strings of a line can raise. *)
Definition time_error (a b : str) : option exn :=
  match strptime_time a with
  | Raise e => Some e
  | Ok _ => match strptime_time b with
            | Raise e => Some e
            | Ok _ => None
            end
  end.

(** The week lies in the range of [datetime.date]. *)
Definition in_calendar (week_start_date : Z) : Prop :=
  0 < week_start_date /\ week_start_date + 6 <= MAXORDINAL.

(** An instance the expander may emit for [line] in the week that starts
    at [week_start_date]. *)
Definition emitted_by (course : str) (week_start_date semester_end_date : Z)
  (line : str) (ev : Event) : Prop :=
  exists days location st en w,
    read_line line = Some (days, location, st, en) /\
    In w (decode_days days) /\
    kept week_start_date semester_end_date w = true /\
    ev = instance course line location st en (event_date_of week_start_date w).

(** The line feed that separates the lines of a cell. *)
Definition LF : str := [10].

(** The names of the columns after the renaming of line 34, for the
    labels [names] of the sheet. *)
Definition renamed (names : list str) : list str :=
  rename (header_map_loop (map strip names) []) (map strip names).

(** The canonical name the chain of tests of lines 26 to 33 gives to a
    column name, if any: the first test that succeeds decides. *)
Definition classify (col : str) : option str :=
  let col_lower := lower col in
  if contains (s "course") col_lower then Some (s "Course Listing")
  else if contains (s "pattern") col_lower || contains (s "meeting") col_lower
  then Some (s "Meeting Patterns")
  else if contains (s "start") col_lower then Some (s "Start Date")
  else if contains (s "end") col_lower then Some (s "End Date")
  else None.

(** A header carries a canonical name when it is a string that,
    stripped, is classified as that name. *)
Definition carries (name : str) (h : header) : bool :=
  match h with
  | Label col => match classify (strip col) with
                 | Some n => Str.eqb n name
                 | None => false
                 end
  | NoLabel => false
  end.

(** A canonical name is resolved when a header of the sheet carries
    it. *)
Definition resolved (name : str) (columns : list header) : bool :=
  existsb (carries name) columns.

(** The headers that carry a canonical name. *)
Definition carriers (name : str) (columns : list header) : list header :=
  filter (carries name) columns.

(** Several headers carry the name: after the renaming of line 34
    several columns have it, and [row[name]] is a Series. *)
Definition several (name : str) (columns : list header) : bool :=
  (1 <? List.length (carriers name columns))%nat.

(** The sheet has a column, and every header is a string: lines 19 and
    25 raise nothing. *)
Definition string_headers (columns : list header) : bool :=
  match columns, labels columns with
  | _ :: _, Some _ => true
  | _, _ => false
  end.

(** The required names that no header carries, in the order of
    [required_cols]. *)
Definition unresolved (columns : list header) : list str :=
  filter (fun name => negb (resolved name columns)) required_cols.

(** ** Sample data of the examples *)

(** A day of January 2024. *)
Definition jan (d : Z) : Z := ymd2ord 2024 1 d.

Definition two_lines : str :=
  s "MWF|9:00 AM-9:50 AM|Room 1" ++ LF ++ s "TTH|1:00 PM-2:15 PM".

Definition overnight : Event :=
  instance (s "X") (s "M|11:00 PM-1:00 AM") [] (mk_time 23 0) (mk_time 1 0)
           (jan 15).

Definition sample_row (c : option str) : Row :=
  mk_Row c (Some (s "MWF|9:00 AM-9:50 AM")) NaT NaT.

Definition sample_rows : list Row :=
  [sample_row (Some (s "CS 101")); sample_row None; sample_row None;
   sample_row (Some (s "MA 201")); sample_row None].

(** The four headers in their canonical spelling, and in a short one. *)
Definition canonical_headers : list header :=
  [s "Course Listing"; s "Meeting Patterns"; s "Start Date"; s "End Date"].

Definition short_headers : list header :=
  [s "Course"; s "Pattern"; s "Start"; s "End"].

(** A row of one Monday meeting, from the Monday 2024-01-08 to the date
    [e]. *)
Definition monday_row (course : option str) (e : date_cell) : Row :=
  mk_Row course (Some (s "M|9:00 AM-9:50 AM")) (Timestamp (jan 8)) e.

(** Headers of which two carry the start date. *)
Definition two_start_headers : list header :=
  [s "Course"; s "Pattern"; s "Start Date"; s "Start Time"; s "End"].

(** ** Notions of the further properties *)

(** The exception a line raises in the week that starts at
    [week_start_date], if it raises one: a time range that has not two
    sides, or a side that is no clock time when a weekday of the line is
    kept. *)
Definition line_error (week_start_date semester_end_date : Z) (line : str)
  : option exn :=
  match fields line with
  | days :: times :: _ =>
      match time_strings times with
      | [a; b] =>
          if existsb (kept week_start_date semester_end_date)
                     (decode_days days)
          then time_error a b else None
      | other => Some (UnpackError (List.length other))
      end
  | _ => None
  end.

(** The exception of the first line that raises one. *)
Fixpoint first_error (week_start_date semester_end_date : Z)
  (lines : list str) : option exn :=
  match lines with
  | [] => None
  | line :: rest =>
      match line_error week_start_date semester_end_date line with
      | Some err => Some err
      | None => first_error week_start_date semester_end_date rest
      end
  end.

(** The decoded weekdays of a line the expander can read. *)
Definition line_days (line : str) : list Z :=
  match read_line line with
  | Some (days, _, _, _) => decode_days days
  | None => []
  end.

(** The two forms of an ASCII character. *)
Definition upper_ascii (c : Z) : Z :=
  if (97 <=? c) && (c <=? 122) then c - 32 else c.

Definition lower_ascii (c : Z) : Z :=
  if (65 <=? c) && (c <=? 90) then c + 32 else c.

(** Two lookups give the same. *)
Definition same_day (a b : option Z) : bool :=
  match a, b with
  | Some v, Some w => v =? w
  | None, None => true
  | _, _ => false
  end.

(** The events that start on date [d]. *)
Definition on_date (d : Z) (evs : list Event) : list Event :=
  filter (fun ev => dt_date (dtstart ev) =? d) evs.

(** The date [d] lies in the week that starts at [a] and not after [e]. *)
Definition in_window (a e d : Z) : bool :=
  (a <=? d) && (d <=? a + 6) && (d <=? e).

(** A row the loop passes over, adding nothing and raising nothing: a
    date is missing or cannot be read, both are read as [pd.NaT], or
    the start is after the end. *)
Definition passed_over (row : Row) : bool :=
  match start_cell row, end_cell row with
  | NaT, _ | _, NaT => true
  | NotADate, _ | _, NotADate => true
  | ReadAsNaT, ReadAsNaT => true
  | Timestamp start_dt, Timestamp end_dt => end_dt <? start_dt
  | ReadAsNaT, Timestamp _ | Timestamp _, ReadAsNaT => false
  end.

(** A row with one date and one value read as [pd.NaT]. *)
Definition date_beside_NaT (row : Row) : bool :=
  match start_cell row, end_cell row with
  | ReadAsNaT, Timestamp _ | Timestamp _, ReadAsNaT => true
  | _, _ => false
  end.

(** The exceptions that come out of the rows of a sheet: all but the
    ValueError of line 40 and the AttributeError of lines 19 and 25. *)
Definition from_rows (err : exn) : Prop :=
  match err with
  | ValueError _ | AttributeError => False
  | _ => True
  end.

(** Each of the four names is carried by one header, and one only. *)
Definition carried_once (columns : list header) : Prop :=
  forall name,
    In name required_cols -> List.length (carriers name columns) = 1%nat.

(** The event [ev] is an instance of a line of the row [row], for a week
    that starts on or after the start date of the row. *)
Definition of_row (row : Row) (ev : Event) : Prop :=
  exists start_dt end_dt anchor line,
    start_cell row = Timestamp start_dt /\
    end_cell row = Timestamp end_dt /\
    start_dt <= anchor /\
    In line (splitlines (py_str (pattern_cell row))) /\
    emitted_by (py_str (course_cell row)) anchor end_dt line ev.

(** ** The name of the output file (lines 69 and 70)

    [os.path] on a POSIX system: the separator is the slash. *)

Module Posixpath.

(** [x.rfind(c)]: the index of the last [c], or -1. *)
Fixpoint rfind (c : Z) (x : str) : Z :=
  match x with
  | [] => -1
  | a :: r =>
      let i := rfind c r in
      if 0 <=? i then i + 1 else if a =? c then 0 else -1
  end.
Arguments rfind c%_char x.

(** [x[i:j]] for [0 <= i] and [0 <= j]. *)
Definition slice (x : str) (i j : Z) : str :=
  firstn (Z.to_nat (j - i)) (skipn (Z.to_nat i) x).

(** [os.path.basename(p)]: what follows the last slash. *)
Definition basename (p : str) : str :=
  skipn (Z.to_nat (rfind "/" p + 1)) p.

(** [os.path.splitext(p)]: the last dot of the last component starts
    the extension, unless only dots stand before it in the component.
    The loop that skips the leading dots returns at the first other
    character it meets before the dot. *)
Definition splitext (p : str) : str * str :=
  let sepIndex := rfind "/" p in
  let dotIndex := rfind "." p in
  if (sepIndex <? dotIndex)
     && existsb (fun ch => negb (ch =? ord "."))
                (slice p (sepIndex + 1) dotIndex)
  then (firstn (Z.to_nat dotIndex) p, skipn (Z.to_nat dotIndex) p)
  else (p, []).

(** [x.endswith("/")] *)
Definition ends_with_sep (x : str) : bool := last_is "/" x.

(** [os.path.join(a, b)] *)
Definition join (a b : str) : str :=
  if first_is "/" b then b
  else if match a with [] => true | _ => ends_with_sep a end then a ++ b
  else a ++ s "/" ++ b.

End Posixpath.

(** Lines 69 and 70. *)
Definition base_name (xlsx_path : str) : str :=
  fst (Posixpath.splitext (Posixpath.basename xlsx_path)).

Definition output_path (xlsx_path output_directory : str) : str :=
  Posixpath.join output_directory (base_name xlsx_path ++ s ".ics").

(** The separator [os.path.join] puts after a directory. *)
Definition separator (output_directory : str) : str :=
  match output_directory with
  | [] => []
  | _ :: _ => if last_is "/" output_directory then [] else s "/"
  end.

(** ** The window (lines 112 to 139)

    The state the functions of the window work on: the files of the
    output directory, the entries of the list box and the message boxes
    shown so far, the oldest first. *)

(** [a <= b] on strings: by code points, a prefix first. *)
Fixpoint str_leb (a b : str) : bool :=
  match a, b with
  | [], _ => true
  | _ :: _, [] => false
  | x :: a', y :: b' =>
      if x <? y then true
      else if y <? x then false
      else str_leb a' b'
  end.

Fixpoint insert_sorted (x : str) (xs : list str) : list str :=
  match xs with
  | [] => [x]
  | y :: r => if str_leb x y then x :: xs else y :: insert_sorted x r
  end.

(** [sorted(xs)] on a list of strings. *)
Definition sorted (xs : list str) : list str := fold_right insert_sorted [] xs.

(** What a file of the output directory holds: a calendar the tool
    wrote, or anything else. *)
Inductive file : Type :=
| Calendar (cal : list Event)
| OtherFile.

Inductive dialog : Type :=
| showerror (title message : str)
| showinfo (title message : str).

Record Window : Type := mk_Window {
  desktop : list (str * file);
  file_listbox : list str;
  shown : list dialog
}.

Definition no_files_yet : str := s "(no files yet)".

(** [refresh_file_list], lines 112 to 119; [os.listdir] gives the names
    of the files of the directory. *)
Definition refresh_file_list (w : Window) : Window :=
  let files := sorted (map fst (desktop w)) in
  mk_Window (desktop w)
            (match files with
             | [] => [no_files_yet]
             | _ :: _ => files
             end)
            (shown w).

(** A spreadsheet as [pd.read_excel] reads it: the labels of its
    columns and its data rows. *)
Definition sheet : Type := list header * list Row.

(** [convert_xlsx_to_ics], lines 16 to 75, on a spreadsheet that
    [pd.read_excel] reads as [columns] and [rows]: the calendar is
    written to the output path, over a file of that name if there is
    one, and the path is returned. *)
Definition convert_and_write (xlsx_path output_directory : str)
  (columns : list header) (rows : list Row) (files : list (str * file))
  : option (result (str * list (str * file))) :=
  match convert_xlsx_to_ics columns rows with
  | None => None
  | Some (Raise e) => Some (Raise e)
  | Some (Ok cal) =>
      let out := output_path xlsx_path output_directory in
      Some (Ok (out, dict_set (Posixpath.basename out) (Calendar cal) files))
  end.

(** [f"{n}"] for a length. *)
Definition decimal (n : nat) : str :=
  s (NilZero.string_of_uint (Nat.to_uint n)).

(** The exceptions the two clauses of lines 132 and 134 take: the first
    every ValueError, the second the TypeError ([ParserError] is a
    ValueError, and the first clause has taken it). *)
Definition caught (e : exn) : bool :=
  is_ValueError e || match e with TypeError => true | _ => false end.

Section ImportFiles.

(** [str(e)] for the exceptions the libraries raise; the text of the
    ValueError of line 40 is its message. *)
Variable library_text : exn -> str.

Variable output_dir : str.

Definition exn_text (e : exn) : str :=
  match e with
  | ValueError msg => msg
  | _ => library_text e
  end.

(** The message box of lines 132 to 135 for an exception that is
    caught. *)
Definition error_box (path : str) (e : exn) : dialog :=
  if is_ValueError e then showerror (s "Missing Column") (exn_text e)
  else showerror (s "Error")
                 (s "Failed to convert " ++ Posixpath.basename path
                    ++ s ":" ++ LF ++ exn_text e).

(** The loop of lines 128 to 135 over the chosen paths, each with the
    sheet [pd.read_excel] reads from it.  An AttributeError or an
    OverflowError is named by neither clause and leaves the function. *)
Fixpoint import_loop (file_paths : list (str * sheet))
  (converted : list str) (w : Window)
  : option (Window * result (list str)) :=
  match file_paths with
  | [] => Some (w, Ok converted)
  | (path, (columns, rows)) :: rest =>
      match convert_and_write path output_dir columns rows (desktop w) with
      | None => None
      | Some (Ok (out_path, files)) =>
          import_loop rest (converted ++ [Posixpath.basename out_path])
                      (mk_Window files (file_listbox w) (shown w))
      | Some (Raise e) =>
          if caught e then
            import_loop rest converted
                        (mk_Window (desktop w) (file_listbox w)
                                   (shown w ++ [error_box path e]))
          else Some (w, Raise e)
      end
  end.

(** [import_files], lines 121 to 139, for the paths the file dialog
    returned. *)
Definition import_files (file_paths : list (str * sheet))
  (w : Window) : option (Window * result unit) :=
  match file_paths with
  | [] => Some (w, Ok tt)
  | _ :: _ =>
      match import_loop file_paths [] w with
      | None => None
      | Some (w', Raise e) => Some (w', Raise e)
      | Some (w', Ok []) => Some (w', Ok tt)
      | Some (w', Ok converted) =>
          let message :=
            s "Converted " ++ decimal (List.length converted) ++ s " file(s)." in
          Some (refresh_file_list
                  (mk_Window (desktop w') (file_listbox w')
                             (shown w' ++ [showinfo (s "Success") message])),
                Ok tt)
      end
  end.

End ImportFiles.

(** The sheets of a selection that convert, with the name of their
    output file and their calendar, and the message boxes of those that
    raise an exception. *)
Definition written (output_dir : str) (file_paths : list (str * sheet))
  : list (str * file) :=
  flat_map (fun f =>
              match convert_xlsx_to_ics (fst (snd f)) (snd (snd f)) with
              | Some (Ok cal) =>
                  [(Posixpath.basename (output_path (fst f) output_dir),
                    Calendar cal)]
              | _ => []
              end) file_paths.

Definition reported (library_text : exn -> str)
  (file_paths : list (str * sheet)) : list dialog :=
  flat_map (fun f =>
              match convert_xlsx_to_ics (fst (snd f)) (snd (snd f)) with
              | Some (Raise e) => [error_box library_text (fst f) e]
              | _ => []
              end) file_paths.

(** No sheet of the selection raises an exception that leaves
    [import_files]. *)
Definition all_caught (file_paths : list (str * sheet)) : Prop :=
  forall f e,
    In f file_paths ->
    convert_xlsx_to_ics (fst (snd f)) (snd (snd f)) = Some (Raise e) ->
    caught e = true.

(** The files of a directory after the writes [ws], in this order. *)
Definition write_all (ws files : list (str * file)) : list (str * file) :=
  fold_left (fun d kv => dict_set (fst kv) (snd kv) d) ws files.

(** The last file written under the name [k]. *)
Definition last_written (k : str) (ws : list (str * file)) : option file :=
  dict_get k (rev ws).

(** A selection of four sheets: a time range without a dash, a start
    date named by two headers, an end date read as NaT, and a sheet
    that converts. *)
Definition four_sheets : list (str * sheet) :=
  [(s "/in/a.xlsx",
    (short_headers,
     [mk_Row (Some (s "CS 101")) (Some (s "M|9:00 AM to 9:50 AM"))
             (Timestamp (jan 8)) (Timestamp (jan 8))]));
   (s "/in/b.xlsx",
    (two_start_headers,
     [monday_row (Some (s "CS 101")) (Timestamp (jan 8))]));
   (s "/in/c.xlsx",
    (short_headers, [monday_row (Some (s "CS 101")) ReadAsNaT]));
   (s "/in/d.xlsx",
    (short_headers, [monday_row (Some (s "CS 101")) (Timestamp (jan 8))]))].

(** Two sheets of one base name, the second without rows, and a sheet
    of that name that fails. *)
Definition two_plans : list (str * sheet) :=
  [(s "/fall/plan.xlsx",
    (short_headers, [monday_row (Some (s "CS 101")) (Timestamp (jan 8))]));
   (s "/spring/plan.xlsx", (short_headers, []));
   (s "/summer/plan.xlsx",
    (short_headers, [monday_row (Some (s "CS 101")) ReadAsNaT]))].

(** * Properties *)

(** ** The library functions on sample inputs *)

Example splitlines_ex :
  splitlines (s "a|b" ++ LF ++ s "c" ++ [13; 10] ++ LF
                ++ s "d" ++ LF)
  = [s "a|b"; s "c"; []; s "d"]
  /\ splitlines [] = [] /\ splitlines LF = [[]].
Proof. repeat split. Qed.

Example split_ex :
  split "|" (s "MWF|9:00 AM-9:50 AM|") = [s "MWF"; s "9:00 AM-9:50 AM"; []]
  /\ split "|" (s "Online") = [s "Online"] /\ split "|" [] = [[]].
Proof. repeat split. Qed.

Example strip_ex : strip (s "  9:00 AM ") = s "9:00 AM" /\ strip (s "   ") = [].
Proof. split; reflexivity. Qed.

Example replace_ex :
  replace_TH_H (s "MTWTHF") = s "MTWHF" /\ replace_TH_H (s "TTH") = s "TH"
  /\ replace_TH_H (s "THTH") = s "HH" /\ replace_TH_H (s "Th") = s "Th".
Proof. repeat split. Qed.

Example case_ex :
  upper (s "mTh1") = s "MTH1" /\ lower (s "Start Date") = s "start date".
Proof. split; reflexivity. Qed.

(** Beyond ASCII: the sharp s, the long s, the e with acute, the t with
    diaeresis and the ligature st in upper case; the capital I with dot,
    the Kelvin sign and the capital E with acute in lower case. *)
Example case_beyond_ascii :
  upper [223] = s "SS" /\ upper [383] = s "S" /\ upper [233] = [other]
  /\ upper [7831] = s "T" ++ [other] /\ upper [64262] = s "ST"
  /\ lower [304] = s "i" ++ [other] /\ lower [8490] = s "k"
  /\ lower [201] = [other]
  /\ lower (s "D" ++ [201] ++ s "BUT") = s "d" ++ [other] ++ s "but".
Proof. repeat split. Qed.

Example strip_beyond_ascii :
  strip ([160; 8195] ++ s "Start" ++ [12288]) = s "Start"
  /\ strip ([8203] ++ s "Start") = [8203] ++ s "Start".
Proof. split; reflexivity. Qed.

Example contains_ex :
  contains (s "end") (s "weekend date") = true
  /\ contains (s "end") (s "en d") = false.
Proof. split; reflexivity. Qed.

Example strptime_ex :
  map strptime_time
      [s "9:00 AM"; s "09:50 am"; s "12:05 AM"; s "12:30 pm"; s "1:5   Pm";
       s "11:59 PM"]
  = map (fun p => Ok (mk_time (fst p) (snd p)))
        [(9, 0); (9, 50); (0, 5); (12, 30); (13, 5); (23, 59)].
Proof. reflexivity. Qed.

(** A minute may be written with the decimal digits of any script, an
    hour with ASCII digits only, and the blank may be any white space. *)
Example strptime_beyond_ascii :
  strptime_time (s "9:0" ++ [1635] ++ s " AM") = Ok (mk_time 9 3)
  /\ strptime_time (s "9:" ++ [65301; 160] ++ s "pm") = Ok (mk_time 21 5)
  /\ strptime_time ([1641] ++ s ":00 AM")
     = Raise (TimeDataError ([1641] ++ s ":00 AM"))
  /\ strptime_time (s "9:00 " ++ [8490] ++ s "M")
     = Raise (TimeDataError (s "9:00 " ++ [8490] ++ s "M")).
Proof. repeat split. Qed.

Example strptime_bad :
  Forall (fun x => strptime_time x = Raise (TimeDataError x))
         [s "9:00"; s "13:00 PM"; s "0:30 AM"; s "9:60 AM"; s "9:00AM";
          s "9:00 AM."; s "nine"; []].
Proof. repeat constructor. Qed.

Example date_ex :
  ymd2ord 2024 1 8 = 738893 /\ weekday (ymd2ord 2024 1 8) = 0
  /\ weekday (ymd2ord 2024 1 19) = 4 /\ ymd2ord 9999 12 31 = MAXORDINAL
  /\ ymd2ord 1 1 1 = 1 /\ ymd2ord 2024 3 1 - ymd2ord 2024 2 28 = 2.
Proof. repeat split. Qed.

Example decode_days_ex :
  decode_days (s "MTWTHFS") = [0; 1; 2; 3; 4; 5]
  /\ decode_days (s "mwf") = [0; 2; 4]
  /\ decode_days (s "SU") = [5]
  /\ decode_days (s "M, W") = [0; 2].
Proof. repeat split. Qed.

(** ** Strings *)

Lemma eqb_eq a b : Str.eqb a b = true <-> a = b.
Proof.
  unfold Str.eqb. destruct (list_eq_dec Z.eq_dec a b); split; congruence.
Qed.

Lemma eqb_refl a : Str.eqb a a = true.
Proof. now apply eqb_eq. Qed.

Lemma eqb_neq a b : Str.eqb a b = false <-> a <> b.
Proof.
  unfold Str.eqb. destruct (list_eq_dec Z.eq_dec a b); split; congruence.
Qed.

(** A property that a computation settles for each of the 128 ASCII
    characters holds of them all. *)
Lemma each_ascii (P : Z -> bool) :
  forallb P (map Z.of_nat (seq 0 128)) = true ->
  forall c, 0 <= c < 128 -> P c = true.
Proof.
  intros H c Hc. rewrite forallb_forall in H. apply H.
  apply in_map_iff. exists (Z.to_nat c). split; [lia|].
  apply in_seq. lia.
Qed.

Lemma isascii_spec c : isascii c = true <-> 0 <= c < 128.
Proof.
  unfold isascii. rewrite andb_true_iff, Z.leb_le, Z.ltb_lt. tauto.
Qed.

Lemma assoc_In c table v : assoc c table = Some v -> In (c, v) table.
Proof.
  induction table as [|[k u] table IH]; [discriminate|].
  cbn [assoc]. destruct (Z.eqb_spec c k) as [->|N].
  - intros [= ->]. now left.
  - intros H. right. now apply IH.
Qed.

(** The upper-case form of a character beyond ASCII, as far as ASCII
    goes: an entry of the table, or nothing of ASCII. *)
Lemma upper_char_beyond c :
  ~ 0 <= c < 128 ->
  In (c, upper_char c) upper_special \/ upper_char c = [other].
Proof.
  intros Hc. unfold upper_char.
  replace ((97 <=? c) && (c <=? 122)) with false
    by (symmetry; apply andb_false_iff;
        destruct (Z.leb_spec 97 c); [right; apply Z.leb_gt; lia | now left]).
  replace (isascii c) with false
    by (symmetry; apply not_true_iff_false; now rewrite isascii_spec).
  destruct (assoc c upper_special) as [u|] eqn:E; [left | now right].
  now apply assoc_In.
Qed.

Lemma upper_char_ascii c :
  0 <= c < 128 ->
  upper_char c = [if (97 <=? c) && (c <=? 122) then c - 32 else c].
Proof.
  intros Hc. unfold upper_char.
  destruct ((97 <=? c) && (c <=? 122)); [reflexivity|].
  now replace (isascii c) with true by (symmetry; now apply isascii_spec).
Qed.

Lemma lower_char_ascii c :
  0 <= c < 128 ->
  lower_char c = [if (65 <=? c) && (c <=? 90) then c + 32 else c].
Proof.
  intros Hc. unfold lower_char.
  destruct ((65 <=? c) && (c <=? 90)); [reflexivity|].
  now replace (isascii c) with true by (symmetry; now apply isascii_spec).
Qed.

Lemma replace_cons_other c x :
  c <> ord "T" -> replace_TH_H (c :: x) = c :: replace_TH_H x.
Proof.
  intros Hc. destruct x as [|c' r]; [reflexivity|].
  cbn [replace_TH_H]. apply Z.eqb_neq in Hc. now rewrite Hc.
Qed.

Lemma replace_TH x :
  replace_TH_H (ord "T" :: ord "H" :: x) = ord "H" :: replace_TH_H x.
Proof. reflexivity. Qed.

Lemma replace_T_other c x :
  c <> ord "H" ->
  replace_TH_H (ord "T" :: c :: x) = ord "T" :: replace_TH_H (c :: x).
Proof.
  intros Hc. apply Z.eqb_neq in Hc.
  change (replace_TH_H (ord "T" :: c :: x))
    with (if (ord "T" =? ord "T") && (c =? ord "H")
          then c :: replace_TH_H x else ord "T" :: replace_TH_H (c :: x)).
  now rewrite Hc, andb_false_r.
Qed.

(** The rewrite of [TH] works piecewise, unless the cut separates a [T]
    from its [H]. *)
Lemma replace_app_len n : forall a b,
  (List.length a <= n)%nat ->
  last_is "T" a && first_is "H" b = false ->
  replace_TH_H (a ++ b) = replace_TH_H a ++ replace_TH_H b.
Proof.
  induction n as [|n IH]; intros a b Hlen Hcut.
  - destruct a; [reflexivity | simpl in Hlen; lia].
  - destruct a as [|c a]; [reflexivity|].
    destruct (Z.eq_dec c (ord "T")) as [->|Hc].
    + destruct a as [|c' a].
      * (* the cut is right after this T *)
        cbn [last_is] in Hcut. rewrite Z.eqb_refl in Hcut.
        destruct b as [|h b]; [reflexivity|].
        cbn [first_is andb] in Hcut. cbn [app].
        rewrite replace_T_other; [reflexivity|].
        now apply Z.eqb_neq.
      * destruct (Z.eq_dec c' (ord "H")) as [->|Hc'].
        -- cbn [app]. rewrite !replace_TH. cbn [app]. f_equal.
           apply IH; [cbn [List.length] in *; lia|].
           destruct a; [reflexivity | exact Hcut].
        -- cbn [app]. rewrite !replace_T_other by assumption.
           cbn [app]. f_equal.
           apply (IH (c' :: a) b); [cbn [List.length] in *; lia | exact Hcut].
    + cbn [app]. rewrite !replace_cons_other by assumption.
      cbn [app]. f_equal.
      apply IH; [cbn [List.length] in *; lia|].
      destruct a; [reflexivity | exact Hcut].
Qed.

Lemma replace_app a b :
  last_is "T" a && first_is "H" b = false ->
  replace_TH_H (a ++ b) = replace_TH_H a ++ replace_TH_H b.
Proof. apply (replace_app_len (List.length a)); lia. Qed.

(** ** Decoding the day token *)

Lemma day_codes_app a b : day_codes (a ++ b) = day_codes a ++ day_codes b.
Proof. unfold day_codes. apply flat_map_app. Qed.

Lemma decode_days_app a b :
  last_is "T" a && first_is "H" b = false ->
  decode_days (a ++ b) = decode_days a ++ decode_days b.
Proof.
  intros H. unfold decode_days. now rewrite replace_app, day_codes_app.
Qed.

(** Beyond ASCII one character is looked up with success: the long s,
    whose upper-case form is the key S. *)
Lemma day_lookup_beyond c :
  ~ 0 <= c < 128 -> day_lookup c = if c =? 383 then Some 5 else None.
Proof.
  intros Hc. unfold day_lookup.
  replace (c =? ord "H") with false
    by (symmetry; apply Z.eqb_neq; change (ord "H") with 72; lia).
  unfold upper. cbn [flat_map]. rewrite app_nil_r.
  destruct (upper_char_beyond c Hc) as [Hin | Ho].
  - revert Hin. generalize (upper_char c). intros u Hin.
    cbn [upper_special In] in Hin.
    repeat (destruct Hin as [Hin|Hin]; [inversion Hin; subst; reflexivity|]).
    contradiction.
  - destruct (Z.eqb_spec c 383) as [->|N]; [discriminate Ho|].
    now rewrite Ho.
Qed.

(** What the lookup of a character gives, against its being a day
    letter. *)
Lemma day_lookup_letters c :
  (match day_lookup c with None => true | Some _ => false end)
  = negb (existsb (Z.eqb c) day_letters).
Proof.
  destruct (isascii c) eqn:A.
  - apply isascii_spec in A. apply eqb_prop.
    revert c A.
    apply (each_ascii
             (fun c => Bool.eqb
                         (match day_lookup c with
                          | None => true | Some _ => false end)
                         (negb (existsb (Z.eqb c) day_letters)))).
    vm_compute. reflexivity.
  - assert (Hc : ~ 0 <= c < 128)
      by (rewrite <- isascii_spec; congruence).
    rewrite day_lookup_beyond by assumption.
    destruct (Z.eqb_spec c 383) as [->|N]; [reflexivity|].
    symmetry. apply negb_true_iff, not_true_iff_false.
    intros H. apply existsb_exists in H. destruct H as (k & Hin & Hk).
    apply Z.eqb_eq in Hk. subst k. vm_compute in Hin.
    repeat (destruct Hin as [Hin|Hin]; [lia|]). contradiction.
Qed.

(** [day_lookup] finds nothing exactly outside [day_letters]. *)
Lemma day_lookup_None c :
  day_lookup c = None <-> ~ In c day_letters.
Proof.
  pose proof (day_lookup_letters c) as E.
  split.
  - intros H Hin. rewrite H in E.
    assert (X : existsb (Z.eqb c) day_letters = true).
    { apply existsb_exists. exists c. split; [assumption | apply Z.eqb_refl]. }
    rewrite X in E. discriminate.
  - intros Hn. destruct (day_lookup c); [|reflexivity].
    symmetry in E. apply negb_false_iff, existsb_exists in E.
    destruct E as (c' & Hin & Heq). apply Z.eqb_eq in Heq. now subst.
Qed.

Lemma day_lookup_range c w : day_lookup c = Some w -> 0 <= w <= 5.
Proof.
  destruct (isascii c) eqn:A.
  - apply isascii_spec in A. intros H.
    assert (X : (match day_lookup c with
                 | Some v => (0 <=? v) && (v <=? 5)
                 | None => true
                 end) = true).
    { clear H. revert c A.
      apply (each_ascii (fun c => match day_lookup c with
                                  | Some v => (0 <=? v) && (v <=? 5)
                                  | None => true
                                  end)).
      vm_compute. reflexivity. }
    rewrite H in X. apply andb_true_iff in X.
    destruct X as [X1 X2]. apply Z.leb_le in X1, X2. lia.
  - assert (Hc : ~ 0 <= c < 128)
      by (rewrite <- isascii_spec; congruence).
    rewrite day_lookup_beyond by assumption.
    destruct (c =? 383); [|discriminate]. intros [= <-]. lia.
Qed.

Lemma day_codes_range x : Forall (fun w => 0 <= w <= 5) (day_codes x).
Proof.
  induction x as [|c x IH]; [constructor|].
  change (day_codes (c :: x))
    with ((match day_lookup c with Some w => [w] | None => [] end) ++ day_codes x).
  destruct (day_lookup c) eqn:E; [|exact IH].
  constructor; [eapply day_lookup_range; eassumption | exact IH].
Qed.

Lemma decode_days_range x : Forall (fun w => 0 <= w <= 5) (decode_days x).
Proof. apply day_codes_range. Qed.

(** The loop reads one character at a time, so the key SU of [DAY_MAP]
    is never looked up: no token gives Sunday. *)
Lemma decode_days_never_Sunday x : ~ In 6 (decode_days x).
Proof.
  intros H. pose proof (decode_days_range x) as R.
  rewrite Forall_forall in R. specialize (R 6 H). lia.
Qed.

Lemma decode_days_TH a b :
  decode_days (a ++ s "TH" ++ b) = decode_days a ++ [3] ++ decode_days b.
Proof.
  rewrite decode_days_app.
  - reflexivity.
  - change (s "TH" ++ b) with (ord "T" :: ord "H" :: b).
    cbn [first_is]. apply andb_false_r.
Qed.


Lemma decode_days_skip a c b :
  ~ In c day_letters ->
  decode_days (a ++ c :: b) = decode_days a ++ decode_days b.
Proof.
  intros Hc.
  assert (HT : c <> ord "T") by (intros ->; apply Hc; vm_compute; tauto).
  assert (HH : c <> ord "H") by (intros ->; apply Hc; vm_compute; tauto).
  rewrite decode_days_app.
  - f_equal. unfold decode_days. rewrite replace_cons_other by assumption.
    change (day_codes (c :: replace_TH_H b))
      with ((match day_lookup c with Some w => [w] | None => [] end)
              ++ day_codes (replace_TH_H b)).
    apply day_lookup_None in Hc. now rewrite Hc.
  - cbn [first_is]. apply Z.eqb_neq in HH. rewrite HH. apply andb_false_r.
Qed.

Lemma first_is_H_encode l :
  Forall (fun w => 0 <= w <= 5) l -> first_is "H" (encode_days l) = false.
Proof.
  intros H. destruct H as [|w l Hw _]; [reflexivity|].
  assert (C : w = 0 \/ w = 1 \/ w = 2 \/ w = 3 \/ w = 4 \/ w = 5) by lia.
  destruct C as [->|[->|[->|[->|[->| ->]]]]]; reflexivity.
Qed.

(** Spelling weekdays from Monday to Saturday with the keys of
    [DAY_MAP] and decoding the token gives them back. *)
Lemma decode_encode l :
  Forall (fun w => 0 <= w <= 5) l -> decode_days (encode_days l) = l.
Proof.
  induction 1 as [|w l Hw Hl IH]; [reflexivity|].
  change (encode_days (w :: l)) with (key_of w DAY_MAP ++ encode_days l).
  rewrite decode_days_app.
  - rewrite IH.
    assert (C : w = 0 \/ w = 1 \/ w = 2 \/ w = 3 \/ w = 4 \/ w = 5) by lia.
    destruct C as [->|[->|[->|[->|[->| ->]]]]]; reflexivity.
  - rewrite first_is_H_encode by assumption. apply andb_false_r.
Qed.

(** ** Dates *)

Lemma event_date_bounds ws w : ws <= event_date_of ws w <= ws + 6.
Proof.
  unfold event_date_of.
  pose proof (Z.mod_pos_bound (w - weekday ws) 7 ltac:(lia)). lia.
Qed.

Lemma event_date_weekday ws w :
  0 <= w < 7 -> weekday (event_date_of ws w) = w.
Proof.
  intros Hw. unfold event_date_of, weekday.
  Z.div_mod_to_equations. lia.
Qed.

Lemma event_date_first ws w d :
  ws <= d -> weekday d = w -> event_date_of ws w <= d.
Proof.
  intros Hd Hwd. subst w. unfold event_date_of, weekday.
  pose proof (Z.mod_pos_bound (d + 6) 7 ltac:(lia)).
  pose proof (Z.mod_pos_bound (ws + 6) 7 ltac:(lia)).
  pose proof (Z.mod_pos_bound ((d + 6) mod 7 - (ws + 6) mod 7) 7 ltac:(lia)).
  pose proof (Z.div_mod (d + 6) 7 ltac:(lia)).
  pose proof (Z.div_mod (ws + 6) 7 ltac:(lia)).
  pose proof (Z.div_mod ((d + 6) mod 7 - (ws + 6) mod 7) 7 ltac:(lia)).
  lia.
Qed.

Lemma date_add_in_calendar ws w :
  in_calendar ws -> date_add ws ((w - weekday ws) mod 7) = Ok (event_date_of ws w).
Proof.
  intros [H1 H2]. unfold date_add. fold (event_date_of ws w).
  pose proof (event_date_bounds ws w).
  replace (0 <? event_date_of ws w) with true by (symmetry; apply Z.ltb_lt; lia).
  replace (event_date_of ws w <=? MAXORDINAL) with true
    by (symmetry; apply Z.leb_le; lia).
  reflexivity.
Qed.

Lemma date_add_Ok d n d' : date_add d n = Ok d' -> d' = d + n.
Proof.
  unfold date_add. destruct (_ && _); congruence.
Qed.

(** ** The inner loop over the day characters *)

Section DaysLoop.

Variables (course : str) (ws e : Z) (line location a b : str).

Abbreviation loop := (days_loop course ws e line location a b).

Lemma day_codes_cons c x :
  day_codes (c :: x)
  = (match day_lookup c with Some w => [w] | None => [] end) ++ day_codes x.
Proof. reflexivity. Qed.

Lemma days_loop_unknown c rest events :
  day_lookup c = None -> loop (c :: rest) events = loop rest events.
Proof.
  intros H. cbn [days_loop]. fold (day_lookup c). now rewrite H.
Qed.

Lemma days_loop_known c w rest events :
  day_lookup c = Some w ->
  loop (c :: rest) events
  = (event_date <- date_add ws ((w - weekday ws) mod 7) ;;
     if e <? event_date then loop rest events
     else
       start_t <- strptime_time a ;;
       end_t <- strptime_time b ;;
       loop rest (events ++ [instance course line location start_t end_t
                                      event_date])).
Proof.
  intros H. cbn [days_loop]. fold (day_lookup c). now rewrite H.
Qed.

Lemma kept_ltb w : (e <? event_date_of ws w) = negb (kept ws e w).
Proof. unfold kept. apply Z.ltb_antisym. Qed.

(** Both times parse: every kept weekday gives its instance. *)
Lemma days_loop_read st en :
  in_calendar ws ->
  strptime_time a = Ok st -> strptime_time b = Ok en ->
  forall temp events,
    loop temp events
    = Ok (events ++ map (fun w => instance course line location st en
                                           (event_date_of ws w))
                        (filter (kept ws e) (day_codes temp))).
Proof.
  intros Hcal Ha Hb. induction temp as [|c temp IH]; intros events.
  - cbn. now rewrite app_nil_r.
  - rewrite day_codes_cons. destruct (day_lookup c) as [w|] eqn:E.
    + rewrite (days_loop_known _ w) by assumption.
      rewrite date_add_in_calendar by assumption. cbn [bind].
      rewrite kept_ltb. cbn [app filter].
      destruct (kept ws e w); cbn [negb].
      * rewrite Ha, Hb. cbn [bind]. rewrite IH.
        cbn [map]. now rewrite <- app_assoc.
      * apply IH.
    + rewrite days_loop_unknown by assumption. apply IH.
Qed.

(** A time fails to parse: the first kept weekday raises, and with no
    kept weekday nothing happens. *)
Lemma days_loop_time_error err :
  in_calendar ws ->
  time_error a b = Some err ->
  forall temp events,
    loop temp events
    = if existsb (kept ws e) (day_codes temp) then Raise err else Ok events.
Proof.
  intros Hcal Herr. induction temp as [|c temp IH]; intros events.
  - reflexivity.
  - rewrite day_codes_cons. destruct (day_lookup c) as [w|] eqn:E.
    + rewrite (days_loop_known _ w) by assumption.
      rewrite date_add_in_calendar by assumption. cbn [bind].
      rewrite kept_ltb. cbn [app existsb].
      destruct (kept ws e w); cbn [negb orb].
      * unfold time_error in Herr.
        destruct (strptime_time a); [|cbn; congruence].
        destruct (strptime_time b); [discriminate | cbn; congruence].
      * apply IH.
    + rewrite days_loop_unknown by assumption. apply IH.
Qed.

(** Whatever the week, what the loop returns is what it was given
    followed by instances of kept weekdays with both times parsed. *)
Lemma days_loop_sound :
  forall temp events evs,
    loop temp events = Ok evs ->
    exists new,
      evs = events ++ new /\
      Forall (fun ev => exists st en w,
                  strptime_time a = Ok st /\ strptime_time b = Ok en /\
                  In w (day_codes temp) /\ kept ws e w = true /\
                  ev = instance course line location st en
                                (event_date_of ws w)) new.
Proof.
  induction temp as [|c temp IH]; intros events evs H.
  - cbn in H. inversion H. exists []. now rewrite app_nil_r.
  - rewrite day_codes_cons. destruct (day_lookup c) as [w|] eqn:E.
    + rewrite (days_loop_known _ w) in H by assumption.
      destruct (date_add ws ((w - weekday ws) mod 7)) as [d|] eqn:D;
        [|discriminate].
      apply date_add_Ok in D. fold (event_date_of ws w) in D. subst d.
      cbn [bind] in H. rewrite kept_ltb in H.
      destruct (kept ws e w) eqn:K; cbn [negb] in H.
      * destruct (strptime_time a) as [st|] eqn:Ha; [|discriminate].
        destruct (strptime_time b) as [en|] eqn:Hb; [|discriminate].
        cbn [bind] in H. apply IH in H. destruct H as (new & -> & Hnew).
        exists (instance course line location st en (event_date_of ws w) :: new).
        split; [now rewrite <- app_assoc|].
        constructor.
        -- exists st, en, w. repeat split; try assumption. now left.
        -- eapply Forall_impl; [|exact Hnew].
           intros ev (st' & en' & w' & ? & ? & ? & ? & ?).
           exists st', en', w'. repeat split; try assumption. now right.
      * apply IH in H. destruct H as (new & -> & Hnew).
        exists new. split; [reflexivity|].
        eapply Forall_impl; [|exact Hnew].
        intros ev (st' & en' & w' & ? & ? & ? & ? & ?).
        exists st', en', w'. repeat split; try assumption. now right.
    + rewrite days_loop_unknown in H by assumption.
      apply IH in H. destruct H as (new & -> & Hnew).
      exists new. split; [reflexivity | exact Hnew].
Qed.

End DaysLoop.

(** ** One line, and the loop over the lines *)

Section LinesLoop.

Variables (course : str) (ws e : Z).

Abbreviation body := (line_body course ws e).
Abbreviation lines := (lines_loop course ws e).

Lemma line_body_short line events :
  short_line line = true -> body line events = Ok events.
Proof.
  intros H. unfold line_body. fold (fields line).
  unfold short_line in H. now rewrite H.
Qed.

(** The body of the loop on a line of two fields or more. *)
Lemma line_body_fields line days times rest events :
  fields line = days :: times :: rest ->
  body line events
  = (p <- unpack2 (time_strings times) ;;
     days_loop course ws e line (hd [] rest) (fst p) (snd p)
               (replace_TH_H days) events).
Proof.
  intros H. unfold line_body, time_strings. fold (fields line). rewrite H.
  replace (List.length (days :: times :: rest) <? 2)%nat with false
    by (symmetry; apply Nat.ltb_ge; cbn; lia).
  cbn [nth].
  replace (if (2 <? List.length (days :: times :: rest))%nat
           then nth 0 rest [] else []) with (hd (A := str) [] rest)
    by (destruct rest; reflexivity).
  destruct (unpack2 (map strip (split "-" times))) as [[x y]|]; reflexivity.
Qed.

Lemma read_line_short line : short_line line = true -> read_line line = None.
Proof.
  unfold short_line, read_line. intros H.
  destruct (fields line) as [|d [|t r]]; try reflexivity.
  cbn in H. discriminate.
Qed.

Lemma instances_of_short line :
  short_line line = true -> instances_of course ws e line = [].
Proof.
  intros H. unfold instances_of. now rewrite read_line_short.
Qed.

Lemma read_line_inv line days location st en :
  read_line line = Some (days, location, st, en) ->
  exists times rest x y,
    fields line = days :: times :: rest /\ location = hd [] rest /\
    time_strings times = [x; y] /\
    strptime_time x = Ok st /\ strptime_time y = Ok en.
Proof.
  unfold read_line. intros H.
  destruct (fields line) as [|d [|t r]]; try discriminate.
  destruct (time_strings t) as [|x [|y [|z l]]] eqn:T; try discriminate.
  destruct (strptime_time x) as [st'|] eqn:X; try discriminate.
  destruct (strptime_time y) as [en'|] eqn:Y; try discriminate.
  inversion H; subst. exists t, r, x, y. repeat split; assumption.
Qed.

(** A readable line appends its expected instances. *)
Lemma line_body_read line events :
  in_calendar ws -> read_line line <> None ->
  body line events = Ok (events ++ instances_of course ws e line).
Proof.
  intros Hcal Hr. unfold instances_of.
  destruct (read_line line) as [[[[days location] st] en]|] eqn:R;
    [|congruence].
  destruct (read_line_inv _ _ _ _ _ R) as (times & rest & x & y & F & L & T & X & Y).
  rewrite (line_body_fields _ _ _ _ _ F), T. cbn [unpack2 bind fst snd].
  rewrite (days_loop_read _ _ _ _ _ _ _ st en) by assumption.
  subst location. reflexivity.
Qed.

(** A time range that has not two sides raises, whatever came before. *)
Lemma line_body_unpack line days times rest events :
  fields line = days :: times :: rest ->
  List.length (time_strings times) <> 2%nat ->
  body line events = Raise (UnpackError (List.length (time_strings times))).
Proof.
  intros F N. rewrite (line_body_fields _ _ _ _ _ F).
  destruct (time_strings times) as [|x [|y [|z l]]]; try reflexivity.
  now cbn in N.
Qed.

(** A time string that is no clock time raises at the first kept
    weekday; with no kept weekday the line does nothing. *)
Lemma line_body_time_error line days times rest x y err events :
  in_calendar ws ->
  fields line = days :: times :: rest ->
  time_strings times = [x; y] ->
  time_error x y = Some err ->
  body line events
  = if existsb (kept ws e) (decode_days days) then Raise err else Ok events.
Proof.
  intros Hcal F T E. rewrite (line_body_fields _ _ _ _ _ F), T.
  cbn [unpack2 bind fst snd].
  now rewrite (days_loop_time_error _ _ _ _ _ _ _ err).
Qed.

Lemma line_body_sound line events evs :
  body line events = Ok evs ->
  exists new, evs = events ++ new /\ Forall (emitted_by course ws e line) new.
Proof.
  intros H. destruct (short_line line) eqn:S.
  - rewrite line_body_short in H by assumption. inversion H.
    exists []. now rewrite app_nil_r.
  - unfold short_line in S.
    destruct (fields line) as [|days [|times rest]] eqn:F;
      try (cbn in S; discriminate).
    rewrite (line_body_fields _ _ _ _ _ F) in H.
    destruct (time_strings times) as [|x [|y [|z l]]] eqn:T;
      try discriminate.
    cbn [unpack2 bind fst snd] in H.
    apply days_loop_sound in H. destruct H as (new & -> & Hnew).
    exists new. split; [reflexivity|].
    eapply Forall_impl; [|exact Hnew].
    intros ev (st & en & w & X & Y & Hw & K & ->).
    exists days, (hd [] rest), st, en, w. repeat split; try assumption.
    unfold read_line. now rewrite F, T, X, Y.
Qed.

Lemma lines_loop_app pre post events :
  lines (pre ++ post) events
  = (events' <- lines pre events ;; lines post events').
Proof.
  revert events. induction pre as [|l pre IH]; intros events; [reflexivity|].
  cbn [app lines_loop]. destruct (body l events); [apply IH | reflexivity].
Qed.

(** A line that leaves the list as it is can be dropped. *)
Lemma lines_loop_drop pre line post events :
  (forall evs, body line evs = Ok evs) ->
  lines (pre ++ line :: post) events = lines (pre ++ post) events.
Proof.
  intros H. rewrite !lines_loop_app.
  destruct (lines pre events) as [evs|]; [|reflexivity].
  cbn [bind lines_loop]. now rewrite H.
Qed.

(** Every line short or readable: the expected instances, line by line. *)
Lemma lines_loop_read ls :
  in_calendar ws ->
  Forall (fun l => short_line l = true \/ read_line l <> None) ls ->
  forall events,
    lines ls events = Ok (events ++ flat_map (instances_of course ws e) ls).
Proof.
  intros Hcal H. induction H as [|l ls Hl Hls IH]; intros events.
  - cbn. now rewrite app_nil_r.
  - cbn [lines_loop flat_map]. destruct Hl as [Hs|Hr].
    + rewrite line_body_short, instances_of_short by assumption.
      cbn [bind app]. apply IH.
    + rewrite line_body_read by assumption. cbn [bind].
      rewrite IH. now rewrite <- app_assoc.
Qed.

Lemma lines_loop_sound ls : forall events evs,
  lines ls events = Ok evs ->
  exists new,
    evs = events ++ new /\
    Forall (fun ev => exists l, In l ls /\ emitted_by course ws e l ev) new.
Proof.
  induction ls as [|l ls IH]; intros events evs H.
  - cbn in H. inversion H. exists []. now rewrite app_nil_r.
  - cbn [lines_loop] in H.
    destruct (body l events) as [evs1|] eqn:B; [|discriminate].
    cbn [bind] in H. apply line_body_sound in B.
    destruct B as (new1 & -> & H1). apply IH in H.
    destruct H as (new2 & -> & H2).
    exists (new1 ++ new2). split; [now rewrite app_assoc|].
    apply Forall_app. split.
    + eapply Forall_impl; [|exact H1]. intros ev Hev. exists l. split; [now left | exact Hev].
    + eapply Forall_impl; [|exact H2]. intros ev (l' & Hin & Hev).
      exists l'. split; [now right | exact Hev].
Qed.

End LinesLoop.

(** ** The claims about the day token *)

(** C2, as it is worded, fails: the character H is none of the codes
    M, T, W, F, S (nor a two-character code), and alone it is decoded
    to Thursday instead of being skipped. *)
Lemma lone_H_is_not_skipped :
  ~ In (ord "H") (s "MTWFS") /\
  decode_days (s "H") = [3] /\
  decode_days ([] ++ (ord "H") :: []) <> decode_days [] ++ decode_days [].
Proof.
  split; [|split].
  - cbn. intros [H|[H|[H|[H|[H|[]]]]]]; discriminate.
  - reflexivity.
  - discriminate.
Qed.

(** The lookup goes through [upper]: a lower-case letter is decoded as
    its upper-case code, and so is the long s, the one character beyond
    ASCII whose upper-case form is a key of [DAY_MAP]. *)
Example lower_case_is_decoded :
  decode_days (s "m") = [0] /\ decode_days [383] = [5].
Proof. split; reflexivity. Qed.

(** The other characters beyond ASCII are skipped, also those whose
    upper-case form spells day letters: the sharp s (SS), the t with
    diaeresis and the ligature st. *)
Example beyond_ascii_is_skipped :
  decode_days [223] = [] /\ decode_days [7831] = []
  /\ decode_days [64262] = [] /\ decode_days [233] = [].
Proof. repeat split. Qed.

(** C2, amended.  A character that is none of M, T, W, F, S in either
    case, not the long s (U+017F) and not an upper-case H contributes no
    weekday and raises nothing: the token decodes to what the
    characters before it and the characters after it decode to.  The
    character may be any code point. *)
Theorem unrecognized_character_skipped (before after : str) (c : Z) :
  ~ In c day_letters ->
  day_lookup c = None /\
  decode_days (before ++ c :: after) = decode_days before ++ decode_days after.
Proof.
  intros Hc. split.
  - now apply day_lookup_None.
  - now apply decode_days_skip.
Qed.

Lemma unrecognized_character_skipped_witness :
  (day_lookup "x" = None /\
   decode_days (s "MT" ++ ord "x" :: s "THF")
   = decode_days (s "MT") ++ decode_days (s "THF")) /\
  (day_lookup 223 = None /\
   decode_days (s "MT" ++ 223 :: s "THF")
   = decode_days (s "MT") ++ decode_days (s "THF")).
Proof.
  split.
  - apply (unrecognized_character_skipped (s "MT") (s "THF") (ord "x")).
    vm_compute.
    intros [H|[H|[H|[H|[H|[H|[H|[H|[H|[H|[H|[H|[]]]]]]]]]]]]]; discriminate.
  - apply (unrecognized_character_skipped (s "MT") (s "THF") 223).
    vm_compute.
    intros [H|[H|[H|[H|[H|[H|[H|[H|[H|[H|[H|[H|[]]]]]]]]]]]]]; discriminate.
Defined.

(** The two characters TH are always read as one Thursday, whatever
    stands before and after, and TTH is Tuesday and Thursday. *)
Lemma TH_is_one_Thursday :
  (forall before after,
     decode_days (before ++ s "TH" ++ after)
     = decode_days before ++ [3] ++ decode_days after) /\
  decode_days (s "TTH") = [1; 3].
Proof.
  split.
  - apply decode_days_TH.
  - reflexivity.
Qed.

(** C7, at the token SU.  [DAY_MAP] holds the key SU for Sunday, and SU
    is how the canonical letters spell Sunday; but the loop of lines 89
    to 91 looks up one character at a time, only TH being put together,
    so the token SU is read as S, a Saturday, and a U that is skipped.
    Decoding the token and spelling the weekdays again gives S: the set
    of Sunday has become the set of Saturday, and the expander dates
    the meeting on Saturday 2024-01-13 in the week of Monday
    2024-01-08. *)
Lemma SU_is_read_as_Saturday :
  dict_get (s "SU") DAY_MAP = Some 6 /\
  encode_days [6] = s "SU" /\
  decode_days (s "SU") = [5] /\
  encode_days (decode_days (s "SU")) = s "S" /\
  create_events_from_pattern (s "X") (s "SU|9:00 AM-9:50 AM") (jan 8) (jan 14)
  = Ok [instance (s "X") (s "SU|9:00 AM-9:50 AM") []
                 (mk_time 9 0) (mk_time 9 50) (jan 13)] /\
  weekday (jan 13) = 5 /\ weekday (jan 14) = 6.
Proof. repeat split. Qed.



(** ** The claims about the expander *)

Lemma create_events_sound course ws e text evs ev :
  create_events_from_pattern course text ws e = Ok evs -> In ev evs ->
  exists line, In line (splitlines text) /\ emitted_by course ws e line ev.
Proof.
  unfold create_events_from_pattern. intros H Hin.
  apply lines_loop_sound in H. destruct H as (new & -> & Hnew).
  cbn [app] in Hin. rewrite Forall_forall in Hnew. now apply Hnew.
Qed.

(** C1, at two texts.  The second line of each text below has two
    fields; its time range has no separator in the first text and an
    end that is no clock time in the second.  The line is not skipped:
    the unpacking of line 86 and [strptime] of line 101 raise a
    ValueError that nothing in the expander catches, so the call
    returns no instance at all, and the instance of the first,
    well-formed line, which the expander returns when that line stands
    alone, is lost with it. *)
Lemma malformed_time_raises :
  fields (s "M|9:00 AM") = [s "M"; s "9:00 AM"] /\
  create_events_from_pattern (s "X")
    (s "M|9:00 AM-9:50 AM" ++ LF ++ s "M|9:00 AM") (jan 8) (jan 19)
  = Raise (UnpackError 1) /\
  fields (s "M|9:00 AM-10:00") = [s "M"; s "9:00 AM-10:00"] /\
  strptime_time (s "10:00") = Raise (TimeDataError (s "10:00")) /\
  create_events_from_pattern (s "X")
    (s "M|9:00 AM-9:50 AM" ++ LF ++ s "M|9:00 AM-10:00") (jan 8) (jan 19)
  = Raise (TimeDataError (s "10:00")) /\
  is_ValueError (UnpackError 1) = true /\
  is_ValueError (TimeDataError (s "10:00")) = true /\
  create_events_from_pattern (s "X") (s "M|9:00 AM-9:50 AM") (jan 8) (jan 19)
  = Ok [instance (s "X") (s "M|9:00 AM-9:50 AM") []
                 (mk_time 9 0) (mk_time 9 50) (jan 8)].
Proof. repeat split. Qed.

(** C6.  A line of fewer than two pipe-delimited fields contributes no
    instance: the expander returns what it returns on the text without
    that line, and when the other lines are well formed these are their
    instances, line by line. *)
Theorem short_line_contributes_nothing course ws e text before bad after :
  splitlines text = before ++ bad :: after ->
  (List.length (split "|" bad) < 2)%nat ->
  (forall text', splitlines text' = before ++ after ->
     create_events_from_pattern course text ws e
     = create_events_from_pattern course text' ws e) /\
  (in_calendar ws ->
   Forall (fun l => short_line l = true \/ read_line l <> None)
          (before ++ after) ->
   create_events_from_pattern course text ws e
   = Ok (flat_map (instances_of course ws e) (before ++ after))).
Proof.
  intros Hsplit Hlen.
  assert (Hs : short_line bad = true).
  { unfold short_line, fields. rewrite length_map. now apply Nat.ltb_lt. }
  assert (Hdrop : lines_loop course ws e (before ++ bad :: after) []
                  = lines_loop course ws e (before ++ after) []).
  { apply lines_loop_drop. intros evs. now apply line_body_short. }
  unfold create_events_from_pattern. rewrite Hsplit, Hdrop. split.
  - now intros text' ->.
  - intros Hcal Hall. now rewrite lines_loop_read.
Qed.

Lemma short_line_contributes_nothing_witness :
  create_events_from_pattern (s "X")
    (s "Online" ++ LF ++ s "MWF|9:00 AM-9:50 AM|Room 1") (jan 15) (jan 17)
  = create_events_from_pattern (s "X") (s "MWF|9:00 AM-9:50 AM|Room 1")
                               (jan 15) (jan 17)
  /\
  create_events_from_pattern (s "X")
    (s "Online" ++ LF ++ s "MWF|9:00 AM-9:50 AM|Room 1") (jan 15) (jan 17)
  = Ok (flat_map (instances_of (s "X") (jan 15) (jan 17))
                 [s "MWF|9:00 AM-9:50 AM|Room 1"]).
Proof.
  destruct (short_line_contributes_nothing (s "X") (jan 15) (jan 17)
              (s "Online" ++ LF ++ s "MWF|9:00 AM-9:50 AM|Room 1")
              [] (s "Online") [s "MWF|9:00 AM-9:50 AM|Room 1"] eq_refl)
    as [H1 H2].
  - vm_compute. lia.
  - split.
    + apply H1. reflexivity.
    + apply H2.
      * split; vm_compute; [reflexivity | discriminate].
      * repeat (apply Forall_cons; [right; vm_compute; discriminate|]).
        apply Forall_nil.
Defined.

Lemma in_instances_of course ws e line ev :
  In ev (instances_of course ws e line) ->
  exists days location st en w,
    read_line line = Some (days, location, st, en) /\
    In w (decode_days days) /\ kept ws e w = true /\
    ev = instance course line location st en (event_date_of ws w).
Proof.
  unfold instances_of.
  destruct (read_line line) as [[[[days location] st] en]|]; [|intros []].
  intros H. apply in_map_iff in H. destruct H as (w & <- & Hw).
  apply filter_In in Hw. destruct Hw as [Hw K].
  now exists days, location, st, en, w.
Qed.

(** C4.  With every line of the text short or well formed, the expander
    returns, for the week that starts at [ws], the instances of the
    decoded weekdays whose date is on or before the end date [e], line
    by line and weekday by weekday: the instance of a weekday of a line
    is in the result if and only if its date is not after [e].  The date
    is the first one on or after [ws] that falls on the weekday. *)
Theorem emitted_iff_on_or_before_end course ws e text :
  in_calendar ws ->
  Forall (fun l => short_line l = true \/ read_line l <> None)
         (splitlines text) ->
  exists evs,
    create_events_from_pattern course text ws e = Ok evs /\
    evs = flat_map (instances_of course ws e) (splitlines text) /\
    (forall line days location st en w,
       In line (splitlines text) ->
       read_line line = Some (days, location, st, en) ->
       In w (decode_days days) ->
       (In (instance course line location st en (event_date_of ws w)) evs
        <-> event_date_of ws w <= e)) /\
    (forall w, 0 <= w < 7 ->
       ws <= event_date_of ws w /\
       weekday (event_date_of ws w) = w /\
       forall d, ws <= d -> weekday d = w -> event_date_of ws w <= d).
Proof.
  intros Hcal Hall. eexists. split; [|split; [reflexivity|split]].
  - unfold create_events_from_pattern. now rewrite lines_loop_read.
  - intros line days location st en w Hline Hread Hw. split.
    + intros Hin. apply in_flat_map in Hin. destruct Hin as (l' & _ & Hin).
      apply in_instances_of in Hin.
      destruct Hin as (days' & loc' & st' & en' & w' & _ & _ & K & E).
      unfold kept in K. apply Z.leb_le in K.
      apply (f_equal (fun ev => dt_date (dtstart ev))) in E. cbn in E.
      now rewrite E.
    + intros Hle. apply in_flat_map. exists line. split; [assumption|].
      unfold instances_of. rewrite Hread.
      apply (in_map (fun w0 => instance course line location st en
                                        (event_date_of ws w0))).
      apply filter_In.
      split; [assumption|]. unfold kept. now apply Z.leb_le.
  - intros w Hw. split; [apply event_date_bounds|].
    split; [now apply event_date_weekday|].
    intros d Hd Hwd. now apply event_date_first.
Qed.

(** The end date is a Wednesday and the token holds Friday: the last
    week has Monday and Wednesday and no Friday, and the second line is
    still processed. *)
Lemma emitted_iff_on_or_before_end_witness :
  exists evs,
    create_events_from_pattern (s "X") two_lines (jan 15) (jan 17) = Ok evs /\
    map (fun ev => dt_date (dtstart ev) - (jan 15)) evs = [0; 2; 1].
Proof.
  destruct (emitted_iff_on_or_before_end (s "X") (jan 15) (jan 17) two_lines)
    as (evs & H & -> & _).
  - split; vm_compute; [reflexivity | discriminate].
  - change (splitlines two_lines)
      with [s "MWF|9:00 AM-9:50 AM|Room 1"; s "TTH|1:00 PM-2:15 PM"].
    repeat (apply Forall_cons; [right; vm_compute; discriminate|]).
    apply Forall_nil.
  - eexists. split; [exact H | reflexivity].
Defined.

(** C10.  Every instance the expander returns starts and ends on the
    same date, with the two clock times of its line; so when the end
    time of the line is earlier in the day than the start time, the
    instance ends before it starts. *)
Theorem instance_within_one_date course ws e text evs ev :
  create_events_from_pattern course text ws e = Ok evs -> In ev evs ->
  dt_date (dtstart ev) = dt_date (dtend ev) /\
  exists line days location st en,
    In line (splitlines text) /\
    read_line line = Some (days, location, st, en) /\
    dt_time (dtstart ev) = st /\ dt_time (dtend ev) = en /\
    (hour en * 60 + minute en < hour st * 60 + minute st ->
     minutes (dtend ev) < minutes (dtstart ev)).
Proof.
  intros H Hin.
  destruct (create_events_sound _ _ _ _ _ _ H Hin)
    as (line & Hline & days & location & st & en & w & R & _ & _ & ->).
  split; [reflexivity|].
  exists line, days, location, st, en.
  repeat split; try assumption. unfold minutes. cbn. lia.
Qed.

Lemma instance_within_one_date_witness :
  create_events_from_pattern (s "X") (s "M|11:00 PM-1:00 AM") (jan 15) (jan 15)
  = Ok [overnight] /\
  dt_date (dtstart overnight) = dt_date (dtend overnight) /\
  minutes (dtend overnight) < minutes (dtstart overnight).
Proof.
  assert (H : create_events_from_pattern (s "X") (s "M|11:00 PM-1:00 AM")
                                         (jan 15) (jan 15)
              = Ok [overnight]) by reflexivity.
  destruct (instance_within_one_date _ _ _ _ _ overnight H (or_introl eq_refl))
    as (Hd & line & days & location & st & en & _ & _ & _ & _ & _).
  split; [exact H|]. split; [exact Hd|]. reflexivity.
Defined.

(** ** The header map *)

Lemma dict_get_set_same {V} k (v : V) d : dict_get k (dict_set k v d) = Some v.
Proof.
  induction d as [|[k' v'] d IH]; cbn.
  - now rewrite eqb_refl.
  - destruct (Str.eqb k k') eqn:E; cbn; [now rewrite eqb_refl|].
    now rewrite E.
Qed.

Lemma dict_get_set_other {V} k k' (v : V) d :
  k' <> k -> dict_get k' (dict_set k v d) = dict_get k' d.
Proof.
  intros N. induction d as [|[k0 v0] d IH]; cbn.
  - apply eqb_neq in N. now rewrite N.
  - destruct (Str.eqb k k0) eqn:E; cbn.
    + apply eqb_eq in E. subst k0. apply eqb_neq in N. now rewrite N.
    + now rewrite IH.
Qed.

Lemma header_map_loop_cons col rest hm :
  header_map_loop (col :: rest) hm
  = header_map_loop rest (match classify col with
                          | Some n => dict_set col n hm
                          | None => hm
                          end).
Proof.
  cbn [header_map_loop]. unfold classify.
  destruct (contains (s "course") (lower col)); [reflexivity|].
  destruct (contains (s "pattern") (lower col) || contains (s "meeting") (lower col));
    [reflexivity|].
  destruct (contains (s "start") (lower col)); [reflexivity|].
  destruct (contains (s "end") (lower col)); reflexivity.
Qed.

(** The map holds, for the columns the loop has seen, the name
    [classify] gives them. *)
Lemma header_map_loop_get cols : forall hm c,
  (forall k, dict_get k hm = None \/ dict_get k hm = classify k) ->
  dict_get c (header_map_loop cols hm)
  = if col_in c cols then classify c else dict_get c hm.
Proof.
  induction cols as [|col rest IH]; intros hm c Inv; [reflexivity|].
  rewrite header_map_loop_cons.
  assert (Inv' : forall k,
             dict_get k (match classify col with
                         | Some n => dict_set col n hm | None => hm end) = None
             \/ dict_get k (match classify col with
                            | Some n => dict_set col n hm | None => hm end)
                = classify k).
  { intros k. destruct (classify col) as [n|] eqn:C; [|apply Inv].
    destruct (list_eq_dec Z.eq_dec k col) as [->|N].
    - right. now rewrite dict_get_set_same.
    - rewrite dict_get_set_other by assumption. apply Inv. }
  rewrite (IH _ c Inv'). unfold col_in. cbn [existsb].
  fold (col_in c rest). destruct (col_in c rest); [now rewrite orb_true_r|].
  rewrite orb_false_r. destruct (Str.eqb c col) eqn:E.
  - apply eqb_eq in E. subst c. destruct (classify col) as [n|] eqn:C.
    + apply dict_get_set_same.
    + destruct (Inv col) as [H|H]; congruence.
  - apply eqb_neq in E. destruct (classify col); [|reflexivity].
    now apply dict_get_set_other.
Qed.

Lemma col_in_refl c cols : In c cols -> col_in c cols = true.
Proof.
  intros H. apply existsb_exists. exists c. split; [assumption | apply eqb_refl].
Qed.

Lemma rename_header_map cols :
  rename (header_map_loop cols []) cols
  = map (fun c => match classify c with Some n => n | None => c end) cols.
Proof.
  unfold rename. apply map_ext_in. intros c Hc.
  rewrite header_map_loop_get by (intros k; now left).
  now rewrite col_in_refl.
Qed.

Lemma classify_required name : In name required_cols -> classify name = Some name.
Proof.
  intros [<-|[<-|[<-|[<-|[]]]]]; reflexivity.
Qed.

Lemma eqb_sym a b : Str.eqb a b = Str.eqb b a.
Proof.
  destruct (Str.eqb b a) eqn:E.
  - apply eqb_eq in E. subst. apply eqb_refl.
  - apply eqb_neq. apply eqb_neq in E. congruence.
Qed.

Lemma labels_map columns names :
  labels columns = Some names -> columns = map Label names.
Proof.
  revert names. induction columns as [|[n|] columns IH]; intros names H.
  - inversion H. reflexivity.
  - cbn [labels] in H. destruct (labels columns) as [ns|]; [|discriminate].
    inversion H. cbn [map]. f_equal. now apply IH.
  - discriminate.
Qed.

Lemma renamed_classified names :
  renamed names
  = map (fun c => match classify (strip c) with
                  | Some n => n
                  | None => strip c
                  end) names.
Proof. unfold renamed. rewrite rename_header_map. apply map_map. Qed.

Lemma carries_renamed name col :
  In name required_cols ->
  Str.eqb name (match classify (strip col) with
                | Some n => n
                | None => strip col
                end)
  = carries name (Label col).
Proof.
  intros Hreq. cbn [carries].
  destruct (classify (strip col)) as [n|] eqn:C; [apply eqb_sym|].
  apply eqb_neq. intros ->. rewrite classify_required in C by assumption.
  discriminate.
Qed.

(** After the renaming a required name is a column exactly when it is
    resolved. *)
Lemma col_in_renamed name names :
  In name required_cols ->
  col_in name (renamed names) = resolved name (map Label names).
Proof.
  intros Hreq. rewrite renamed_classified. unfold col_in, resolved.
  induction names as [|h names IH]; [reflexivity|].
  cbn [map existsb]. rewrite IH. f_equal. now apply carries_renamed.
Qed.

(** After the renaming several columns have a required name exactly
    when several headers carry it. *)
Lemma is_series_renamed name names :
  In name required_cols ->
  is_series (renamed names) name = several name (map Label names).
Proof.
  intros Hreq. unfold is_series, several, carriers.
  rewrite renamed_classified. f_equal. f_equal.
  induction names as [|h names IH]; [reflexivity|].
  cbn [map filter]. rewrite carries_renamed by assumption.
  destruct (carries name (Label h)); cbn [List.length]; now rewrite IH.
Qed.

Lemma missing_columns names :
  filter (fun col => negb (col_in col (renamed names))) required_cols
  = unresolved (map Label names).
Proof.
  apply filter_ext_in. intros name H. now rewrite col_in_renamed.
Qed.

Lemma string_headers_labels columns :
  string_headers columns = true ->
  exists names, labels columns = Some names /\ columns = map Label names.
Proof.
  unfold string_headers. destruct columns as [|h columns]; [discriminate|].
  destruct (labels (h :: columns)) as [names|] eqn:L; [|discriminate].
  intros _. exists names. split; [reflexivity | now apply labels_map].
Qed.

(** Without a column, or with a header that is no string, the loader
    raises the AttributeError of line 19 or 25, whatever the rows. *)
Lemma convert_no_string_headers columns rows :
  string_headers columns = false ->
  convert_xlsx_to_ics columns rows = Some (Raise AttributeError).
Proof.
  unfold string_headers, convert_xlsx_to_ics.
  destruct columns as [|h columns]; [reflexivity|].
  now destruct (labels (h :: columns)).
Qed.

(** With string headers the loader goes on to line 40, and from there,
    when no name is missing, to the loop over the rows. *)
Lemma convert_string_headers columns rows :
  string_headers columns = true ->
  exists names,
    columns = map Label names /\
    convert_xlsx_to_ics columns rows
    = match unresolved columns with
      | _ :: _ =>
          Some (Raise (ValueError (s "Missing required column(s): "
                                     ++ repr_list (unresolved columns))))
      | [] => rows_loop (renamed names) (ffill_course rows) []
      end.
Proof.
  intros H. destruct (string_headers_labels _ H) as (names & L & E).
  exists names. split; [exact E|].
  destruct columns as [|h columns]; [discriminate|].
  unfold convert_xlsx_to_ics. rewrite L. fold (renamed names).
  rewrite missing_columns, <- E. reflexivity.
Qed.

(** ** The claims about the loader *)

(** C5, at a sheet without columns and at a sheet with a number for a
    header.  No header of the empty sheet carries a required name, so
    all four are unresolved; the loader does not come to line 40 to
    say so: [df.columns.str] of line 19 raises an AttributeError, which
    is no ValueError, and [import_files] catches none such, so no
    message box names the missing columns.  With a header that is no
    string beside strings, line 25 raises the same. *)
Lemma empty_sheet_raises_AttributeError :
  unresolved [] = required_cols /\
  (forall rows, convert_xlsx_to_ics [] rows = Some (Raise AttributeError)) /\
  is_ValueError AttributeError = false /\
  unresolved [Label (s "Course"); NoLabel; Label (s "End")]
  = [s "Meeting Patterns"; s "Start Date"] /\
  (forall rows,
      convert_xlsx_to_ics [Label (s "Course"); NoLabel; Label (s "End")] rows
      = Some (Raise AttributeError)) /\
  import_files (fun _ => []) (s "/home/u/Desktop")
               [(s "/in/empty.xlsx", ([], []))]
               (mk_Window [] [no_files_yet] [])
  = Some (mk_Window [] [no_files_yet] [], Raise AttributeError).
Proof. repeat split. Qed.

(** On string headers the loader comes to line 40 and names what is
    missing. *)
Example missing_column_ex :
  convert_xlsx_to_ics [s "Course Listing"; s " Meeting Patterns "; s "Ends"]
    [mk_Row None None NotADate NotADate]
  = Some (Raise (ValueError (s "Missing required column(s): ['Start Date']"))).
Proof. reflexivity. Qed.

(** ** Forward fill *)

Lemma ffill_from_length last col :
  List.length (ffill_from last col) = List.length col.
Proof.
  revert last. induction col as [|[v|] col IH]; intros last; cbn;
    [reflexivity | now rewrite IH | now rewrite IH].
Qed.

Lemma ffill_from_own col : forall last i v,
  nth_error col i = Some (Some v) ->
  nth_error (ffill_from last col) i = Some (Some v).
Proof.
  induction col as [|c col IH]; intros last i v H.
  - destruct i; discriminate.
  - destruct i as [|i].
    + cbn in H. inversion H. reflexivity.
    + cbn in H. destruct c; cbn; now apply IH.
Qed.

(** Missing cells from the top down to [i]: the value carried in. *)
Lemma ffill_from_run col : forall last i,
  (forall k, (k <= i)%nat -> nth_error col k = Some None) ->
  nth_error (ffill_from last col) i = Some last.
Proof.
  induction col as [|c col IH]; intros last i H.
  - specialize (H O ltac:(lia)). discriminate.
  - pose proof (H O ltac:(lia)) as H0. cbn in H0. inversion H0. subst c.
    destruct i as [|i]; [reflexivity|].
    cbn. apply IH. intros k Hk. apply (H (S k)). lia.
Qed.

Lemma ffill_from_inherit col : forall last i j v,
  (j < i)%nat ->
  nth_error col j = Some (Some v) ->
  (forall k, (j < k <= i)%nat -> nth_error col k = Some None) ->
  nth_error (ffill_from last col) i = Some (Some v).
Proof.
  induction col as [|c col IH]; intros last i j v Hji Hj Hk.
  - destruct j; discriminate.
  - destruct i as [|i]; [lia|]. destruct j as [|j].
    + cbn in Hj. inversion Hj. subst c. cbn.
      apply ffill_from_run. intros k Hle. apply (Hk (S k)). lia.
    + cbn in Hj.
      assert (Hk' : forall k, (j < k <= i)%nat -> nth_error col k = Some None).
      { intros k Hle. apply (Hk (S k)). lia. }
      destruct c; cbn; apply (IH _ i j v); assumption || lia.
Qed.

Lemma ffill_course_nth rows i r :
  nth_error rows i = Some r ->
  exists c,
    nth_error (ffill (map course_cell rows)) i = Some c /\
    nth_error (ffill_course rows) i
    = Some (mk_Row c (pattern_cell r) (start_cell r) (end_cell r)).
Proof.
  intros H. unfold ffill_course, ffill.
  generalize (ffill_from_length None (map course_cell rows)).
  rewrite length_map.
  generalize (ffill_from None (map course_cell rows)). intros filled Hlen.
  revert i filled Hlen H.
  induction rows as [|r0 rows IH]; intros i filled Hlen H.
  - destruct i; discriminate.
  - destruct filled as [|c filled]; [discriminate|].
    destruct i as [|i].
    + cbn in H. inversion H. subst r0. exists c. split; reflexivity.
    + cbn in H. cbn. apply IH; [now inversion Hlen | assumption].
Qed.

(** C8.  After the fill, the row at every position keeps its other
    cells; it keeps its own course when it has one; and when it has
    none, it holds the course of the nearest row above that has one. *)
Theorem forward_fill_course rows i r :
  nth_error rows i = Some r ->
  exists r',
    nth_error (ffill_course rows) i = Some r' /\
    pattern_cell r' = pattern_cell r /\
    start_cell r' = start_cell r /\ end_cell r' = end_cell r /\
    (forall v, course_cell r = Some v -> course_cell r' = Some v) /\
    (forall j rj v,
        course_cell r = None ->
        (j < i)%nat -> nth_error rows j = Some rj -> course_cell rj = Some v ->
        (forall k rk, (j < k < i)%nat -> nth_error rows k = Some rk ->
                      course_cell rk = None) ->
        course_cell r' = Some v).
Proof.
  intros H. destruct (ffill_course_nth _ _ _ H) as (c & Hc & Hr).
  eexists. split; [exact Hr|]. cbn. repeat split.
  - intros v Hv.
    assert (X : nth_error (ffill (map course_cell rows)) i = Some (Some v)).
    { apply ffill_from_own. rewrite nth_error_map, H. cbn. now rewrite Hv. }
    congruence.
  - intros j rj v Hnone Hji Hj Hv Hbetween.
    assert (X : nth_error (ffill (map course_cell rows)) i = Some (Some v)).
    { apply (ffill_from_inherit _ _ i j v); [assumption| |].
      - rewrite nth_error_map, Hj. cbn. now rewrite Hv.
      - intros k Hk. rewrite nth_error_map.
        destruct (Nat.eq_dec k i) as [->|Hne].
        + rewrite H. cbn. now rewrite Hnone.
        + destruct (nth_error rows k) as [rk|] eqn:Ek.
          * cbn. f_equal. apply (Hbetween k rk); [lia | assumption].
          * exfalso. apply nth_error_None in Ek.
            assert (i < List.length rows)%nat
              by (apply nth_error_Some; congruence).
            lia. }
    congruence.
Qed.

Lemma forward_fill_course_witness :
  map course_cell (ffill_course sample_rows)
  = [Some (s "CS 101"); Some (s "CS 101"); Some (s "CS 101");
     Some (s "MA 201"); Some (s "MA 201")] /\
  exists r', nth_error (ffill_course sample_rows) 2 = Some r' /\
             course_cell r' = Some (s "CS 101").
Proof.
  split; [reflexivity|].
  destruct (forward_fill_course sample_rows 2 (sample_row None) eq_refl)
    as (r' & Hr & _ & _ & _ & _ & Hfill).
  exists r'. split; [exact Hr|].
  apply (Hfill 0%nat (sample_row (Some (s "CS 101"))) (s "CS 101"));
    try reflexivity; [lia|].
  intros k rk Hk Hnth.
  assert (k = 1%nat) by lia. subst k. cbn in Hnth. inversion Hnth. reflexivity.
Defined.

(** ** The loop over the weeks of a row *)

Lemma weeks_step ws e : ws <= e -> weeks ws e = S (weeks (ws + 7) e).
Proof.
  intros H. unfold weeks.
  replace (ws <=? e) with true by (symmetry; now apply Z.leb_le).
  f_equal. destruct (ws + 7 <=? e) eqn:E.
  - apply Z.leb_le in E.
    replace (e - ws) with ((e - (ws + 7)) + 1 * 7) by lia.
    rewrite Z.div_add by lia.
    rewrite <- Z2Nat.inj_succ by (apply Z.div_pos; lia).
    f_equal; lia.
  - apply Z.leb_gt in E. rewrite Z.div_small by lia. reflexivity.
Qed.

Lemma weeks_none ws e : e < ws -> weeks ws e = O.
Proof.
  intros H. unfold weeks.
  now replace (ws <=? e) with false by (symmetry; now apply Z.leb_gt).
Qed.

(** The bound [weeks] is enough: the loop ends, with a calendar or with
    an exception. *)
Lemma week_loop_total fuel : forall course text ws e cal,
  (weeks ws e <= fuel)%nat ->
  week_loop fuel course text ws e cal <> None.
Proof.
  induction fuel as [|fuel IH]; intros course text ws e cal Hw.
  - cbn. destruct (ws <=? e) eqn:E; [|discriminate].
    apply Z.leb_le in E. rewrite weeks_step in Hw by assumption. lia.
  - cbn [week_loop]. destruct (ws <=? e) eqn:E; [|discriminate].
    apply Z.leb_le in E.
    destruct (create_events_from_pattern course text ws e); [|discriminate].
    destruct (date_add ws 7) as [ws'|] eqn:D; [|discriminate].
    apply date_add_Ok in D. subst ws'. apply IH.
    rewrite weeks_step in Hw by assumption. lia.
Qed.

(** One round of the loop over the rows: the row is passed over, or
    line 51 or line 62 raises, or the loop over the weeks is run. *)
Lemma rows_loop_step columns row rest cal :
  rows_loop columns (row :: rest) cal = rows_loop columns rest cal \/
  (exists err,
      rows_loop columns (row :: rest) cal = Some (Raise err) /\
      (err = TruthValueError \/ err = TypeError)) \/
  (exists sd ed,
      start_cell row = Timestamp sd /\ end_cell row = Timestamp ed /\
      rows_loop columns (row :: rest) cal
      = match week_loop (weeks sd ed) (py_str (course_cell row))
                        (py_str (pattern_cell row)) sd ed cal with
        | Some (Ok cal') => rows_loop columns rest cal'
        | other => other
        end).
Proof.
  cbn [rows_loop].
  destruct (is_series columns (s "Start Date"));
    [right; left; eexists; split; [reflexivity | now left]|].
  destruct (start_cell row) as [| |sd|]; try (now left);
    (destruct (is_series columns (s "End Date"));
     [right; left; eexists; split; [reflexivity | now left]|]);
    destruct (end_cell row) as [| |ed|]; cbn [to_date]; try (now left);
    try (right; left; eexists; split; [reflexivity | now right]).
  right; right. exists sd, ed. repeat split.
Qed.

Lemma rows_loop_total columns rows :
  forall cal, rows_loop columns rows cal <> None.
Proof.
  induction rows as [|row rows IH]; intros cal; [discriminate|].
  destruct (rows_loop_step columns row rows cal)
    as [-> | [(err & -> & _) | (sd & ed & _ & _ & ->)]];
    [apply IH | discriminate |].
  destruct (week_loop (weeks sd ed) (py_str (course_cell row))
                      (py_str (pattern_cell row)) sd ed cal)
    as [[cal'|err]|] eqn:W.
  - apply IH.
  - discriminate.
  - exfalso. revert W. apply week_loop_total. lia.
Qed.

(** The three ways of a conversion: the AttributeError of lines 19 and
    25, the ValueError of line 40, or the loop over the rows. *)
Lemma convert_cases columns rows :
  convert_xlsx_to_ics columns rows = Some (Raise AttributeError) \/
  (exists msg,
      convert_xlsx_to_ics columns rows = Some (Raise (ValueError msg))) \/
  (exists names,
      convert_xlsx_to_ics columns rows
      = rows_loop (renamed names) (ffill_course rows) []).
Proof.
  destruct (string_headers columns) eqn:H.
  - destruct (convert_string_headers columns rows H) as (names & _ & ->).
    destruct (unresolved columns); right; [right | left]; eauto.
  - left. now apply convert_no_string_headers.
Qed.

(** The loader always ends: with the calendar or with an exception. *)
Lemma convert_xlsx_to_ics_total columns rows :
  convert_xlsx_to_ics columns rows <> None.
Proof.
  destruct (convert_cases columns rows) as [-> | [(msg & ->) | (names & ->)]];
    try discriminate.
  apply rows_loop_total.
Qed.

Lemma flat_map_seq_shift {A} (f : nat -> list A) n :
  flat_map f (seq 1 n) = flat_map (fun k => f (S k)) (seq 0 n).
Proof.
  rewrite <- seq_shift, !flat_map_concat_map, map_map. reflexivity.
Qed.

(** A row whose lines are all short or well formed: the weeks start at
    the start date and every seventh day after it, up to the end date,
    and each gives the instances of its lines. *)
Lemma week_loop_read course text e :
  Forall (fun l => short_line l = true \/ read_line l <> None)
         (splitlines text) ->
  e + 7 <= MAXORDINAL ->
  forall n ws cal,
    0 < ws -> weeks ws e = n ->
    week_loop n course text ws e cal
    = Some (Ok (cal ++ flat_map
                         (fun k => flat_map
                                     (instances_of course
                                                   (ws + 7 * Z.of_nat k) e)
                                     (splitlines text))
                         (seq 0 n))).
Proof.
  intros Hall Hmax. induction n as [|n IH]; intros ws cal Hpos Hw.
  - destruct (Z_le_gt_dec ws e) as [L|G].
    + rewrite weeks_step in Hw by assumption. discriminate.
    + cbn. replace (ws <=? e) with false by (symmetry; apply Z.leb_gt; lia).
      now rewrite app_nil_r.
  - destruct (Z_le_gt_dec ws e) as [L|G];
      [|rewrite weeks_none in Hw by lia; discriminate].
    rewrite weeks_step in Hw by assumption. inversion Hw as [Hw'].
    cbn [week_loop].
    replace (ws <=? e) with true by (symmetry; now apply Z.leb_le).
    unfold create_events_from_pattern.
    rewrite lines_loop_read; [|split; lia | assumption]. cbn [app].
    unfold date_add.
    replace ((0 <? ws + 7) && (ws + 7 <=? MAXORDINAL)) with true
      by (symmetry; apply andb_true_iff; split;
          [apply Z.ltb_lt | apply Z.leb_le]; lia).
    rewrite Hw'. rewrite IH by (assumption || lia).
    do 2 f_equal. rewrite <- app_assoc. f_equal.
    change (seq 0 (S n)) with (0%nat :: seq 1 n). cbn [flat_map].
    rewrite flat_map_seq_shift. f_equal.
    + f_equal. f_equal. lia.
    + rewrite <- Hw'. apply flat_map_ext. intros k. f_equal. f_equal. lia.
Qed.

(** C3.  One row with the pattern MWF, 9:00 AM to 9:50 AM, from Monday
    2024-01-08 to Friday 2024-01-19: six instances, on the Mondays,
    Wednesdays and Fridays of the two weeks, each of 50 minutes, none
    after the end date. *)
Theorem two_weeks_of_MWF (course : str) :
  exists evs,
    convert_xlsx_to_ics
      [s "Course Listing"; s "Meeting Patterns"; s "Start Date"; s "End Date"]
      [mk_Row (Some course) (Some (s "MWF|9:00 AM-9:50 AM|Room 1"))
              (Timestamp (jan 8)) (Timestamp (jan 19))]
    = Some (Ok evs) /\
    List.length evs = 6%nat /\
    map (fun ev => dt_date (dtstart ev)) evs
    = [jan 8; jan 10; jan 12; jan 15; jan 17; jan 19] /\
    map (fun ev => weekday (dt_date (dtstart ev))) evs = [0; 2; 4; 0; 2; 4] /\
    Forall (fun ev => minutes (dtend ev) - minutes (dtstart ev) = 50) evs /\
    Forall (fun ev => dt_date (dtstart ev) <= jan 19
                      /\ dt_date (dtend ev) <= jan 19) evs /\
    Forall (fun ev => summary ev = course) evs.
Proof.
  eexists. split; [vm_compute; reflexivity|].
  split; [reflexivity|]. split; [reflexivity|]. split; [reflexivity|].
  split; [|split]; repeat constructor; vm_compute; discriminate.
Qed.

(** ** What the calendar of a conversion holds *)

Lemma week_loop_sound fuel : forall course text ws e cal cal',
  week_loop fuel course text ws e cal = Some (Ok cal') ->
  exists new,
    cal' = cal ++ new /\
    Forall (fun ev => exists anchor line,
                In line (splitlines text) /\
                emitted_by course anchor e line ev) new.
Proof.
  induction fuel as [|fuel IH]; intros course text ws e cal cal' H.
  - cbn in H. destruct (ws <=? e); [discriminate|].
    inversion H. exists []. now rewrite app_nil_r.
  - cbn [week_loop] in H. destruct (ws <=? e).
    + destruct (create_events_from_pattern course text ws e) as [evs|] eqn:C;
        [|discriminate].
      destruct (date_add ws 7) as [ws'|]; [|discriminate].
      apply IH in H. destruct H as (new & -> & Hnew).
      exists (evs ++ new). split; [now rewrite app_assoc|].
      apply Forall_app. split; [|exact Hnew].
      apply Forall_forall. intros ev Hev.
      destruct (create_events_sound _ _ _ _ _ _ C Hev) as (line & Hl & Hem).
      now exists ws, line.
    + inversion H. exists []. now rewrite app_nil_r.
Qed.

Lemma emitted_by_same_date course anchor e line ev :
  emitted_by course anchor e line ev ->
  dt_date (dtstart ev) = dt_date (dtend ev) /\ dt_date (dtstart ev) <= e.
Proof.
  intros (days & location & st & en & w & _ & _ & K & ->).
  split; [reflexivity|]. cbn. unfold kept in K. now apply Z.leb_le.
Qed.

Lemma rows_loop_sound columns rows : forall cal cal',
  rows_loop columns rows cal = Some (Ok cal') ->
  Forall (fun ev => dt_date (dtstart ev) = dt_date (dtend ev)) cal ->
  Forall (fun ev => dt_date (dtstart ev) = dt_date (dtend ev)) cal'.
Proof.
  induction rows as [|row rows IH]; intros cal cal' H Hcal.
  - cbn in H. now inversion H; subst.
  - destruct (rows_loop_step columns row rows cal)
      as [E | [(err & E & _) | (sd & ed & _ & _ & E)]]; rewrite E in H.
    + now apply (IH cal).
    + discriminate.
    + destruct (week_loop (weeks sd ed) (py_str (course_cell row))
                          (py_str (pattern_cell row)) sd ed cal)
        as [[cal1|err]|] eqn:W; try discriminate.
      apply (IH cal1); [assumption|].
      apply week_loop_sound in W. destruct W as (new & -> & Hnew).
      apply Forall_app. split; [assumption|].
      eapply Forall_impl; [|exact Hnew].
      intros ev (anchor & line & _ & Hem).
      now apply emitted_by_same_date in Hem.
Qed.

(** A conversion that succeeds went through the loop over the rows. *)
Lemma convert_Ok columns rows cal :
  convert_xlsx_to_ics columns rows = Some (Ok cal) ->
  exists names, rows_loop (renamed names) (ffill_course rows) [] = Some (Ok cal).
Proof.
  intros H.
  destruct (convert_cases columns rows) as [E | [(msg & E) | (names & E)]];
    rewrite E in H; try discriminate.
  now exists names.
Qed.

(** Every component of the calendar starts and ends on one date. *)
Lemma convert_xlsx_to_ics_same_date columns rows cal :
  convert_xlsx_to_ics columns rows = Some (Ok cal) ->
  Forall (fun ev => dt_date (dtstart ev) = dt_date (dtend ev)) cal.
Proof.
  intros H. apply convert_Ok in H. destruct H as (names & H).
  now apply (rows_loop_sound _ _ _ _ H).
Qed.

(** * Further properties of the expander *)

Lemma instances_of_unread course ws e line :
  read_line line = None -> instances_of course ws e line = [].
Proof. unfold instances_of. now intros ->. Qed.

(** One line, in every case: the exception [line_error] names, or the
    expected instances appended. *)
Lemma line_body_outcome course ws e line events :
  in_calendar ws ->
  line_body course ws e line events
  = match line_error ws e line with
    | Some err => Raise err
    | None => Ok (events ++ instances_of course ws e line)
    end.
Proof.
  intros Hcal. unfold line_error.
  destruct (fields line) as [|days [|times rest]] eqn:F.
  - rewrite line_body_short, instances_of_short;
      try (unfold short_line; now rewrite F).
    now rewrite app_nil_r.
  - rewrite line_body_short, instances_of_short;
      try (unfold short_line; now rewrite F).
    now rewrite app_nil_r.
  - destruct (time_strings times) as [|a [|b [|c l]]] eqn:T;
      try (rewrite (line_body_unpack _ _ _ _ _ _ _ _ F); rewrite T;
           [reflexivity | cbn; lia]).
    destruct (time_error a b) as [err|] eqn:E.
    + rewrite (line_body_time_error _ _ _ _ _ _ _ _ _ err _ Hcal F T E).
      destruct (existsb (kept ws e) (decode_days days)); [reflexivity|].
      rewrite instances_of_unread; [now rewrite app_nil_r|].
      unfold read_line, time_error in *. rewrite F, T.
      destruct (strptime_time a); [|reflexivity].
      destruct (strptime_time b); [discriminate | reflexivity].
    + assert (R : read_line line <> None).
      { unfold read_line, time_error in *. rewrite F, T.
        destruct (strptime_time a); [|discriminate].
        destruct (strptime_time b); discriminate. }
      rewrite line_body_read by assumption.
      now destruct (existsb (kept ws e) (decode_days days)).
Qed.

Lemma lines_loop_outcome course ws e ls :
  in_calendar ws ->
  forall events,
    lines_loop course ws e ls events
    = match first_error ws e ls with
      | Some err => Raise err
      | None => Ok (events ++ flat_map (instances_of course ws e) ls)
      end.
Proof.
  intros Hcal. induction ls as [|l ls IH]; intros events.
  - cbn. now rewrite app_nil_r.
  - cbn [lines_loop first_error flat_map].
    rewrite line_body_outcome by assumption.
    destruct (line_error ws e l) as [err|]; [reflexivity|].
    cbn [bind]. rewrite IH.
    destruct (first_error ws e ls); [reflexivity|].
    now rewrite <- app_assoc.
Qed.

(** X1.  For a week within the calendar the expander is decided line by
    line: it raises the exception of the first line that has a time
    range without two sides, or a side that is no clock time together
    with a weekday that is kept; when no line is such, it returns the
    instances of the lines, in the order of the lines. *)
Theorem expander_outcome course text ws e :
  in_calendar ws ->
  create_events_from_pattern course text ws e
  = match first_error ws e (splitlines text) with
    | Some err => Raise err
    | None => Ok (flat_map (instances_of course ws e) (splitlines text))
    end.
Proof.
  intros Hcal. unfold create_events_from_pattern.
  now rewrite lines_loop_outcome.
Qed.

Lemma expander_outcome_witness :
  create_events_from_pattern (s "X")
    (s "W|9:00 AM-9:50 AM" ++ LF ++ s "M|9:00-9:50" ++ LF ++ s "T|noon")
    (jan 15) (jan 17)
  = Raise (TimeDataError (s "9:00")).
Proof.
  apply (expander_outcome (s "X")
           (s "W|9:00 AM-9:50 AM" ++ LF ++ s "M|9:00-9:50" ++ LF ++ s "T|noon")
           (jan 15) (jan 17)).
  split; vm_compute; [reflexivity | discriminate].
Defined.

(** ** The instances of a row, date by date *)

Lemma date_in_its_window start d :
  start <= d ->
  let k := (d - start) / 7 in
  0 <= k /\ start + 7 * k <= d <= start + 7 * k + 6.
Proof.
  intros H k. subst k. Z.div_mod_to_equations. lia.
Qed.

Lemma event_date_in_window a d :
  a <= d <= a + 6 -> event_date_of a (weekday d) = d.
Proof.
  intros H. unfold event_date_of, weekday. Z.div_mod_to_equations. lia.
Qed.

Lemma weeks_covers start e d :
  start <= d <= e -> (Z.to_nat ((d - start) / 7) < weeks start e)%nat.
Proof.
  intros H. unfold weeks.
  replace (start <=? e) with true by (symmetry; apply Z.leb_le; lia).
  assert ((d - start) / 7 <= (e - start) / 7)
    by (apply Z.div_le_mono; lia).
  assert (0 <= (d - start) / 7) by (apply Z.div_pos; lia).
  lia.
Qed.

Lemma weeks_anchor start e k :
  (k < weeks start e)%nat -> start + 7 * Z.of_nat k <= e.
Proof.
  unfold weeks. destruct (start <=? e) eqn:E; [|lia].
  apply Z.leb_le in E. intros H.
  assert (Z.of_nat k <= (e - start) / 7).
  { apply Nat2Z.inj_lt in H. rewrite Nat2Z.inj_succ, Z2Nat.id in H
      by (apply Z.div_pos; lia). lia. }
  Z.div_mod_to_equations. lia.
Qed.

(** X2.  A row from [start] to [e] whose lines are all short or well
    formed gives exactly the instances one expects from a calendar: an
    event is added if and only if it is the instance of a line of the
    pattern on a date between [start] and [e], both included, whose
    weekday is among the decoded weekdays of that line.  No meeting day
    is left out and none is made up. *)
Theorem row_instances course text start e cal :
  Forall (fun l => short_line l = true \/ read_line l <> None)
         (splitlines text) ->
  0 < start -> e + 7 <= MAXORDINAL ->
  exists evs,
    week_loop (weeks start e) course text start e cal = Some (Ok (cal ++ evs)) /\
    forall ev,
      In ev evs <->
      exists line days location st en d,
        In line (splitlines text) /\
        read_line line = Some (days, location, st, en) /\
        start <= d <= e /\ In (weekday d) (decode_days days) /\
        ev = instance course line location st en d.
Proof.
  intros Hall Hpos Hmax. eexists. split.
  - now apply week_loop_read.
  - intros ev. split.
    + intros Hin. apply in_flat_map in Hin. destruct Hin as (k & Hk & Hin).
      apply in_seq in Hk. apply in_flat_map in Hin.
      destruct Hin as (line & Hline & Hin). apply in_instances_of in Hin.
      destruct Hin as (days & location & st & en & w & R & Hw & K & ->).
      exists line, days, location, st, en,
        (event_date_of (start + 7 * Z.of_nat k) w).
      pose proof (event_date_bounds (start + 7 * Z.of_nat k) w) as B.
      unfold kept in K. apply Z.leb_le in K.
      assert (Hr : 0 <= w <= 5).
      { pose proof (decode_days_range days) as Rg.
        rewrite Forall_forall in Rg. now apply Rg. }
      rewrite event_date_weekday by lia.
      repeat split; try assumption; lia.
    + intros (line & days & location & st & en & d & Hline & R & Hd & Hw & ->).
      destruct (date_in_its_window start d ltac:(lia)) as (Hk & Hwin).
      apply in_flat_map. exists (Z.to_nat ((d - start) / 7)). split.
      * apply in_seq. pose proof (weeks_covers start e d Hd). lia.
      * apply in_flat_map. exists line. split; [assumption|].
        unfold instances_of. rewrite R. rewrite Z2Nat.id by assumption.
        rewrite <- (event_date_in_window (start + 7 * ((d - start) / 7)) d)
          at 1 by lia.
        apply (in_map (fun w => instance course line location st en
                                         (event_date_of _ w))).
        apply filter_In. split; [assumption|].
        unfold kept. rewrite event_date_in_window by lia.
        apply Z.leb_le. lia.
Qed.

Lemma row_instances_witness :
  exists evs,
    week_loop (weeks (jan 8) (jan 19)) (s "X") two_lines (jan 8) (jan 19) []
    = Some (Ok ([] ++ evs)) /\
    In (instance (s "X") (s "TTH|1:00 PM-2:15 PM") [] (mk_time 13 0)
                 (mk_time 14 15) (jan 18)) evs.
Proof.
  destruct (row_instances (s "X") two_lines (jan 8) (jan 19) [])
    as (evs & H & Hiff).
  - change (splitlines two_lines)
      with [s "MWF|9:00 AM-9:50 AM|Room 1"; s "TTH|1:00 PM-2:15 PM"].
    repeat (apply Forall_cons; [right; vm_compute; discriminate|]).
    apply Forall_nil.
  - reflexivity.
  - vm_compute. discriminate.
  - exists evs. split; [exact H|]. apply Hiff.
    exists (s "TTH|1:00 PM-2:15 PM"), (s "TTH"), [], (mk_time 13 0),
      (mk_time 14 15), (jan 18).
    split; [right; left; reflexivity|]. split; [reflexivity|].
    split; [split; vm_compute; discriminate|].
    split; [right; left; reflexivity | reflexivity].
Defined.

Lemma on_date_app d xs ys : on_date d (xs ++ ys) = on_date d xs ++ on_date d ys.
Proof. apply filter_app. Qed.

Lemma kept_on_date a e d w :
  0 <= w <= 5 ->
  kept a e w && (event_date_of a w =? d) = in_window a e d && (w =? weekday d).
Proof.
  intros Hw. unfold kept, in_window.
  pose proof (event_date_bounds a w) as B.
  pose proof (event_date_weekday a w ltac:(lia)) as W.
  destruct (event_date_of a w =? d) eqn:E.
  - apply Z.eqb_eq in E. rewrite E in *. rewrite W, Z.eqb_refl.
    replace (a <=? d) with true by (symmetry; apply Z.leb_le; lia).
    replace (d <=? a + 6) with true by (symmetry; apply Z.leb_le; lia).
    now rewrite !andb_true_r.
  - rewrite andb_false_r. symmetry. apply andb_false_iff.
    destruct (w =? weekday d) eqn:Ew; [|now right]. left.
    apply Z.eqb_eq in Ew. apply Z.eqb_neq in E.
    destruct (Z_le_gt_dec a d) as [L1|G1];
      [|replace (a <=? d) with false by (symmetry; apply Z.leb_gt; lia);
        reflexivity].
    destruct (Z_le_gt_dec d (a + 6)) as [L2|G2];
      [|replace (d <=? a + 6) with false by (symmetry; apply Z.leb_gt; lia);
        now rewrite andb_false_r].
    exfalso. apply E. subst w. apply event_date_in_window. lia.
Qed.

Lemma on_date_instances course line location st en a e d l :
  on_date d (map (fun w => instance course line location st en
                                    (event_date_of a w))
                 (filter (kept a e) l))
  = map (fun w => instance course line location st en (event_date_of a w))
        (filter (fun w => kept a e w && (event_date_of a w =? d)) l).
Proof.
  unfold on_date. induction l as [|w l IH]; [reflexivity|].
  cbn [filter]. destruct (kept a e w); cbn [andb]; [|exact IH].
  cbn [map filter]. rewrite IH.
  change (dt_date (dtstart (instance course line location st en
                                     (event_date_of a w))))
    with (event_date_of a w).
  now destruct (event_date_of a w =? d).
Qed.

Lemma count_in_line course a e d line :
  List.length (on_date d (instances_of course a e line))
  = if in_window a e d
    then count_occ Z.eq_dec (line_days line) (weekday d) else O.
Proof.
  unfold instances_of, line_days.
  destruct (read_line line) as [[[[days location] st] en]|];
    [|now destruct (in_window a e d)].
  rewrite on_date_instances, length_map.
  pose proof (decode_days_range days) as R.
  induction R as [|w l Hw Hl IH]; [now destruct (in_window a e d)|].
  cbn [filter count_occ]. rewrite (kept_on_date a e d w Hw).
  destruct (in_window a e d) eqn:I; cbn [andb].
  - destruct (Z.eq_dec w (weekday d)) as [->|N].
    + rewrite Z.eqb_refl. cbn [List.length]. now rewrite IH.
    + apply Z.eqb_neq in N. now rewrite N.
  - exact IH.
Qed.

Lemma count_in_week course a e d ls :
  List.length (on_date d (flat_map (instances_of course a e) ls))
  = if in_window a e d
    then count_occ Z.eq_dec (flat_map line_days ls) (weekday d) else O.
Proof.
  induction ls as [|l ls IH]; [now destruct (in_window a e d)|].
  cbn [flat_map]. rewrite on_date_app, length_app, count_in_line, IH.
  rewrite count_occ_app. now destruct (in_window a e d).
Qed.

Lemma count_in_weeks course e d ls n : forall start,
  List.length
    (on_date d (flat_map
                  (fun k => flat_map
                              (instances_of course (start + 7 * Z.of_nat k) e)
                              ls)
                  (seq 0 n)))
  = if (start <=? d) && (d <? start + 7 * Z.of_nat n) && (d <=? e)
    then count_occ Z.eq_dec (flat_map line_days ls) (weekday d) else O.
Proof.
  induction n as [|n IH]; intros start.
  - cbn [seq flat_map on_date filter List.length].
    replace ((start <=? d) && (d <? start + 7 * Z.of_nat 0)) with false;
      [reflexivity|].
    symmetry. apply andb_false_iff.
    destruct (Z_le_gt_dec start d);
      [right; apply Z.ltb_ge | left; apply Z.leb_gt]; lia.
  - change (seq 0 (S n)) with (0%nat :: seq 1 n). cbn [flat_map].
    rewrite flat_map_seq_shift, on_date_app, length_app.
    replace (start + 7 * Z.of_nat 0) with start by lia.
    rewrite count_in_week.
    rewrite (flat_map_ext
               (fun k => flat_map
                           (instances_of course (start + 7 * Z.of_nat (S k)) e)
                           ls)
               (fun k => flat_map
                           (instances_of course (start + 7 + 7 * Z.of_nat k) e)
                           ls))
      by (intros k; do 2 f_equal; lia).
    rewrite IH. unfold in_window.
    destruct (Z.leb_spec start d), (Z.leb_spec d (start + 6)),
      (Z.leb_spec d e), (Z.leb_spec (start + 7) d),
      (Z.ltb_spec d (start + 7 + 7 * Z.of_nat n)),
      (Z.ltb_spec d (start + 7 * Z.of_nat (S n)));
      cbn [andb]; lia.
Qed.

Lemma weeks_reach start e : start <= e -> e < start + 7 * Z.of_nat (weeks start e).
Proof.
  intros H. unfold weeks.
  replace (start <=? e) with true by (symmetry; now apply Z.leb_le).
  rewrite Nat2Z.inj_succ, Z2Nat.id by (apply Z.div_pos; lia).
  Z.div_mod_to_equations. lia.
Qed.

(** X3.  In the events of such a row, every date between [start] and
    [e] carries as many instances as its weekday has occurrences in the
    decoded tokens of the lines, and every other date carries none: a
    weekday written once gives one instance on each of its dates, never
    two and never zero. *)
Theorem row_instances_per_date course text start e cal :
  Forall (fun l => short_line l = true \/ read_line l <> None)
         (splitlines text) ->
  0 < start -> e + 7 <= MAXORDINAL ->
  exists evs,
    week_loop (weeks start e) course text start e cal = Some (Ok (cal ++ evs)) /\
    forall d,
      List.length (on_date d evs)
      = if (start <=? d) && (d <=? e)
        then count_occ Z.eq_dec (flat_map line_days (splitlines text))
                       (weekday d)
        else O.
Proof.
  intros Hall Hpos Hmax. eexists. split; [now apply week_loop_read|].
  intros d. rewrite count_in_weeks.
  destruct (Z.leb_spec start d) as [L|G]; [|reflexivity].
  destruct (Z.leb_spec d e) as [L2|G2]; cbn [andb].
  - pose proof (weeks_reach start e ltac:(lia)).
    replace (d <? start + 7 * Z.of_nat (weeks start e)) with true
      by (symmetry; apply Z.ltb_lt; lia).
    reflexivity.
  - now rewrite andb_false_r.
Qed.

Lemma row_instances_per_date_witness :
  exists evs,
    week_loop (weeks (jan 8) (jan 19)) (s "X") two_lines (jan 8) (jan 19) []
    = Some (Ok ([] ++ evs)) /\
    List.length (on_date (jan 18) evs) = 1%nat /\
    List.length (on_date (jan 14) evs) = 0%nat.
Proof.
  destruct (row_instances_per_date (s "X") two_lines (jan 8) (jan 19) [])
    as (evs & H & Hcount).
  - change (splitlines two_lines)
      with [s "MWF|9:00 AM-9:50 AM|Room 1"; s "TTH|1:00 PM-2:15 PM"].
    repeat (apply Forall_cons; [right; vm_compute; discriminate|]).
    apply Forall_nil.
  - reflexivity.
  - vm_compute. discriminate.
  - exists evs. split; [exact H|]. split; rewrite Hcount; reflexivity.
Defined.

(** * Further properties of the loader *)

(** ** Rows that are passed over *)

Lemma week_loop_nothing fuel course text start e cal :
  e < start -> week_loop fuel course text start e cal = Some (Ok cal).
Proof.
  intros H. destruct fuel; cbn;
    now replace (start <=? e) with false by (symmetry; apply Z.leb_gt; lia).
Qed.

(** The loop depends on the columns through the two tests of line 51
    only. *)
Lemma rows_loop_ext columns columns' :
  is_series columns (s "Start Date") = is_series columns' (s "Start Date") ->
  is_series columns (s "End Date") = is_series columns' (s "End Date") ->
  forall rows cal, rows_loop columns rows cal = rows_loop columns' rows cal.
Proof.
  intros Hs He. induction rows as [|row rows IH]; intros cal; [reflexivity|].
  cbn [rows_loop]. rewrite Hs, He.
  destruct (is_series columns' (s "Start Date")); [reflexivity|].
  destruct (start_cell row); try apply IH;
    (destruct (is_series columns' (s "End Date")); [reflexivity|]);
    destruct (end_cell row); cbn [to_date]; try apply IH; try reflexivity.
  destruct (week_loop _ _ _ _ _ _) as [[cal'|err]|];
    [apply IH | reflexivity | reflexivity].
Qed.

(** One round of the loop where each date name has one column. *)
Lemma rows_loop_cons row rest cal :
  rows_loop required_cols (row :: rest) cal
  = if passed_over row then rows_loop required_cols rest cal
    else if date_beside_NaT row then Some (Raise TypeError)
    else match start_cell row, end_cell row with
         | Timestamp sd, Timestamp ed =>
             match week_loop (weeks sd ed) (py_str (course_cell row))
                             (py_str (pattern_cell row)) sd ed cal with
             | Some (Ok cal') => rows_loop required_cols rest cal'
             | other => other
             end
         | _, _ => rows_loop required_cols rest cal
         end.
Proof.
  cbn [rows_loop]. unfold passed_over, date_beside_NaT.
  change (is_series required_cols (s "Start Date")) with false.
  change (is_series required_cols (s "End Date")) with false.
  cbv iota.
  destruct (start_cell row) as [| |sd|]; destruct (end_cell row) as [| |ed|];
    cbn [to_date]; try reflexivity.
  destruct (Z.ltb_spec ed sd); [|reflexivity].
  now rewrite week_loop_nothing.
Qed.

Lemma rows_loop_kept_only rows : forall cal,
  rows_loop required_cols rows cal
  = rows_loop required_cols (filter (fun row => negb (passed_over row)) rows)
              cal.
Proof.
  induction rows as [|row rows IH]; intros cal; [reflexivity|].
  cbn [filter]. destruct (passed_over row) eqn:P; cbn [negb].
  - rewrite rows_loop_cons, P. apply IH.
  - rewrite !rows_loop_cons, P.
    destruct (date_beside_NaT row); [reflexivity|].
    destruct (start_cell row) as [| |sd|]; try apply IH.
    destruct (end_cell row) as [| |ed|]; try apply IH.
    destruct (week_loop _ _ _ _ _ _) as [[cal'|err]|];
      [apply IH | reflexivity | reflexivity].
Qed.

Lemma carried_once_resolved columns :
  carried_once columns -> unresolved columns = [].
Proof.
  intros H. unfold unresolved.
  assert (R : forall name, In name required_cols ->
                           negb (resolved name columns) = false).
  { intros name Hin. apply negb_false_iff. specialize (H name Hin).
    unfold carriers in H. unfold resolved.
    destruct (filter (carries name) columns) as [|h l] eqn:F; [discriminate|].
    assert (Hh : In h (filter (carries name) columns))
      by (rewrite F; now left).
    apply filter_In in Hh. apply existsb_exists. now exists h. }
  induction required_cols as [|n l IH]; [reflexivity|].
  cbn [filter]. rewrite (R n) by now left.
  apply IH. intros name Hin. apply R. now right.
Qed.

Lemma carried_once_not_several columns name :
  carried_once columns -> In name required_cols ->
  several name columns = false.
Proof.
  intros H Hin. unfold several. now rewrite (H name Hin).
Qed.

(** With string headers that carry each name once, the conversion is
    the loop over the rows of the filled table. *)
Lemma convert_carried_once columns rows :
  string_headers columns = true -> carried_once columns ->
  convert_xlsx_to_ics columns rows
  = rows_loop required_cols (ffill_course rows) [].
Proof.
  intros Hs Hc. destruct (convert_string_headers columns rows Hs)
    as (names & E & ->).
  rewrite carried_once_resolved by assumption.
  apply rows_loop_ext; rewrite is_series_renamed, <- E;
    try (rewrite carried_once_not_several; [reflexivity | assumption |]);
    vm_compute; tauto.
Qed.

(** X4.  For a sheet with string headers, each of the four names
    carried by one header, the conversion is the loop over the rows of
    the table after the forward fill without the rows that are passed
    over.  A row without a start or an end date, with a date that
    cannot be read, with both dates read as NaT, or with its start
    after its end adds nothing and raises nothing, whatever its pattern
    text is; the fill comes first, so such a row still hands its course
    down to the rows below it.  A row with a date beside a value that
    is read as NaT is not passed over: the comparison of line 62 raises
    a TypeError. *)
Theorem unusable_rows_are_dropped columns rows :
  string_headers columns = true -> carried_once columns ->
  convert_xlsx_to_ics columns rows
  = rows_loop required_cols
              (filter (fun row => negb (passed_over row)) (ffill_course rows))
              [] /\
  (forall row rest cal,
      passed_over row = true ->
      rows_loop required_cols (row :: rest) cal
      = rows_loop required_cols rest cal) /\
  (forall row rest cal,
      date_beside_NaT row = true ->
      rows_loop required_cols (row :: rest) cal = Some (Raise TypeError)).
Proof.
  intros Hs Hc. split; [|split].
  - rewrite convert_carried_once by assumption. apply rows_loop_kept_only.
  - intros row rest cal P. now rewrite rows_loop_cons, P.
  - intros row rest cal D. rewrite rows_loop_cons, D.
    unfold passed_over, date_beside_NaT in *.
    destruct (start_cell row), (end_cell row); try discriminate; reflexivity.
Qed.

Lemma short_headers_carried_once : carried_once short_headers.
Proof. intros name [<-|[<-|[<-|[<-|[]]]]]; reflexivity. Qed.

Lemma unusable_rows_are_dropped_witness :
  convert_xlsx_to_ics short_headers
    [mk_Row (Some (s "CS 101")) (Some (s "M|bad")) NaT (Timestamp (jan 19));
     monday_row None (Timestamp (jan 8));
     mk_Row None (Some (s "M|?")) (Timestamp (jan 19)) (Timestamp (jan 8));
     mk_Row None (Some (s "M|?")) ReadAsNaT ReadAsNaT]
  = Some (Ok [instance (s "CS 101") (s "M|9:00 AM-9:50 AM") []
                       (mk_time 9 0) (mk_time 9 50) (jan 8)]) /\
  rows_loop required_cols [monday_row None ReadAsNaT] []
  = Some (Raise TypeError).
Proof.
  destruct (unusable_rows_are_dropped short_headers
              [mk_Row (Some (s "CS 101")) (Some (s "M|bad")) NaT
                      (Timestamp (jan 19));
               monday_row None (Timestamp (jan 8));
               mk_Row None (Some (s "M|?")) (Timestamp (jan 19))
                      (Timestamp (jan 8));
               mk_Row None (Some (s "M|?")) ReadAsNaT ReadAsNaT]
              eq_refl short_headers_carried_once) as (H1 & _ & H3).
  split.
  - rewrite H1. reflexivity.
  - apply H3. reflexivity.
Defined.

(** Two headers that carry one date name: line 51 raises at the first
    row, unless its start date is missing and the name is that of the
    end date. *)
Example two_start_columns :
  convert_xlsx_to_ics [s "Course"; s "Pattern"; s "Start Date";
                       s "Start Time"; s "End"]
                      [monday_row (Some (s "CS 101")) (Timestamp (jan 8))]
  = Some (Raise TruthValueError)
  /\ convert_xlsx_to_ics [s "Course"; s "Pattern"; s "Start"; s "End";
                          s "Weekend"]
                         [mk_Row None None NaT (Timestamp (jan 8))]
     = Some (Ok [])
  /\ convert_xlsx_to_ics [s "Course"; s "Pattern"; s "Start"; s "End";
                          s "Weekend"]
                         [mk_Row None None NaT (Timestamp (jan 8));
                          monday_row None (Timestamp (jan 8))]
     = Some (Raise TruthValueError)
  /\ convert_xlsx_to_ics [s "Course"; s "Pattern"; s " Start"; s "Start ";
                          s "End"] []
     = Some (Ok []).
Proof. repeat split. Qed.

(** ** The exceptions that come out of the rows *)

Lemma days_loop_from_rows course ws e line location a b :
  forall temp events err,
    days_loop course ws e line location a b temp events = Raise err ->
    from_rows err.
Proof.
  induction temp as [|c temp IH]; intros events err H; [discriminate|].
  destruct (day_lookup c) as [w|] eqn:E.
  - rewrite (days_loop_known _ _ _ _ _ _ _ _ w) in H by assumption.
    unfold date_add in H.
    destruct ((0 <? _) && (_ <=? MAXORDINAL)); cbn [bind] in H;
      [|inversion H; exact I].
    destruct (e <? _); [now apply IH in H|].
    unfold strptime_time in H.
    destruct (parse_I a) as [[h r1]|]; [|inversion H; exact I].
    destruct (parse_M r1) as [[m r2]|]; [|inversion H; exact I].
    destruct (parse_p r2); [|inversion H; exact I].
    cbn [bind] in H.
    destruct (parse_I b) as [[h' r1']|]; [|inversion H; exact I].
    destruct (parse_M r1') as [[m' r2']|]; [|inversion H; exact I].
    destruct (parse_p r2'); [|inversion H; exact I].
    cbn [bind] in H. now apply IH in H.
  - rewrite days_loop_unknown in H by assumption. now apply IH in H.
Qed.

Lemma line_body_from_rows course ws e line events err :
  line_body course ws e line events = Raise err -> from_rows err.
Proof.
  intros H. destruct (short_line line) eqn:S.
  - rewrite line_body_short in H by assumption. discriminate.
  - unfold short_line in S.
    destruct (fields line) as [|days [|times rest]] eqn:F;
      try (cbn in S; discriminate).
    rewrite (line_body_fields _ _ _ _ _ _ _ _ F) in H.
    destruct (time_strings times) as [|x [|y [|z l]]];
      try (inversion H; exact I).
    cbn [unpack2 bind fst snd] in H. now apply days_loop_from_rows in H.
Qed.

Lemma lines_loop_from_rows course ws e ls : forall events err,
  lines_loop course ws e ls events = Raise err -> from_rows err.
Proof.
  induction ls as [|l ls IH]; intros events err H; [discriminate|].
  cbn [lines_loop] in H.
  destruct (line_body course ws e l events) as [evs|err'] eqn:B.
  - cbn [bind] in H. now apply IH in H.
  - inversion H. subst. now apply line_body_from_rows in B.
Qed.

Lemma week_loop_from_rows fuel : forall course text ws e cal err,
  week_loop fuel course text ws e cal = Some (Raise err) -> from_rows err.
Proof.
  induction fuel as [|fuel IH]; intros course text ws e cal err H.
  - cbn in H. destruct (ws <=? e); discriminate.
  - cbn [week_loop] in H. destruct (ws <=? e); [|discriminate].
    destruct (create_events_from_pattern course text ws e) as [evs|err']
      eqn:C.
    + unfold date_add in H.
      destruct ((0 <? _) && (_ <=? MAXORDINAL));
        [now apply IH in H | inversion H; exact I].
    + inversion H. subst. now apply lines_loop_from_rows in C.
Qed.

Lemma rows_loop_from_rows columns rows : forall cal err,
  rows_loop columns rows cal = Some (Raise err) -> from_rows err.
Proof.
  induction rows as [|row rows IH]; intros cal err H; [discriminate|].
  destruct (rows_loop_step columns row rows cal)
    as [E | [(err' & E & [-> | ->]) | (sd & ed & _ & _ & E)]];
    rewrite E in H.
  - now apply IH in H.
  - inversion H. exact I.
  - inversion H. exact I.
  - destruct (week_loop (weeks sd ed) (py_str (course_cell row))
                        (py_str (pattern_cell row)) sd ed cal)
      as [[cal'|err']|] eqn:W; [now apply IH in H | | discriminate].
    inversion H. subst. now apply week_loop_from_rows in W.
Qed.

Lemma unresolved_spec columns name :
  In name (unresolved columns)
  <-> In name required_cols /\ resolved name columns = false.
Proof.
  unfold unresolved. rewrite filter_In, negb_true_iff. tauto.
Qed.

(** X5.  For a sheet with string headers, the loader raises the
    ValueError of line 40 if and only if one of the four required names
    is carried by no header; the message then lists, in the order of
    [required_cols], exactly the names that are not resolved, and no
    row is looked at.  When all are resolved, nothing in the rows can
    make the loader raise that error: what the rows raise are the
    ValueErrors of the unpacking, of the clock times and of the truth
    value of a Series, the TypeError and the OverflowError. *)
Theorem missing_column_error_iff columns rows :
  string_headers columns = true ->
  ((exists msg,
       convert_xlsx_to_ics columns rows = Some (Raise (ValueError msg)))
   <-> (exists name, In name required_cols /\ resolved name columns = false)) /\
  ((exists name, In name required_cols /\ resolved name columns = false) ->
   convert_xlsx_to_ics columns rows
   = Some (Raise (ValueError (s "Missing required column(s): "
                                ++ repr_list (unresolved columns)))) /\
   forall rows', convert_xlsx_to_ics columns rows'
                 = convert_xlsx_to_ics columns rows) /\
  (forall name,
      In name (unresolved columns)
      <-> In name required_cols /\ resolved name columns = false) /\
  (forall err,
      convert_xlsx_to_ics columns rows = Some (Raise err) ->
      (exists msg, err = ValueError msg) \/
      err = TruthValueError \/ err = TypeError \/ err = OverflowError \/
      (exists n, err = UnpackError n) \/ (exists x, err = TimeDataError x)).
Proof.
  intros Hs.
  assert (Hmiss : (exists name, In name required_cols
                                /\ resolved name columns = false) ->
                  forall r,
                    convert_xlsx_to_ics columns r
                    = Some (Raise (ValueError
                                     (s "Missing required column(s): "
                                        ++ repr_list (unresolved columns))))).
  { intros (name & Hin & Hres) r.
    destruct (convert_string_headers columns r Hs) as (names & _ & ->).
    destruct (unresolved columns) as [|m l] eqn:M; [|reflexivity].
    exfalso. assert (X : In name (unresolved columns))
      by (apply unresolved_spec; now split).
    now rewrite M in X. }
  split; [|split; [|split]].
  - split.
    + intros (msg & H).
      destruct (convert_string_headers columns rows Hs) as (names & _ & E).
      rewrite E in H. destruct (unresolved columns) as [|m l] eqn:M.
      * now apply rows_loop_from_rows in H.
      * exists m. apply unresolved_spec. rewrite M. now left.
    + intros H. eexists. now apply Hmiss.
  - intros H. split; [now apply Hmiss|].
    intros rows'. now rewrite !Hmiss.
  - apply unresolved_spec.
  - intros err H.
    destruct (convert_string_headers columns rows Hs) as (names & _ & E).
    rewrite E in H. destruct (unresolved columns) as [|m l].
    + apply rows_loop_from_rows in H.
      destruct err; try contradiction; eauto 10.
    + inversion H. eauto.
Qed.

Lemma missing_column_error_iff_witness :
  convert_xlsx_to_ics [s "Course Listing"; s " Meeting Patterns "; s "Ends"]
                      [sample_row None]
  = Some (Raise (ValueError (s "Missing required column(s): ['Start Date']")))
  /\
  ~ (exists msg,
        convert_xlsx_to_ics short_headers
                            [mk_Row None (Some (s "M|9:00"))
                                    (Timestamp (jan 8)) (Timestamp (jan 8))]
        = Some (Raise (ValueError msg))).
Proof.
  split.
  - destruct (missing_column_error_iff
                [s "Course Listing"; s " Meeting Patterns "; s "Ends"]
                [sample_row None] eq_refl) as (_ & H & _).
    apply H. exists (s "Start Date"). split; [|reflexivity].
    right; right; left; reflexivity.
  - intros H.
    destruct (missing_column_error_iff short_headers
                [mk_Row None (Some (s "M|9:00"))
                        (Timestamp (jan 8)) (Timestamp (jan 8))] eq_refl)
      as (Hiff & _).
    apply Hiff in H.
    destruct H as (name & [<-|[<-|[<-|[<-|[]]]]] & Hres); discriminate Hres.
Defined.

(** ** Where the events of a calendar come from *)

Lemma week_loop_provenance fuel : forall course text ws e cal cal',
  week_loop fuel course text ws e cal = Some (Ok cal') ->
  exists new,
    cal' = cal ++ new /\
    Forall (fun ev => exists anchor line,
                ws <= anchor /\ In line (splitlines text) /\
                emitted_by course anchor e line ev) new.
Proof.
  induction fuel as [|fuel IH]; intros course text ws e cal cal' H.
  - cbn in H. destruct (ws <=? e); [discriminate|].
    inversion H. exists []. now rewrite app_nil_r.
  - cbn [week_loop] in H. destruct (ws <=? e).
    + destruct (create_events_from_pattern course text ws e) as [evs|] eqn:C;
        [|discriminate].
      destruct (date_add ws 7) as [ws'|] eqn:D; [|discriminate].
      apply date_add_Ok in D. subst ws'.
      apply IH in H. destruct H as (new & -> & Hnew).
      exists (evs ++ new). split; [now rewrite app_assoc|].
      apply Forall_app. split.
      * apply Forall_forall. intros ev Hev.
        destruct (create_events_sound _ _ _ _ _ _ C Hev) as (line & Hl & Hem).
        exists ws, line. repeat split; try assumption. lia.
      * eapply Forall_impl; [|exact Hnew].
        intros ev (anchor & line & Ha & Hl & Hem).
        exists anchor, line. repeat split; try assumption. lia.
    + inversion H. exists []. now rewrite app_nil_r.
Qed.

Lemma rows_loop_provenance columns rows : forall cal cal',
  rows_loop columns rows cal = Some (Ok cal') ->
  exists new,
    cal' = cal ++ new /\
    Forall (fun ev => exists row, In row rows /\ of_row row ev) new.
Proof.
  induction rows as [|row rows IH]; intros cal cal' H.
  - cbn in H. inversion H. exists []. now rewrite app_nil_r.
  - assert (Hrest : forall c,
               rows_loop columns rows c = Some (Ok cal') ->
               exists new,
                 cal' = c ++ new /\
                 Forall (fun ev => exists r, In r (row :: rows) /\ of_row r ev)
                        new).
    { intros c Hc. apply IH in Hc. destruct Hc as (new & -> & Hnew).
      exists new. split; [reflexivity|].
      eapply Forall_impl; [|exact Hnew].
      intros ev (r & Hr & Hof). exists r. split; [now right | exact Hof]. }
    destruct (rows_loop_step columns row rows cal)
      as [E | [(err & E & _) | (sd & ed & S & En & E)]]; rewrite E in H.
    + now apply Hrest.
    + discriminate.
    + destruct (week_loop (weeks sd ed) (py_str (course_cell row))
                          (py_str (pattern_cell row)) sd ed cal)
        as [[cal1|err]|] eqn:W; try discriminate.
      apply week_loop_provenance in W. destruct W as (new1 & -> & H1).
      apply Hrest in H. destruct H as (new2 & -> & H2).
      exists (new1 ++ new2). split; [now rewrite app_assoc|].
      apply Forall_app. split; [|exact H2].
      eapply Forall_impl; [|exact H1].
      intros ev (anchor & line & Ha & Hl & Hem).
      exists row. split; [now left|].
      exists sd, ed, anchor, line. repeat split; assumption.
Qed.

Lemma convert_provenance columns rows cal ev :
  convert_xlsx_to_ics columns rows = Some (Ok cal) -> In ev cal ->
  exists row, In row (ffill_course rows) /\ of_row row ev.
Proof.
  intros H Hin. apply convert_Ok in H. destruct H as (names & H).
  apply rows_loop_provenance in H.
  destruct H as (new & -> & Hnew). cbn [app] in Hin.
  rewrite Forall_forall in Hnew. now apply Hnew.
Qed.

Lemma emitted_by_facts course anchor e line ev :
  emitted_by course anchor e line ev ->
  exists days location st en,
    read_line line = Some (days, location, st, en) /\
    summary ev = course /\
    description ev = description_of line location /\
    dt_time (dtstart ev) = st /\ dt_time (dtend ev) = en /\
    dt_date (dtend ev) = dt_date (dtstart ev) /\
    anchor <= dt_date (dtstart ev) <= e /\
    In (weekday (dt_date (dtstart ev))) (decode_days days).
Proof.
  intros (days & location & st & en & w & R & Hw & K & ->).
  exists days, location, st, en. cbn.
  pose proof (event_date_bounds anchor w) as B.
  unfold kept in K. apply Z.leb_le in K.
  assert (Hr : 0 <= w <= 5).
  { pose proof (decode_days_range days) as Rg.
    rewrite Forall_forall in Rg. now apply Rg. }
  rewrite event_date_weekday by lia.
  repeat split; try assumption; try reflexivity; lia.
Qed.

(** X6.  Nothing in a calendar is made up: every event of a conversion
    that succeeds is the instance of a line of the pattern of a row of
    the table, taken after the forward fill.  Its summary is the course
    of that row, its description the line with the location, its times
    the two clock times of the line, and its date lies between the
    start and the end date of the row on a weekday of the line. *)
Theorem every_event_has_its_row columns rows cal ev :
  convert_xlsx_to_ics columns rows = Some (Ok cal) -> In ev cal ->
  exists row start_dt end_dt line days location st en,
    In row (ffill_course rows) /\
    start_cell row = Timestamp start_dt /\
    end_cell row = Timestamp end_dt /\
    In line (splitlines (py_str (pattern_cell row))) /\
    read_line line = Some (days, location, st, en) /\
    summary ev = py_str (course_cell row) /\
    description ev = description_of line location /\
    dtstart ev = combine (dt_date (dtstart ev)) st /\
    dtend ev = combine (dt_date (dtstart ev)) en /\
    start_dt <= dt_date (dtstart ev) <= end_dt /\
    In (weekday (dt_date (dtstart ev))) (decode_days days).
Proof.
  intros H Hin.
  destruct (convert_provenance _ _ _ _ H Hin)
    as (row & Hrow & sd & ed & anchor & line & S & E & Ha & Hl & Hem).
  destruct (emitted_by_facts _ _ _ _ _ Hem)
    as (days & location & st & en & R & Hs & Hd & Ht1 & Ht2 & Hsame & Hb & Hw).
  exists row, sd, ed, line, days, location, st, en.
  repeat split; try assumption; try lia.
  - destruct (dtstart ev) as [d t]. cbn in *. now subst.
  - destruct (dtend ev) as [d t]. cbn in *. now subst.
Qed.

Lemma every_event_has_its_row_witness :
  exists row,
    In row (ffill_course
              [mk_Row (Some (s "CS 101")) None NaT NaT;
               mk_Row None (Some (s "M|9:00 AM-9:50 AM"))
                      (Timestamp (jan 8)) (Timestamp (jan 8))]) /\
    py_str (course_cell row) = s "CS 101".
Proof.
  destruct (every_event_has_its_row
              [s "Course"; s "Meeting Pattern"; s "Start"; s "End"]
              [mk_Row (Some (s "CS 101")) None NaT NaT;
               mk_Row None (Some (s "M|9:00 AM-9:50 AM"))
                      (Timestamp (jan 8)) (Timestamp (jan 8))]
              [instance (s "CS 101") (s "M|9:00 AM-9:50 AM") []
                        (mk_time 9 0) (mk_time 9 50) (jan 8)]
              (instance (s "CS 101") (s "M|9:00 AM-9:50 AM") []
                        (mk_time 9 0) (mk_time 9 50) (jan 8))
              eq_refl (or_introl eq_refl))
    as (row & sd & ed & line & days & location & st & en
        & Hrow & _ & _ & _ & _ & Hsum & _).
  exists row. split; [exact Hrow | now rewrite <- Hsum].
Defined.

(** X7.  No event of a calendar falls on a Sunday: the loop reads the
    day token one character at a time, so the key SU of [DAY_MAP] is
    never looked up, and every event is dated Monday to Saturday. *)
Theorem no_event_on_Sunday columns rows cal ev :
  convert_xlsx_to_ics columns rows = Some (Ok cal) -> In ev cal ->
  0 <= weekday (dt_date (dtstart ev)) <= 5.
Proof.
  intros H Hin.
  destruct (convert_provenance _ _ _ _ H Hin)
    as (row & _ & sd & ed & anchor & line & _ & _ & _ & _ & Hem).
  destruct (emitted_by_facts _ _ _ _ _ Hem)
    as (days & location & st & en & _ & _ & _ & _ & _ & _ & _ & Hw).
  pose proof (decode_days_range days) as Rg.
  rewrite Forall_forall in Rg. now apply Rg.
Qed.

Lemma no_event_on_Sunday_witness :
  convert_xlsx_to_ics [s "Course"; s "Meeting Pattern"; s "Start"; s "End"]
    [mk_Row (Some (s "CS 101")) (Some (s "SU|9:00 AM-9:50 AM"))
            (Timestamp (jan 8)) (Timestamp (jan 14))]
  = Some (Ok [instance (s "CS 101") (s "SU|9:00 AM-9:50 AM") []
                       (mk_time 9 0) (mk_time 9 50) (jan 13)]) /\
  0 <= weekday (jan 13) <= 5.
Proof.
  split; [reflexivity|].
  apply (no_event_on_Sunday
           [s "Course"; s "Meeting Pattern"; s "Start"; s "End"]
           [mk_Row (Some (s "CS 101")) (Some (s "SU|9:00 AM-9:50 AM"))
                   (Timestamp (jan 8)) (Timestamp (jan 14))]
           [instance (s "CS 101") (s "SU|9:00 AM-9:50 AM") []
                     (mk_time 9 0) (mk_time 9 50) (jan 13)]
           (instance (s "CS 101") (s "SU|9:00 AM-9:50 AM") []
                     (mk_time 9 0) (mk_time 9 50) (jan 13))
           eq_refl (or_introl eq_refl)).
Defined.

(** * Further properties of the parts *)

(** ** Clock times *)

Lemma between_bounds lo hi c : between lo hi c = true -> lo <= digit c <= hi.
Proof.
  unfold between. intros H. apply andb_true_iff in H.
  destruct H as [H1 H2]. apply Z.leb_le in H1, H2. lia.
Qed.

Lemma digit_among_bounds zeros c d :
  digit_among zeros c = Some d -> 0 <= d <= 9.
Proof.
  induction zeros as [|z zeros IH]; [discriminate|].
  cbn [digit_among]. destruct ((z <=? c) && (c <=? z + 9)) eqn:E.
  - intros [= <-]. apply andb_true_iff in E. destruct E as [E1 E2].
    apply Z.leb_le in E1, E2. lia.
  - exact IH.
Qed.

Lemma decimal_digit_bounds c d : decimal_digit c = Some d -> 0 <= d <= 9.
Proof. apply digit_among_bounds. Qed.

Lemma parse_I_bounds x h r : parse_I x = Some (h, r) -> 1 <= h <= 12.
Proof.
  unfold parse_I. destruct x as [|a [|b [|c r']]]; try discriminate.
  - destruct (between 1 9 a) eqn:Ba; cbn [andb]; [|discriminate].
    destruct (b =? ord ":"); [|discriminate].
    intros [= <- _]. apply between_bounds in Ba. lia.
  - destruct ((c =? ord ":")
              && (((a =? ord "1") && between 0 2 b)
                  || ((a =? ord "0") && between 1 9 b))) eqn:Two.
    + intros [= <- _].
      apply andb_true_iff in Two. destruct Two as [_ Two].
      apply orb_true_iff in Two.
      destruct Two as [Two|Two]; apply andb_true_iff in Two;
        destruct Two as [Ea Bb]; apply Z.eqb_eq in Ea; subst a;
        apply between_bounds in Bb; revert Bb;
        generalize (digit b); intros db Bb;
        change (digit (ord "1")) with 1; change (digit (ord "0")) with 0;
        cbv beta iota; lia.
    + destruct (between 1 9 a) eqn:Ba; cbn [andb]; [|discriminate].
      destruct (b =? ord ":"); [|discriminate].
      intros [= <- _]. apply between_bounds in Ba. lia.
Qed.

Lemma parse_M_bounds x m r : parse_M x = Some (m, r) -> 0 <= m <= 59.
Proof.
  unfold parse_M. destruct x as [|a [|b r']]; try discriminate.
  - destruct (decimal_digit a) as [da|] eqn:Da; [|discriminate].
    intros [= <- _]. apply decimal_digit_bounds in Da. lia.
  - destruct (between 0 5 a) eqn:Ba.
    + destruct (decimal_digit b) as [db|] eqn:Db.
      * intros [= <- _]. apply between_bounds in Ba.
        apply decimal_digit_bounds in Db.
        revert Ba. generalize (digit a). intros da Ba.
        change (0 <= 10 * da + db <= 59). lia.
      * destruct (decimal_digit a) as [da|] eqn:Da; [|discriminate].
        intros [= <- _]. apply decimal_digit_bounds in Da. lia.
    + destruct (decimal_digit a) as [da|] eqn:Da; [|discriminate].
      intros [= <- _]. apply decimal_digit_bounds in Da. lia.
Qed.

Lemma strptime_time_bounds x t :
  strptime_time x = Ok t -> 0 <= hour t <= 23 /\ 0 <= minute t <= 59.
Proof.
  unfold strptime_time.
  destruct (parse_I x) as [[h r1]|] eqn:PI; [|discriminate].
  destruct (parse_M r1) as [[m r2]|] eqn:PM; [|discriminate].
  destruct (parse_p r2) as [pm|]; [|discriminate].
  intros [= <-]. cbn [hour minute].
  apply parse_I_bounds in PI. apply parse_M_bounds in PM.
  destruct pm; destruct (Z.eqb_spec h 12); lia.
Qed.

(** X8.  The two times of every instance the expander returns are times
    of one day, hours 0 to 23 and minutes 0 to 59, whatever the line
    holds; as they stand on the same date, the end is less than 24
    hours away from the start, before or after it. *)
Theorem instance_times_within_a_day course text ws e evs ev :
  create_events_from_pattern course text ws e = Ok evs -> In ev evs ->
  0 <= hour (dt_time (dtstart ev)) <= 23 /\
  0 <= minute (dt_time (dtstart ev)) <= 59 /\
  0 <= hour (dt_time (dtend ev)) <= 23 /\
  0 <= minute (dt_time (dtend ev)) <= 59 /\
  -1440 < minutes (dtend ev) - minutes (dtstart ev) < 1440.
Proof.
  intros H Hin.
  destruct (create_events_sound _ _ _ _ _ _ H Hin)
    as (line & _ & days & location & st & en & w & R & _ & _ & ->).
  destruct (read_line_inv _ _ _ _ _ R)
    as (times & rest & x & y & _ & _ & _ & X & Y).
  apply strptime_time_bounds in X. apply strptime_time_bounds in Y.
  unfold minutes. cbn. lia.
Qed.

Lemma instance_times_within_a_day_witness :
  -1440 < minutes (dtend overnight) - minutes (dtstart overnight) < 1440.
Proof.
  apply (instance_times_within_a_day (s "X") (s "M|11:00 PM-1:00 AM")
           (jan 15) (jan 15) [overnight] overnight eq_refl (or_introl eq_refl)).
Defined.

(** ** Pattern texts without a pipe *)

Lemma split_no_sep sep x : ~ In sep x -> split sep x = [x].
Proof.
  induction x as [|c x IH]; intros H; [reflexivity|].
  cbn [split].
  replace (c =? sep) with false
    by (symmetry; apply Z.eqb_neq; intros ->; apply H; now left).
  rewrite IH; [reflexivity|]. intros Hin. apply H. now right.
Qed.

Lemma splitlines_from_chars n : forall x cur l ch,
  (List.length x <= n)%nat ->
  In l (splitlines_from cur x) -> In ch l -> In ch cur \/ In ch x.
Proof.
  induction n as [|n IH]; intros x cur l ch Hlen Hl Hch.
  - destruct x; [|cbn in Hlen; lia].
    cbn in Hl. destruct cur; [contradiction|].
    destruct Hl as [<-|[]]. left. now apply in_rev.
  - destruct x as [|c r].
    + cbn in Hl. destruct cur; [contradiction|].
      destruct Hl as [<-|[]]. left. now apply in_rev.
    + cbn [splitlines_from] in Hl. cbn [List.length] in Hlen.
      destruct (islinebreak c).
      * destruct r as [|c' r'].
        -- destruct Hl as [<-|[]]. left. now apply in_rev.
        -- destruct ((c =? 13) && (c' =? 10));
             (destruct Hl as [<-|Hl]; [left; now apply in_rev|]);
             apply (IH _ _ _ ch) in Hl; try assumption;
             cbn [List.length] in *; try lia;
             destruct Hl as [[]|Hl]; right;
             cbn [In] in *; tauto.
      * apply (IH _ _ _ ch) in Hl; try assumption; try lia.
        cbn [In] in *. tauto.
Qed.

Lemma lines_loop_all_short course ws e ls :
  Forall (fun l => short_line l = true) ls ->
  forall events, lines_loop course ws e ls events = Ok events.
Proof.
  induction 1 as [|l ls Hl Hls IH]; intros events; [reflexivity|].
  cbn [lines_loop]. rewrite line_body_short by assumption. apply IH.
Qed.

(** X9.  A pattern text without any pipe character gives no instance
    and raises nothing, for every week and every end date.  The text
    nan, which a missing pattern cell turns into at line 47, is such a
    text: the row of a missing pattern is passed over this way, the
    test of line 51 never seeing a missing value in it. *)
Theorem no_pipe_no_instance course text ws e :
  ~ In (ord "|") text ->
  create_events_from_pattern course text ws e = Ok [].
Proof.
  intros H. unfold create_events_from_pattern.
  apply lines_loop_all_short. apply Forall_forall. intros l Hl.
  assert (Hn : ~ In (ord "|") l).
  { intros Hin.
    destruct (splitlines_from_chars _ text [] l (ord "|") (le_n _) Hl Hin)
      as [[]|Hx]. now apply H. }
  unfold short_line, fields. now rewrite split_no_sep.
Qed.

Lemma no_pipe_no_instance_witness :
  create_events_from_pattern (s "X") (py_str None) (jan 8) (jan 19) = Ok [].
Proof.
  apply (no_pipe_no_instance (s "X") (py_str None) (jan 8) (jan 19)).
  cbn. intros [H|[H|[H|[]]]]; discriminate.
Defined.

(** ** The case of the day token *)

Lemma replace_no_H x : ~ In (ord "H") x -> replace_TH_H x = x.
Proof.
  induction x as [|c x IH]; intros H; [reflexivity|].
  destruct x as [|c' x']; [reflexivity|].
  change (replace_TH_H (c :: c' :: x'))
    with (if (c =? ord "T") && (c' =? ord "H")
          then c' :: replace_TH_H x' else c :: replace_TH_H (c' :: x')).
  replace (c' =? ord "H") with false
    by (symmetry; apply Z.eqb_neq; intros ->; apply H; right; now left).
  rewrite andb_false_r, IH; [reflexivity|].
  intros Hin. apply H. now right.
Qed.

Lemma upper_of_ascii x :
  Forall (fun c => 0 <= c < 128) x -> upper x = map upper_ascii x.
Proof.
  induction 1 as [|c x Hc Hx IH]; [reflexivity|].
  unfold upper in *. cbn [flat_map map].
  now rewrite IH, upper_char_ascii.
Qed.

Lemma lower_of_ascii x :
  Forall (fun c => 0 <= c < 128) x -> lower x = map lower_ascii x.
Proof.
  induction 1 as [|c x Hc Hx IH]; [reflexivity|].
  unfold lower in *. cbn [flat_map map].
  now rewrite IH, lower_char_ascii.
Qed.

Lemma same_day_eq a b : same_day a b = true -> a = b.
Proof.
  destruct a, b; cbn; try discriminate; try reflexivity.
  intros H. apply Z.eqb_eq in H. now subst.
Qed.

Lemma upper_ascii_H c :
  0 <= c < 128 -> upper_ascii c = ord "H" -> c = ord "h" \/ c = ord "H".
Proof.
  intros Hc H.
  assert (X : negb (upper_ascii c =? ord "H")
              || (c =? ord "h") || (c =? ord "H") = true).
  { clear H. revert c Hc.
    apply (each_ascii (fun c => negb (upper_ascii c =? ord "H")
                                || (c =? ord "h") || (c =? ord "H"))).
    vm_compute. reflexivity. }
  rewrite H, Z.eqb_refl in X. cbn [negb orb] in X.
  apply orb_true_iff in X. destruct X as [X|X]; apply Z.eqb_eq in X; tauto.
Qed.

Lemma lower_ascii_not_H c : lower_ascii c <> ord "H".
Proof.
  unfold lower_ascii. change (ord "H") with 72.
  destruct ((65 <=? c) && (c <=? 90)) eqn:E; [|intros ->; discriminate].
  apply andb_true_iff in E. destruct E as [E1 E2].
  apply Z.leb_le in E1, E2. lia.
Qed.

Lemma day_lookup_upper c :
  0 <= c < 128 -> c <> ord "h" -> day_lookup (upper_ascii c) = day_lookup c.
Proof.
  intros Hc H.
  assert (X : (c =? ord "h")
              || same_day (day_lookup (upper_ascii c)) (day_lookup c) = true).
  { clear H. revert c Hc.
    apply (each_ascii
             (fun c => (c =? ord "h")
                       || same_day (day_lookup (upper_ascii c))
                                   (day_lookup c))).
    vm_compute. reflexivity. }
  apply Z.eqb_neq in H. rewrite H in X. now apply same_day_eq.
Qed.

Lemma day_lookup_lower c :
  0 <= c < 128 -> c <> ord "H" -> day_lookup (lower_ascii c) = day_lookup c.
Proof.
  intros Hc H.
  assert (X : (c =? ord "H")
              || same_day (day_lookup (lower_ascii c)) (day_lookup c) = true).
  { clear H. revert c Hc.
    apply (each_ascii
             (fun c => (c =? ord "H")
                       || same_day (day_lookup (lower_ascii c))
                                   (day_lookup c))).
    vm_compute. reflexivity. }
  apply Z.eqb_neq in H. rewrite H in X. now apply same_day_eq.
Qed.

Lemma day_codes_map f x :
  (forall c, In c x -> day_lookup (f c) = day_lookup c) ->
  day_codes (map f x) = day_codes x.
Proof.
  induction x as [|c x IH]; intros H; [reflexivity|].
  cbn [map]. rewrite !day_codes_cons, H by now left.
  f_equal. apply IH. intros c' Hc'. apply H. now right.
Qed.

(** X10.  In a day token of ASCII characters the letters may be written
    in either case as long as the token holds no h: a token without h
    and H decodes to the same weekdays as its upper-case and its
    lower-case form.  (With an h the case matters: only the upper-case
    TH is Thursday.  Beyond ASCII it matters too: the sharp s is
    skipped, and its upper-case form SS is two Saturdays.) *)
Theorem decode_days_any_case days :
  Forall (fun c => 0 <= c < 128) days ->
  ~ In (ord "h") days -> ~ In (ord "H") days ->
  decode_days (upper days) = decode_days days /\
  decode_days (lower days) = decode_days days.
Proof.
  intros Ha Hh HH. rewrite upper_of_ascii, lower_of_ascii by assumption.
  rewrite Forall_forall in Ha.
  unfold decode_days. rewrite (replace_no_H days) by assumption. split.
  - rewrite replace_no_H.
    + apply day_codes_map. intros c Hc. apply day_lookup_upper; [auto|].
      now intros ->.
    + intros Hin. apply in_map_iff in Hin.
      destruct Hin as (c & Hc & Hin). apply upper_ascii_H in Hc; [|auto].
      destruct Hc as [-> | ->]; contradiction.
  - rewrite replace_no_H.
    + apply day_codes_map. intros c Hc. apply day_lookup_lower; [auto|].
      now intros ->.
    + intros Hin. apply in_map_iff in Hin.
      destruct Hin as (c & Hc & _). now apply lower_ascii_not_H in Hc.
Qed.

Lemma decode_days_any_case_witness :
  decode_days (s "mwf") = decode_days (s "MWF") /\
  decode_days (s "tth") <> decode_days (s "TTH") /\
  decode_days (upper [223]) <> decode_days [223].
Proof.
  split; [|split; vm_compute; discriminate].
  destruct (decode_days_any_case (s "mwf")) as [H _].
  - repeat constructor; vm_compute; discriminate.
  - cbn. intros [H|[H|[H|[]]]]; discriminate.
  - cbn. intros [H|[H|[H|[]]]]; discriminate.
  - rewrite <- H. reflexivity.
Defined.

(** ** The loop over the weeks ends *)

Lemma week_loop_enough fuel : forall course text ws e cal,
  (weeks ws e <= fuel)%nat ->
  week_loop fuel course text ws e cal
  = week_loop (weeks ws e) course text ws e cal.
Proof.
  induction fuel as [|fuel IH]; intros course text ws e cal Hw.
  - now replace (weeks ws e) with O by lia.
  - destruct (Z_le_gt_dec ws e) as [L|G].
    + rewrite weeks_step in * by assumption.
      cbn [week_loop].
      destruct (ws <=? e); [|reflexivity].
      destruct (create_events_from_pattern course text ws e); [|reflexivity].
      destruct (date_add ws 7) as [ws'|] eqn:D; [|reflexivity].
      apply date_add_Ok in D. subst ws'. apply IH. lia.
    + now rewrite !week_loop_nothing by lia.
Qed.

(** X11.  The loop over the weeks of a row always ends: it makes at
    most [(end - start) / 7 + 1] rounds, each moving the week seven
    days on, so with that many rounds allowed, or more, it returns a
    calendar or an exception, the same whatever the bound; and so does
    the loader for every table. *)
Theorem week_loop_ends fuel course text start e cal :
  (weeks start e <= fuel)%nat ->
  (exists outcome,
      week_loop fuel course text start e cal = Some outcome /\
      week_loop (weeks start e) course text start e cal = Some outcome) /\
  weeks start e = (if start <=? e then Z.to_nat ((e - start) / 7 + 1) else O) /\
  (forall columns rows, exists outcome,
      convert_xlsx_to_ics columns rows = Some outcome).
Proof.
  intros Hw. split; [|split].
  - rewrite week_loop_enough by assumption.
    destruct (week_loop (weeks start e) course text start e cal) as [o|] eqn:W.
    + now exists o.
    + exfalso. revert W. apply week_loop_total. lia.
  - unfold weeks. destruct (Z.leb_spec start e); [|reflexivity].
    rewrite Z2Nat.inj_add by (try apply Z.div_pos; lia).
    change (Z.to_nat 1) with 1%nat. lia.
  - intros columns rows.
    destruct (convert_xlsx_to_ics columns rows) as [o|] eqn:C.
    + now exists o.
    + exfalso. revert C. apply convert_xlsx_to_ics_total.
Qed.

Lemma week_loop_ends_witness :
  exists outcome,
    week_loop 100 (s "X") two_lines (jan 8) (jan 19) [] = Some outcome /\
    week_loop (weeks (jan 8) (jan 19)) (s "X") two_lines (jan 8) (jan 19) []
    = Some outcome.
Proof.
  apply (week_loop_ends 100 (s "X") two_lines (jan 8) (jan 19) []).
  vm_compute. lia.
Defined.

(** ** Rows above the first course *)

Lemma ffill_from_none_top top : forall rest,
  Forall (fun c => c = None) top ->
  ffill_from None (top ++ rest) = top ++ ffill_from None rest.
Proof.
  induction top as [|c top IH]; intros rest H; [reflexivity|].
  inversion H as [|? ? Hc Htop]; subst. cbn [app ffill_from].
  now rewrite IH.
Qed.

Lemma ffill_course_cons_none row rows :
  course_cell row = None ->
  ffill_course (row :: rows) = row :: ffill_course rows.
Proof.
  intros H. unfold ffill_course, ffill. cbn [map]. rewrite H.
  cbn [ffill_from List.combine map fst snd]. f_equal.
  destruct row as [c p a b]. cbn in *. now subst.
Qed.

Lemma ffill_course_top top rest :
  Forall (fun row => course_cell row = None) top ->
  ffill_course (top ++ rest) = top ++ ffill_course rest.
Proof.
  induction 1 as [|row top Hrow Htop IH]; [reflexivity|].
  cbn [app]. rewrite ffill_course_cons_none by assumption. now rewrite IH.
Qed.

Lemma rows_loop_app columns top : forall rest cal,
  rows_loop columns (top ++ rest) cal
  = match rows_loop columns top cal with
    | Some (Ok above) => rows_loop columns rest above
    | other => other
    end.
Proof.
  induction top as [|row top IH]; intros rest cal; [reflexivity|].
  cbn [app rows_loop].
  destruct (is_series columns (s "Start Date")); [reflexivity|].
  destruct (start_cell row); try apply IH;
    (destruct (is_series columns (s "End Date")); [reflexivity|]);
    destruct (end_cell row); cbn [to_date]; try apply IH; try reflexivity.
  destruct (week_loop _ _ _ _ _ _) as [[cal'|err]|];
    [apply IH | reflexivity | reflexivity].
Qed.

Lemma of_row_summary row ev :
  of_row row ev -> summary ev = py_str (course_cell row).
Proof.
  intros (sd & ed & anchor & line & _ & _ & _ & _ & Hem).
  destruct (emitted_by_facts _ _ _ _ _ Hem)
    as (days & location & st & en & _ & Hs & _).
  exact Hs.
Qed.

(** X12.  The fill has nothing to hand down to the rows above the
    first course.  In a sheet with string headers that carry each name
    once, rows without a course that stand at the top of the table stay
    as they are; the conversion of the table is the conversion of these
    rows alone, followed by the loop over the other rows after their
    fill; and every event of these rows has the text nan for a
    summary. *)
Theorem rows_above_first_course columns top rest :
  string_headers columns = true -> carried_once columns ->
  Forall (fun row => course_cell row = None) top ->
  ffill_course (top ++ rest) = top ++ ffill_course rest /\
  convert_xlsx_to_ics columns (top ++ rest)
  = match convert_xlsx_to_ics columns top with
    | Some (Ok above) => rows_loop required_cols (ffill_course rest) above
    | other => other
    end /\
  (forall above,
      convert_xlsx_to_ics columns top = Some (Ok above) ->
      Forall (fun ev => summary ev = s "nan") above).
Proof.
  intros Hs Hc Htop.
  assert (E : ffill_course top = top).
  { rewrite <- (app_nil_r top) at 1. rewrite ffill_course_top by assumption.
    apply app_nil_r. }
  split; [now apply ffill_course_top|].
  rewrite !convert_carried_once by assumption.
  rewrite E, ffill_course_top by assumption. split.
  - apply rows_loop_app.
  - intros above H. apply rows_loop_provenance in H.
    destruct H as (new & -> & Hnew). cbn [app].
    eapply Forall_impl; [|exact Hnew].
    intros ev (row & Hrow & Hof). rewrite (of_row_summary _ _ Hof).
    rewrite Forall_forall in Htop. now rewrite (Htop row Hrow).
Qed.

Lemma rows_above_first_course_witness :
  convert_xlsx_to_ics short_headers
    [monday_row None (Timestamp (jan 8));
     monday_row (Some (s "CS 101")) (Timestamp (jan 8));
     monday_row None (Timestamp (jan 8))]
  = Some (Ok [instance (s "nan") (s "M|9:00 AM-9:50 AM") []
                       (mk_time 9 0) (mk_time 9 50) (jan 8);
              instance (s "CS 101") (s "M|9:00 AM-9:50 AM") []
                       (mk_time 9 0) (mk_time 9 50) (jan 8);
              instance (s "CS 101") (s "M|9:00 AM-9:50 AM") []
                       (mk_time 9 0) (mk_time 9 50) (jan 8)]) /\
  Forall (fun ev => summary ev = s "nan")
         [instance (s "nan") (s "M|9:00 AM-9:50 AM") []
                   (mk_time 9 0) (mk_time 9 50) (jan 8)].
Proof.
  destruct (rows_above_first_course short_headers
              [monday_row None (Timestamp (jan 8))]
              [monday_row (Some (s "CS 101")) (Timestamp (jan 8));
               monday_row None (Timestamp (jan 8))]
              eq_refl short_headers_carried_once)
    as (_ & H2 & H3).
  - repeat constructor.
  - split.
    + cbn [app] in H2. rewrite H2. reflexivity.
    + apply H3. reflexivity.
Defined.

(** * The output file *)

Example posixpath_ex :
  Posixpath.basename (s "/home/u/My Sheet.v2.xlsx") = s "My Sheet.v2.xlsx"
  /\ Posixpath.basename (s "plain") = s "plain"
  /\ Posixpath.basename (s "dir/") = []
  /\ Posixpath.splitext (s "My Sheet.v2.xlsx") = (s "My Sheet.v2", s ".xlsx")
  /\ Posixpath.splitext (s ".hidden") = (s ".hidden", [])
  /\ Posixpath.splitext (s "..a.b") = (s "..a", s ".b")
  /\ Posixpath.splitext (s "x.d/name") = (s "x.d/name", [])
  /\ Posixpath.join (s "/home/u/Desktop") (s "a.ics") = s "/home/u/Desktop/a.ics"
  /\ Posixpath.join (s "/home/u/Desktop/") (s "a.ics") = s "/home/u/Desktop/a.ics"
  /\ Posixpath.join [] (s "a.ics") = s "a.ics"
  /\ Posixpath.join (s "d") (s "/abs") = s "/abs"
  /\ output_path (s "/data/in/fall.2024.xlsx") (s "/home/u/Desktop")
     = s "/home/u/Desktop/fall.2024.ics".
Proof. repeat split. Qed.

Section PosixpathFacts.

Import Posixpath.

Lemma rfind_range c x : -1 <= rfind c x < Z.of_nat (List.length x).
Proof.
  induction x as [|a r IH]; [cbn; lia|].
  cbn [rfind List.length]. rewrite Nat2Z.inj_succ.
  destruct (Z.leb_spec 0 (rfind c r)); [lia|].
  destruct (a =? c); lia.
Qed.

Lemma rfind_none c x : rfind c x = -1 <-> ~ In c x.
Proof.
  induction x as [|a r IH]; [cbn; tauto|].
  cbn [rfind In]. pose proof (rfind_range c r) as R.
  destruct (Z.leb_spec 0 (rfind c r)) as [L|G].
  - split; [lia|]. intros H. exfalso. apply H. right.
    destruct (in_dec Z.eq_dec c r) as [Hin|Hn]; [assumption|].
    apply IH in Hn. lia.
  - assert (E : rfind c r = -1) by lia. apply IH in E.
    destruct (Z.eqb_spec a c) as [->|N]; split; try tauto; try lia.
Qed.

(** At the index [rfind] gives stands the character, and it does not
    occur after it. *)
Lemma rfind_found c x :
  0 <= rfind c x ->
  exists t, skipn (Z.to_nat (rfind c x)) x = c :: t /\ ~ In c t.
Proof.
  induction x as [|a r IH]; [cbn; lia|].
  cbn [rfind]. pose proof (rfind_range c r) as R.
  destruct (Z.leb_spec 0 (rfind c r)) as [L|G].
  - intros _. destruct (IH L) as (t & Ht & Hn). exists t.
    rewrite Z2Nat.inj_add by lia. rewrite Nat.add_comm. cbn [Z.to_nat Pos.to_nat Pos.iter_op Nat.add skipn].
    now split.
  - destruct (Z.eqb_spec a c) as [->|N]; [|lia].
    intros _. exists r. split; [reflexivity|].
    apply rfind_none. lia.
Qed.

Lemma rfind_app c a b :
  rfind c (a ++ b)
  = if 0 <=? rfind c b then Z.of_nat (List.length a) + rfind c b
    else rfind c a.
Proof.
  induction a as [|h a IH].
  - cbn [app List.length rfind]. destruct (Z.leb_spec 0 (rfind c b)); [lia|].
    pose proof (rfind_range c b). lia.
  - cbn [app rfind List.length]. rewrite IH, Nat2Z.inj_succ.
    pose proof (rfind_range c a).
    destruct (Z.leb_spec 0 (rfind c b)).
    + replace (0 <=? Z.of_nat (List.length a) + rfind c b) with true
        by (symmetry; apply Z.leb_le; lia).
      lia.
    + reflexivity.
Qed.

Lemma basename_no_sep p : ~ In (ord "/") (basename p).
Proof.
  unfold basename. pose proof (rfind_range (ord "/") p) as R.
  destruct (Z.leb_spec 0 (rfind "/" p)) as [L|G].
  - destruct (rfind_found _ _ L) as (t & Ht & Hn).
    rewrite Z2Nat.inj_add by lia. rewrite Nat.add_comm.
    change (Z.to_nat 1) with 1%nat.
    rewrite <- (skipn_skipn 1), Ht. exact Hn.
  - replace (rfind "/" p + 1) with 0 by lia. cbn [Z.to_nat skipn].
    apply rfind_none. lia.
Qed.

(** After a directory that is empty or ends with the slash, a name
    without slash is the base name. *)
Lemma basename_after_sep a name :
  a = [] \/ (exists a', a = a' ++ s "/") ->
  ~ In (ord "/") name ->
  basename (a ++ name) = name.
Proof.
  intros Ha Hn. unfold basename. rewrite rfind_app.
  apply rfind_none in Hn. rewrite Hn. cbn [Z.leb Z.compare].
  destruct Ha as [->|(a' & ->)]; [reflexivity|].
  rewrite rfind_app. change (rfind "/" (s "/")) with 0.
  cbn [Z.leb Z.compare Z.add].
  replace (Z.to_nat (Z.of_nat (List.length a') + 0 + 1))
    with (List.length (a' ++ s "/"))
    by (rewrite length_app; change (List.length (s "/")) with 1%nat; lia).
  now rewrite skipn_app, skipn_all, Nat.sub_diag.
Qed.

Lemma last_is_sep a :
  last_is "/" a = true -> exists a', a = a' ++ s "/".
Proof.
  induction a as [|c a IH]; [discriminate|].
  destruct a as [|c' a'].
  - cbn. intros H. apply Z.eqb_eq in H. subst. now exists [].
  - intros H. destruct (IH H) as (x & Hx). exists (c :: x).
    cbn [app]. now rewrite <- Hx.
Qed.

Lemma splitext_parts p :
  fst (splitext p) ++ snd (splitext p) = p /\
  (snd (splitext p) = [] \/
   exists e, snd (splitext p) = (ord ".") :: e /\ ~ In (ord ".") e).
Proof.
  unfold splitext.
  destruct ((rfind "/" p <? rfind "." p) && _) eqn:C; cbn [fst snd].
  - split; [apply firstn_skipn|]. right.
    apply andb_true_iff in C. destruct C as [C _]. apply Z.ltb_lt in C.
    pose proof (rfind_range (ord "/") p).
    apply rfind_found. lia.
  - split; [apply app_nil_r | now left].
Qed.

Lemma base_name_no_sep p : ~ In (ord "/") (base_name p).
Proof.
  unfold base_name. intros H.
  apply (basename_no_sep p).
  destruct (splitext_parts (basename p)) as [E _].
  rewrite <- E. apply in_or_app. now left.
Qed.

(** The last [c] of a list that holds one. *)
Lemma rfind_last c a e :
  ~ In c e -> rfind c (a ++ c :: e) = Z.of_nat (List.length a).
Proof.
  intros H. rewrite rfind_app. cbn [rfind].
  apply rfind_none in H. rewrite H. cbn [Z.leb Z.compare].
  rewrite Z.eqb_refl. cbn [Z.leb Z.compare]. lia.
Qed.

Lemma rfind_all c x :
  Forall (fun a => a = c) x -> rfind c x = Z.of_nat (List.length x) - 1.
Proof.
  induction 1 as [|a r Ha Hr IH]; [reflexivity|].
  cbn [rfind List.length]. rewrite IH, Nat2Z.inj_succ. subst a.
  rewrite Z.eqb_refl.
  destruct (Z.leb_spec 0 (Z.of_nat (List.length r) - 1)); lia.
Qed.

Lemma existsb_other_than c x :
  existsb (fun ch => negb (ch =? c)) x = false <-> Forall (fun a => a = c) x.
Proof.
  induction x as [|a r IH]; [cbn; split; [constructor | reflexivity]|].
  cbn [existsb]. rewrite orb_false_iff, negb_false_iff, Z.eqb_eq, IH.
  split.
  - intros [-> H]. now constructor.
  - intros H. inversion H. now split.
Qed.

(** The extension of a base name that has one: it starts at the last
    dot, before which a character other than a dot stands. *)
Lemma splitext_extension p stem e :
  ~ In (ord "/") p -> p = stem ++ ord "." :: e -> ~ In (ord ".") e ->
  (exists c, In c stem /\ c <> ord ".") ->
  splitext p = (stem, ord "." :: e).
Proof.
  intros Hsep -> He (c & Hc & Hdot). unfold splitext.
  apply rfind_none in Hsep. rewrite Hsep, rfind_last by assumption.
  replace (-1 <? Z.of_nat (List.length stem)) with true
    by (symmetry; apply Z.ltb_lt; lia).
  unfold slice. change (Z.to_nat (-1 + 1)) with 0%nat. cbn [skipn andb].
  rewrite Z.sub_0_r, Nat2Z.id.
  rewrite firstn_app, firstn_all, Nat.sub_diag, skipn_app, skipn_all,
    Nat.sub_diag.
  cbn [firstn skipn app]. rewrite app_nil_r.
  replace (existsb (fun ch => negb (ch =? ord ".")) stem) with true;
    [reflexivity|].
  symmetry. apply existsb_exists. exists c. split; [assumption|].
  now apply negb_true_iff, Z.eqb_neq.
Qed.

Lemma Forall_firstn {A} (P : A -> Prop) n : forall l,
  Forall P l -> Forall P (firstn n l).
Proof.
  induction n as [|n IH]; intros l H; [constructor|].
  destruct H as [|a l Ha Hl]; [constructor|].
  cbn [firstn]. constructor; [assumption | now apply IH].
Qed.

(** A base name without extension: no dot, or dots at the front
    only. *)
Lemma splitext_no_extension p dots rest :
  ~ In (ord "/") p -> p = dots ++ rest ->
  Forall (fun c => c = ord ".") dots -> ~ In (ord ".") rest ->
  splitext p = (p, []).
Proof.
  intros Hsep -> Hdots Hrest. unfold splitext.
  apply rfind_none in Hsep. rewrite Hsep.
  rewrite rfind_app. apply rfind_none in Hrest. rewrite Hrest.
  cbn [Z.leb Z.compare]. rewrite rfind_all by assumption.
  destruct dots as [|d dots]; [reflexivity|].
  replace (-1 <? Z.of_nat (List.length (d :: dots)) - 1) with true
    by (symmetry; apply Z.ltb_lt; cbn [List.length]; lia).
  unfold slice. change (Z.to_nat (-1 + 1)) with 0%nat. cbn [skipn andb].
  replace (existsb _ _) with false; [reflexivity|].
  symmetry. apply existsb_other_than.
  rewrite firstn_app. apply Forall_app. split.
  - now apply Forall_firstn.
  - match goal with
    | |- Forall _ (firstn ?n _) =>
        replace n with 0%nat by (cbn [List.length]; lia)
    end.
    constructor.
Qed.

(** Every base name is of one of the two kinds. *)
Lemma extension_or_not p :
  (exists stem e,
      p = stem ++ ord "." :: e /\ ~ In (ord ".") e /\
      exists c, In c stem /\ c <> ord ".") \/
  (exists dots rest,
      p = dots ++ rest /\ Forall (fun c => c = ord ".") dots /\
      ~ In (ord ".") rest).
Proof.
  pose proof (rfind_range (ord ".") p) as R.
  destruct (Z.leb_spec 0 (rfind (ord ".") p)) as [L|G].
  - destruct (rfind_found _ _ L) as (t & Ht & Hn).
    pose proof (firstn_skipn (Z.to_nat (rfind (ord ".") p)) p) as E.
    rewrite Ht in E.
    destruct (existsb (fun ch => negb (ch =? ord "."))
                      (firstn (Z.to_nat (rfind (ord ".") p)) p)) eqn:X.
    + left. exists (firstn (Z.to_nat (rfind (ord ".") p)) p), t.
      split; [now symmetry|]. split; [assumption|].
      apply existsb_exists in X. destruct X as (c & Hc & Hneq).
      exists c. split; [assumption|].
      now apply negb_true_iff, Z.eqb_neq in Hneq.
    + right. apply existsb_other_than in X.
      exists (firstn (Z.to_nat (rfind (ord ".") p)) p ++ [ord "."]), t.
      split; [rewrite <- app_assoc; now symmetry|].
      split; [|assumption].
      apply Forall_app. split; [assumption | now repeat constructor].
  - right. exists [], p. split; [reflexivity|]. split; [constructor|].
    apply rfind_none. lia.
Qed.

End PosixpathFacts.

(** X13.  On a POSIX system the output file lies directly in the output
    directory, whatever the path of the spreadsheet is: its path is the
    directory, a slash unless the directory is empty or ends with one,
    and a name without slash.  When the base name of the spreadsheet
    has a last dot with a character other than a dot somewhere before
    it, the name is what stands before that dot, followed by [.ics]:
    the last extension is replaced.  When it has no dot, or dots at the
    front only, the name is the whole base name followed by [.ics].
    Every base name is of one of these two kinds. *)
Theorem output_file_in_directory xlsx_path output_directory :
  (forall stem e,
      Posixpath.basename xlsx_path = stem ++ ord "." :: e ->
      ~ In (ord ".") e -> (exists c, In c stem /\ c <> ord ".") ->
      output_path xlsx_path output_directory
      = output_directory ++ separator output_directory ++ stem ++ s ".ics") /\
  (forall dots rest,
      Posixpath.basename xlsx_path = dots ++ rest ->
      Forall (fun c => c = ord ".") dots -> ~ In (ord ".") rest ->
      output_path xlsx_path output_directory
      = output_directory ++ separator output_directory
          ++ Posixpath.basename xlsx_path ++ s ".ics") /\
  ((exists stem e,
       Posixpath.basename xlsx_path = stem ++ ord "." :: e /\
       ~ In (ord ".") e /\ exists c, In c stem /\ c <> ord ".") \/
   (exists dots rest,
       Posixpath.basename xlsx_path = dots ++ rest /\
       Forall (fun c => c = ord ".") dots /\ ~ In (ord ".") rest)) /\
  (exists name,
      output_path xlsx_path output_directory
      = output_directory ++ separator output_directory ++ name /\
      ~ In (ord "/") name /\
      Posixpath.basename (output_path xlsx_path output_directory) = name).
Proof.
  set (name := base_name xlsx_path ++ s ".ics").
  assert (Hn : ~ In (ord "/") name).
  { unfold name. intros H. apply in_app_or in H. destruct H as [H|H].
    - now apply base_name_no_sep in H.
    - cbn in H. destruct H as [H|[H|[H|[H|[]]]]]; discriminate. }
  assert (Hf : first_is "/" name = false).
  { destruct name as [|c n]; [reflexivity|]. cbn.
    apply Z.eqb_neq. intros ->. apply Hn. now left. }
  assert (Hpath : output_path xlsx_path output_directory
                  = output_directory ++ separator output_directory ++ name).
  { unfold output_path, Posixpath.join, separator. fold name. rewrite Hf.
    destruct output_directory as [|c d]; [reflexivity|].
    unfold Posixpath.ends_with_sep.
    now destruct (last_is "/" (c :: d)). }
  split; [|split; [|split]].
  - intros stem e Hb He Hc. rewrite Hpath. unfold name, base_name.
    rewrite (splitext_extension _ stem e);
      [reflexivity | apply basename_no_sep | assumption..].
  - intros dots rest Hb Hd Hr. rewrite Hpath. unfold name, base_name.
    rewrite (splitext_no_extension _ dots rest);
      [reflexivity | apply basename_no_sep | assumption..].
  - apply extension_or_not.
  - exists name. split; [exact Hpath|]. split; [exact Hn|].
    rewrite Hpath. unfold separator.
    destruct output_directory as [|c d].
    + now apply basename_after_sep; [left|].
    + destruct (last_is "/" (c :: d)) eqn:E.
      * apply basename_after_sep; [right | assumption].
        now apply last_is_sep.
      * rewrite app_assoc.
        apply basename_after_sep; [right | assumption].
        now exists (c :: d).
Qed.

Lemma output_file_in_directory_witness :
  output_path (s "/data/in/fall.2024.xlsx") (s "/home/u/Desktop")
  = s "/home/u/Desktop/fall.2024.ics" /\
  output_path (s "in/.hidden") (s "out/") = s "out/.hidden.ics".
Proof.
  split.
  - destruct (output_file_in_directory (s "/data/in/fall.2024.xlsx")
                                       (s "/home/u/Desktop")) as (H & _).
    apply (H (s "fall.2024") (s "xlsx")).
    + reflexivity.
    + cbn. intros [E|[E|[E|[E|[]]]]]; discriminate.
    + exists (ord "f"). split; [now left | discriminate].
  - destruct (output_file_in_directory (s "in/.hidden") (s "out/"))
      as (_ & H & _).
    apply (H (s ".") (s "hidden")).
    + reflexivity.
    + repeat constructor.
    + cbn. intros [E|[E|[E|[E|[E|[E|[]]]]]]]; discriminate.
Defined.

(** * The window *)

(** ** The sorted list of the files *)

Lemma str_leb_total a : forall b, str_leb a b = false -> str_leb b a = true.
Proof.
  induction a as [|x a IH]; intros [|y b] H; try discriminate; try reflexivity.
  cbn [str_leb] in *.
  destruct (Z.ltb_spec x y); [discriminate|].
  destruct (Z.ltb_spec y x); [reflexivity|].
  now apply IH.
Qed.

Lemma str_leb_trans a : forall b c,
  str_leb a b = true -> str_leb b c = true -> str_leb a c = true.
Proof.
  induction a as [|x a IH]; intros [|y b] [|z c] H1 H2;
    try discriminate; try reflexivity.
  cbn [str_leb] in *.
  destruct (Z.ltb_spec x y), (Z.ltb_spec y x),
    (Z.ltb_spec y z), (Z.ltb_spec z y),
    (Z.ltb_spec x z), (Z.ltb_spec z x);
    try discriminate; try reflexivity; try lia.
  now apply (IH b c).
Qed.

Lemma insert_sorted_perm x xs : Permutation (x :: xs) (insert_sorted x xs).
Proof.
  induction xs as [|y r IH]; [apply Permutation_refl|].
  cbn [insert_sorted]. destruct (str_leb x y); [apply Permutation_refl|].
  eapply Permutation_trans; [apply perm_swap|]. now apply perm_skip.
Qed.

Lemma sorted_perm xs : Permutation xs (sorted xs).
Proof.
  induction xs as [|x xs IH]; [apply Permutation_refl|].
  cbn [sorted fold_right]. fold (sorted xs).
  eapply Permutation_trans; [|apply insert_sorted_perm]. now apply perm_skip.
Qed.

Lemma insert_sorted_Sorted x xs :
  Sorted (fun a b => str_leb a b = true) xs ->
  Sorted (fun a b => str_leb a b = true) (insert_sorted x xs).
Proof.
  induction 1 as [|y r Hr IH Hd]; [repeat constructor|].
  cbn [insert_sorted]. destruct (str_leb x y) eqn:E.
  - constructor; [now constructor | now constructor].
  - constructor; [exact IH|].
    apply str_leb_total in E.
    destruct r as [|z r']; [now constructor|].
    cbn [insert_sorted]. destruct (str_leb x z); constructor;
      [assumption | now inversion Hd].
Qed.

Lemma sorted_ascending xs :
  StronglySorted (fun a b => str_leb a b = true) (sorted xs).
Proof.
  apply Sorted_StronglySorted.
  - intros a b c. apply str_leb_trans.
  - induction xs as [|x xs IH]; [constructor|].
    cbn [sorted fold_right]. now apply insert_sorted_Sorted.
Qed.

Lemma sorted_nil xs : sorted xs = [] -> xs = [].
Proof.
  intros H. pose proof (sorted_perm xs) as P. rewrite H in P.
  now apply Permutation_nil, Permutation_sym.
Qed.

(** X14.  [refresh_file_list] replaces the entries of the list box,
    whatever they were, and touches nothing else: for an empty
    directory the one entry is the text (no files yet), and otherwise
    the entries are the names of all the files of the directory, each
    as often as the directory lists it, in ascending order of code
    points.  The list box is never left empty. *)
Theorem refresh_file_list_lists w :
  desktop (refresh_file_list w) = desktop w /\
  shown (refresh_file_list w) = shown w /\
  file_listbox (refresh_file_list w) <> [] /\
  (desktop w = [] -> file_listbox (refresh_file_list w) = [no_files_yet]) /\
  (desktop w <> [] ->
   Permutation (map fst (desktop w)) (file_listbox (refresh_file_list w)) /\
   StronglySorted (fun a b => str_leb a b = true)
                  (file_listbox (refresh_file_list w))).
Proof.
  unfold refresh_file_list. cbn [desktop shown file_listbox].
  split; [reflexivity|]. split; [reflexivity|].
  destruct (sorted (map fst (desktop w))) as [|n ns] eqn:E.
  - apply sorted_nil in E. apply map_eq_nil in E.
    split; [discriminate|]. split; [reflexivity|]. now intros H.
  - split; [discriminate|]. split.
    + intros H. rewrite H in E. discriminate.
    + intros _. rewrite <- E. split; [apply sorted_perm | apply sorted_ascending].
Qed.

Lemma refresh_file_list_lists_witness :
  file_listbox (refresh_file_list (mk_Window [] [s "old.ics"] []))
  = [no_files_yet] /\
  Permutation [s "b.ics"; s "notes.txt"; s "a.ics"]
    (file_listbox (refresh_file_list
                     (mk_Window [(s "b.ics", Calendar []);
                                 (s "notes.txt", OtherFile);
                                 (s "a.ics", Calendar [])] [] []))).
Proof.
  split.
  - apply (refresh_file_list_lists (mk_Window [] [s "old.ics"] [])).
    reflexivity.
  - apply (refresh_file_list_lists
             (mk_Window [(s "b.ics", Calendar []); (s "notes.txt", OtherFile);
                         (s "a.ics", Calendar [])] [] [])).
    discriminate.
Defined.

(** ** Importing a selection of spreadsheets *)

Lemma dict_set_not_nil {V} k (v : V) d : dict_set k v d <> [].
Proof.
  destruct d as [|[k' v'] d]; cbn; [discriminate|].
  destruct (Str.eqb k k'); discriminate.
Qed.

Lemma write_all_nil ws files : write_all ws files = [] -> ws = [] /\ files = [].
Proof.
  revert files. induction ws as [|kv ws IH]; intros files H.
  - now split.
  - cbn in H. apply IH in H. destruct H as [_ H].
    now apply dict_set_not_nil in H.
Qed.

Lemma write_all_app ws1 ws2 files :
  write_all (ws1 ++ ws2) files = write_all ws2 (write_all ws1 files).
Proof. apply fold_left_app. Qed.

(** What a name holds after a series of writes: the last thing written
    under it, and what the directory had if nothing was. *)
Lemma dict_get_write_all k ws : forall files,
  dict_get k (write_all ws files)
  = match last_written k ws with
    | Some f => Some f
    | None => dict_get k files
    end.
Proof.
  unfold last_written. induction ws as [|[k' v] ws IH]; intros files.
  - reflexivity.
  - cbn [write_all fold_left fst snd rev].
    change (fold_left (fun d kv => dict_set (fst kv) (snd kv) d) ws
                      (dict_set k' v files))
      with (write_all ws (dict_set k' v files)).
    rewrite IH.
    assert (G : forall d1 d2 : list (str * file),
               dict_get k (d1 ++ d2)
               = match dict_get k d1 with
                 | Some f => Some f
                 | None => dict_get k d2
                 end).
    { induction d1 as [|[k1 v1] d1 IHd]; intros d2; [reflexivity|].
      cbn. destruct (Str.eqb k k1); [reflexivity | apply IHd]. }
    rewrite G. destruct (dict_get k (rev ws)); [reflexivity|].
    cbn [dict_get]. destruct (Str.eqb k k') eqn:E.
    + apply eqb_eq in E. subst. apply dict_get_set_same.
    + apply eqb_neq in E. now apply dict_get_set_other.
Qed.

Section ImportFacts.

Variable library_text : exn -> str.
Variable output_dir : str.

(** A selection whose exceptions are all caught is gone through to the
    end. *)
Lemma import_loop_outcome file_paths :
  all_caught file_paths ->
  forall converted w,
    import_loop library_text output_dir file_paths converted w
    = Some (mk_Window (write_all (written output_dir file_paths) (desktop w))
                      (file_listbox w)
                      (shown w ++ reported library_text file_paths),
            Ok (converted ++ map fst (written output_dir file_paths))).
Proof.
  induction file_paths as [|[path [columns rows]] rest IH];
    intros Hno converted w.
  - cbn. rewrite !app_nil_r. now destruct w.
  - assert (Hrest : all_caught rest)
      by (intros f e Hf; apply Hno; now right).
    pose proof (Hno (path, (columns, rows))) as Hf. cbn [fst snd] in Hf.
    pose proof (convert_xlsx_to_ics_total columns rows) as Ht.
    cbn [import_loop]. unfold convert_and_write, written, reported.
    cbn [flat_map fst snd].
    destruct (convert_xlsx_to_ics columns rows) as [[cal|e]|];
      [| |contradiction].
    + fold (written output_dir rest). fold (reported library_text rest).
      rewrite IH by assumption. cbn [desktop file_listbox shown app map fst].
      now rewrite <- app_assoc.
    + fold (written output_dir rest). fold (reported library_text rest).
      rewrite (Hf e (or_introl eq_refl) eq_refl).
      rewrite IH by assumption.
      cbn [desktop file_listbox shown app].
      rewrite <- ?app_assoc. reflexivity.
Qed.

(** The first sheet whose exception is not caught ends the loop. *)
Lemma import_loop_stops before path columns rows after e :
  all_caught before ->
  convert_xlsx_to_ics columns rows = Some (Raise e) -> caught e = false ->
  forall converted w,
    import_loop library_text output_dir
                (before ++ (path, (columns, rows)) :: after) converted w
    = Some (mk_Window (write_all (written output_dir before) (desktop w))
                      (file_listbox w)
                      (shown w ++ reported library_text before),
            Raise e).
Proof.
  intros Hno Hconv Hc.
  induction before as [|[path' [columns' rows']] rest IH];
    intros converted w.
  - cbn [app import_loop]. unfold convert_and_write. rewrite Hconv, Hc.
    cbn. rewrite app_nil_r. now destruct w.
  - assert (Hrest : all_caught rest)
      by (intros f e' Hf; apply Hno; now right).
    pose proof (Hno (path', (columns', rows'))) as Hf. cbn [fst snd] in Hf.
    pose proof (convert_xlsx_to_ics_total columns' rows') as Ht.
    cbn [app import_loop]. unfold convert_and_write, written, reported.
    cbn [flat_map fst snd].
    destruct (convert_xlsx_to_ics columns' rows') as [[cal|e']|];
      [| |contradiction].
    + fold (written output_dir rest). fold (reported library_text rest).
      rewrite IH by assumption. cbn [desktop file_listbox shown app map fst].
      reflexivity.
    + fold (written output_dir rest). fold (reported library_text rest).
      rewrite (Hf e' (or_introl eq_refl) eq_refl).
      rewrite IH by assumption.
      cbn [desktop file_listbox shown app].
      rewrite <- ?app_assoc. reflexivity.
Qed.

End ImportFacts.

Lemma written_reported_count library_text output_dir file_paths :
  (List.length (written output_dir file_paths)
   + List.length (reported library_text file_paths)
   = List.length file_paths)%nat.
Proof.
  unfold written, reported.
  induction file_paths as [|[path [columns rows]] rest IH]; [reflexivity|].
  cbn [flat_map fst snd]. rewrite !length_app. cbn [List.length].
  destruct (convert_xlsx_to_ics columns rows) as [[cal|e]|] eqn:C;
    cbn [List.length]; try lia.
  now apply convert_xlsx_to_ics_total in C.
Qed.

(** The box of every sheet that fails: under the title Missing Column
    with the text of the exception for a ValueError, and under the
    title Error, with the base name of the sheet, for a TypeError. *)
Lemma reported_boxes library_text file_paths :
  all_caught file_paths ->
  Forall (fun d =>
            exists f e,
              In f file_paths /\
              convert_xlsx_to_ics (fst (snd f)) (snd (snd f))
              = Some (Raise e) /\
              ((is_ValueError e = true /\
                d = showerror (s "Missing Column") (exn_text library_text e))
               \/ (e = TypeError /\
                   d = showerror (s "Error")
                                 (s "Failed to convert "
                                    ++ Posixpath.basename (fst f)
                                    ++ s ":" ++ LF
                                    ++ library_text TypeError))))
         (reported library_text file_paths).
Proof.
  intros Hno. unfold reported. apply Forall_flat_map, Forall_forall.
  intros f Hf. destruct (convert_xlsx_to_ics _ _) as [[cal|e]|] eqn:C;
    repeat constructor.
  exists f, e. split; [assumption|]. split; [assumption|].
  specialize (Hno f e Hf C). unfold error_box, caught in *.
  destruct (is_ValueError e) eqn:V; [left; now split|].
  right. destruct e; try discriminate. now split.
Qed.

(** X15.  A selection of sheets none of which raises an AttributeError
    or an OverflowError is imported to the end, whatever fails on the
    way.  Every sheet that raises a ValueError, that of a missing
    column as well as those of a malformed time range and of a date
    name carried by two headers, gets one error box under the title
    Missing Column; every sheet that raises the TypeError gets one
    under the title Error, with its base name; the next sheet is still
    converted, and the others are written.  At the end comes one box
    Success that counts the sheets converted, and the list box is
    filled anew, unless no sheet was converted: then neither happens. *)
Theorem import_files_report library_text output_dir file_paths w :
  all_caught file_paths ->
  let ok := written output_dir file_paths in
  let failed := reported library_text file_paths in
  exists w',
    import_files library_text output_dir file_paths w = Some (w', Ok tt) /\
    desktop w' = write_all ok (desktop w) /\
    (List.length ok + List.length failed = List.length file_paths)%nat /\
    Forall (fun d =>
              exists f e,
                In f file_paths /\
                convert_xlsx_to_ics (fst (snd f)) (snd (snd f))
                = Some (Raise e) /\
                ((is_ValueError e = true /\
                  d = showerror (s "Missing Column")
                                (exn_text library_text e))
                 \/ (e = TypeError /\
                     d = showerror (s "Error")
                                   (s "Failed to convert "
                                      ++ Posixpath.basename (fst f)
                                      ++ s ":" ++ LF
                                      ++ library_text TypeError))))
           failed /\
    shown w'
    = shown w ++ failed
      ++ match ok with
         | [] => []
         | _ :: _ =>
             [showinfo (s "Success")
                       (s "Converted " ++ decimal (List.length ok)
                          ++ s " file(s).")]
         end /\
    file_listbox w'
    = match ok with
      | [] => file_listbox w
      | _ :: _ => sorted (map fst (desktop w'))
      end.
Proof.
  intros Hno ok failed. subst ok failed.
  pose proof (written_reported_count library_text output_dir file_paths)
    as Hcount.
  pose proof (reported_boxes library_text file_paths Hno) as Hfailed.
  destruct file_paths as [|f rest].
  - exists w. cbn. rewrite app_nil_r. repeat split; assumption.
  - unfold import_files.
    rewrite (import_loop_outcome library_text output_dir (f :: rest) Hno).
    cbn [app].
    destruct (written output_dir (f :: rest)) as [|o ok'] eqn:Eok.
    + cbn [map]. eexists. split; [reflexivity|].
      cbn [desktop shown file_listbox].
      rewrite app_nil_r. repeat split; assumption.
    + cbn [map]. eexists. split; [reflexivity|].
      cbn [refresh_file_list desktop shown file_listbox].
      cbn [List.length]. rewrite length_map, <- app_assoc.
      repeat split; try assumption.
      destruct (sorted (map fst (write_all (o :: ok') (desktop w)))) eqn:E;
        [|reflexivity].
      apply sorted_nil, map_eq_nil, write_all_nil in E.
      destruct E as [E _]. discriminate.
Qed.

Lemma four_sheets_caught : all_caught four_sheets.
Proof.
  intros f e [<-|[<-|[<-|[<-|[]]]]] H; vm_compute in H;
    inversion H; reflexivity.
Qed.

Lemma import_files_report_witness :
  exists w',
    import_files (fun _ => s "?") (s "/home/u/Desktop") four_sheets
                 (mk_Window [] [no_files_yet] [])
    = Some (w', Ok tt) /\
    shown w' = [showerror (s "Missing Column") (s "?");
                showerror (s "Missing Column") (s "?");
                showerror (s "Error")
                          (s "Failed to convert c.xlsx:" ++ LF ++ s "?");
                showinfo (s "Success") (s "Converted 1 file(s).")] /\
    file_listbox w' = [s "d.ics"].
Proof.
  destruct (import_files_report (fun _ => s "?") (s "/home/u/Desktop")
              four_sheets (mk_Window [] [no_files_yet] [])
              four_sheets_caught)
    as (w' & H & Hd & _ & _ & Hs & Hl).
  exists w'. split; [exact H|]. split; [exact Hs|].
  rewrite Hl, Hd. reflexivity.
Defined.

(** X16.  After such an import every name of the output directory holds
    what was written to it last: the calendar of the last sheet of the
    selection that was converted to that name, two sheets of one base
    name overwriting each other although both are counted, and what it
    held before when no sheet was. *)
Theorem import_files_overwrites library_text output_dir file_paths w name :
  all_caught file_paths ->
  exists w',
    import_files library_text output_dir file_paths w = Some (w', Ok tt) /\
    dict_get name (desktop w')
    = match last_written name (written output_dir file_paths) with
      | Some f => Some f
      | None => dict_get name (desktop w)
      end.
Proof.
  intros Hno. destruct file_paths as [|f rest].
  - exists w. split; reflexivity.
  - unfold import_files.
    rewrite (import_loop_outcome library_text output_dir (f :: rest) Hno).
    cbn [app].
    destruct (map fst (written output_dir (f :: rest)));
      (eexists; split; [reflexivity|]);
      cbn [refresh_file_list desktop]; apply dict_get_write_all.
Qed.

Lemma two_plans_caught : all_caught two_plans.
Proof.
  intros f e [<-|[<-|[<-|[]]]] H; vm_compute in H;
    inversion H; reflexivity.
Qed.

Lemma import_files_overwrites_witness :
  exists w',
    import_files (fun _ => s "?") (s "/home/u/Desktop") two_plans
                 (mk_Window [(s "plan.ics", OtherFile)] [] [])
    = Some (w', Ok tt) /\
    dict_get (s "plan.ics") (desktop w') = Some (Calendar []).
Proof.
  apply (import_files_overwrites (fun _ => s "?") (s "/home/u/Desktop")
           two_plans (mk_Window [(s "plan.ics", OtherFile)] [] [])
           (s "plan.ics") two_plans_caught).
Defined.

(** X17.  The first sheet of a selection that raises an exception the
    two clauses do not name, the AttributeError of a sheet without
    string headers or the OverflowError of a date at the end of the
    calendar, ends the import: the exception leaves [import_files].
    The sheets before it have been written and their error boxes
    shown; the sheets after it are not looked at, no box Success is
    shown and the list box is not filled anew, although the directory
    has new files. *)
Theorem import_files_stops library_text output_dir before path columns rows
  after e w :
  all_caught before ->
  convert_xlsx_to_ics columns rows = Some (Raise e) -> caught e = false ->
  import_files library_text output_dir
               (before ++ (path, (columns, rows)) :: after) w
  = Some (mk_Window (write_all (written output_dir before) (desktop w))
                    (file_listbox w)
                    (shown w ++ reported library_text before),
          Raise e) /\
  (e = AttributeError \/ e = OverflowError).
Proof.
  intros Hno Hconv Hc. split.
  - unfold import_files.
    rewrite (import_loop_stops library_text output_dir before path columns
               rows after e Hno Hconv Hc).
    now destruct before.
  - destruct e; try discriminate; tauto.
Qed.

Lemma import_files_stops_witness :
  import_files (fun _ => s "?") (s "/home/u/Desktop")
               (four_sheets ++ (s "/in/empty.xlsx", ([], [])) :: two_plans)
               (mk_Window [] [no_files_yet] [])
  = Some (mk_Window
            [(s "d.ics",
              Calendar [instance (s "CS 101") (s "M|9:00 AM-9:50 AM") []
                                 (mk_time 9 0) (mk_time 9 50) (jan 8)])]
            [no_files_yet]
            [showerror (s "Missing Column") (s "?");
             showerror (s "Missing Column") (s "?");
             showerror (s "Error")
                       (s "Failed to convert c.xlsx:" ++ LF ++ s "?")],
          Raise AttributeError).
Proof.
  apply (import_files_stops (fun _ => s "?") (s "/home/u/Desktop")
           four_sheets (s "/in/empty.xlsx") [] [] two_plans AttributeError
           (mk_Window [] [no_files_yet] []) four_sheets_caught
           eq_refl eq_refl).
Defined.

